(** * Code-relay: the judging core of the participant routes

    A shallow embedding of [backend/services/codeExecutor.js] (the testcase
    runner and the execution client) and of the participant routes of
    [backend/routes/participantRoutes.js] that guard, run and score code:
    login, the levels listing, [isExamUnlocked], the questions listing,
    run and submit.

    Conventions of the embedding.
    - A JavaScript string is the list of its UTF-16 code units.
    - Integers of the program (ids, millisecond clocks, time limits) are [Z];
      the numbers that come out of a division (score, mean execution time)
      are IEEE binary64 floats, as every JavaScript number is.
    - [null] and [undefined] are [None] where the code only tests the value
      for truth; where it reads a property of the value unguarded
      ([error.response.data], [response.data.run]) the two are told apart,
      as the TypeError they raise words them differently.
    - The execution service, the wall clock and the string functions of the JavaScript
      runtime that are not modelled (lower-casing, SHA-256, locale
      comparison, token signing) are the fields of the class [Platform].
    - Effects are explicit: a computation takes the environment (the state
      of the outside world and the log of the requests posted to the
      execution service) and returns a completion, normal or thrown, with the new
      environment.  Reading the database takes no time: the clock only
      moves when the execution service is called.
    - The tables of the database are lists of rows; [exams] is the list as
      the query ordered by (sequence, createdAt) returns it.  Reads of the
      database succeed; the write of a submission can fail in
      [submit_storing], and [submit] is the route when it succeeds.
    - A number of a request body is an integer; [parseInt] of it is
      [parseInt_number].
    - [console.log] and [console.error] are left out. *)

From Stdlib Require Import ZArith List Bool Lia String Ascii.
From Stdlib Require Import PrimFloat Uint63.
Import ListNotations.

Local Open Scope Z_scope.

(** ** JavaScript strings *)

Definition jsstring := list N.

Definition lit (s : string) : jsstring :=
  map N_of_ascii (list_ascii_of_string s).

Fixpoint str_eqb (a b : jsstring) : bool :=
  match a, b with
  | [], [] => true
  | x :: a', y :: b' => N.eqb x y && str_eqb a' b'
  | _, _ => false
  end.

(** The code units that [String.prototype.trim] strips: ECMAScript's
    WhiteSpace and LineTerminator, all of them in the basic plane. *)
Definition isWhiteSpace (c : N) : bool :=
  existsb (N.eqb c)
    [9; 10; 11; 12; 13; 32; 160; 5760; 8232; 8233; 8239; 8287; 12288; 65279]%N
  || (N.leb 8192 c && N.leb c 8202).

Fixpoint trimStart (s : jsstring) : jsstring :=
  match s with
  | [] => []
  | c :: s' => if isWhiteSpace c then trimStart s' else s
  end.

Definition trimEnd (s : jsstring) : jsstring := rev (trimStart (rev s)).

Definition trim (s : jsstring) : jsstring := trimEnd (trimStart s).

(** [a || b] on a possibly missing string: the empty string is falsy. *)
Definition or_str (a : option jsstring) (b : jsstring) : jsstring :=
  match a with
  | Some (c :: s) => c :: s
  | _ => b
  end.

(** [a || null]. *)
Definition or_null (a : option jsstring) : option jsstring :=
  match a with
  | Some (c :: s) => Some (c :: s)
  | _ => None
  end.

(** [n || d] on a number: zero is falsy. *)
Definition or_num (n d : Z) : Z := if n =? 0 then d else n.

Fixpoint uint_codes (d : Decimal.uint) : jsstring :=
  match d with
  | Decimal.Nil => []
  | Decimal.D0 d => 48%N :: uint_codes d
  | Decimal.D1 d => 49%N :: uint_codes d
  | Decimal.D2 d => 50%N :: uint_codes d
  | Decimal.D3 d => 51%N :: uint_codes d
  | Decimal.D4 d => 52%N :: uint_codes d
  | Decimal.D5 d => 53%N :: uint_codes d
  | Decimal.D6 d => 54%N :: uint_codes d
  | Decimal.D7 d => 55%N :: uint_codes d
  | Decimal.D8 d => 56%N :: uint_codes d
  | Decimal.D9 d => 57%N :: uint_codes d
  end.

(** An integer inside a template literal. *)
Definition num_str (z : Z) : jsstring :=
  match z with
  | Z0 => lit "0"
  | Zpos p => uint_codes (Pos.to_uint p)
  | Zneg p => lit "-" ++ uint_codes (Pos.to_uint p)
  end.

(** A nullable integer inside a template literal. *)
Definition opt_num_str (z : option Z) : jsstring :=
  match z with
  | Some n => num_str n
  | None => lit "null"
  end.

(** ** JavaScript numbers that are not integers *)

Definition float_of_Z (z : Z) : float :=
  if z <? 0 then PrimFloat.opp (PrimFloat.of_uint63 (Uint63.of_Z (- z)))
  else PrimFloat.of_uint63 (Uint63.of_Z z).

Definition float_of_nat (n : nat) : float := float_of_Z (Z.of_nat n).

(** ** Thrown values *)

(** What [error.response.data] holds on an axios error that has a response:
    nothing ([undefined]), [null], or a body, with its [message] when it has
    one. *)
Inductive error_response : Type :=
| NoData
| NullData
| Data (msg : option jsstring).

Record jserror : Type := mkError {
  err_message : jsstring;
  err_response : option error_response
}.

Definition Error (msg : jsstring) : jserror := mkError msg None.

(** V8's wording of the TypeErrors the code can run into. *)
Definition TypeError_reading (prop : string) (base : string) : jserror :=
  Error (lit "Cannot read properties of " ++ lit base
         ++ lit " (reading '" ++ lit prop ++ lit "')").

Inductive completion (A : Type) : Type :=
| Normal (a : A)
| Throw (e : jserror).

Arguments Normal {A} a.
Arguments Throw {A} e.

(** ** The interface of the execution service (Piston) *)

Record runtime : Type := mkRuntime {
  rt_language : jsstring;
  rt_version : jsstring
}.

Record execute_request : Type := mkRequest {
  req_language : jsstring;
  req_version : jsstring;
  req_files : list jsstring;
  req_stdin : jsstring;
  compile_timeout : Z;
  run_timeout : Z
}.

Record stage : Type := mkStage {
  st_code : option Z;
  st_signal : option jsstring;
  st_stdout : option jsstring;
  st_stderr : option jsstring;
  st_output : option jsstring
}.

(** [response.data.run]: the property is missing ([undefined]), is [null],
    or holds a stage.  The code reads [.code] of it unguarded, which throws
    on the first two, in different words. *)
Inductive run_stage : Type :=
| NoRun
| NullRun
| Run (run : stage).

(** The fields of a stage and [response.data.compile] are only tested for
    truth or against 0, which [null] and [undefined] answer alike: [None]
    stands for both. *)
Record piston_response : Type := mkPiston {
  pr_compile : option stage;
  pr_run : run_stage
}.

Class Platform : Type := {
  World : Type;
  (** [Date.now()] *)
  clock : World -> Z;
  (** [axios.get(PISTON_API/runtimes)] *)
  axios_get_runtimes : World -> completion (list runtime) * World;
  (** [axios.post(PISTON_API/execute, request)] *)
  axios_post_execute : execute_request -> World -> completion piston_response * World;
  (** [String.prototype.toLowerCase] *)
  toLowerCase : jsstring -> jsstring;
  (** The property of that name that every object inherits from
      [Object.prototype], as it prints in a template literal. *)
  inherited_property : jsstring -> option jsstring;
  (** [crypto.createHash('sha256').update(s).digest('hex')] *)
  sha256_hex : jsstring -> jsstring;
  (** [a.localeCompare(b)] *)
  localeCompare : jsstring -> jsstring -> Z;
  (** [jwt.sign({participantId, examId}, secret, options)] *)
  jwt_sign : Z -> option Z -> jsstring
}.

(** ** Results of the execution client and of the testcase runner *)

Record exec_result : Type := mkExec {
  output : jsstring;
  error : option jsstring;
  executionTime : Z
}.

(** A testcase id is a row id, or the string the run route gives its ad-hoc
    testcase. *)
Inductive ident : Type :=
| IdNum (n : Z)
| IdStr (s : jsstring).

Definition ident_eqb (a b : ident) : bool :=
  match a, b with
  | IdNum x, IdNum y => x =? y
  | IdStr x, IdStr y => str_eqb x y
  | _, _ => false
  end.

(** What [runTestcases] reads of a testcase. *)
Record runnable : Type := mkRunnable {
  r_id : ident;
  r_input : jsstring;
  r_expectedOutput : jsstring
}.

Record outcome : Type := mkOutcome {
  o_testcaseId : ident;
  o_passed : bool;
  o_input : jsstring;
  o_expectedOutput : jsstring;
  o_actualOutput : jsstring;
  o_error : option jsstring;
  o_executionTime : Z
}.

Definition languageMap : list (jsstring * jsstring) :=
  [ (lit "C", lit "c"); (lit "C++", lit "c++");
    (lit "Python", lit "python"); (lit "Java", lit "java") ].

Fixpoint own_property (key : jsstring) (m : list (jsstring * jsstring)) : option jsstring :=
  match m with
  | [] => None
  | (k, v) :: m' => if str_eqb k key then Some v else own_property key m'
  end.

(** A value that [languageMap[language] || language.toLowerCase()] can be:
    a string, or the inherited function or object, with its printed form. *)
Inductive looked_up : Type :=
| AString (s : jsstring)
| AnObject (printed : jsstring).

Section Effects.

Context {P : Platform}.

Record Env : Type := mkEnv {
  world : World;
  sent : list execute_request
}.

Definition JS (A : Type) : Type := Env -> completion A * Env.

Definition ret {A} (a : A) : JS A := fun env => (Normal a, env).

Definition throw {A} (e : jserror) : JS A := fun env => (Throw e, env).

Definition bind {A B} (m : JS A) (k : A -> JS B) : JS B :=
  fun env =>
    match m env with
    | (Normal a, env') => k a env'
    | (Throw e, env') => (Throw e, env')
    end.

Definition try_catch {A} (m : JS A) (handler : jserror -> JS A) : JS A :=
  fun env =>
    match m env with
    | (Normal a, env') => (Normal a, env')
    | (Throw e, env') => handler e env'
    end.

Definition Date_now : JS Z := fun env => (Normal (clock (world env)), env).

Definition axios_get : JS (list runtime) :=
  fun env =>
    let (r, w) := axios_get_runtimes (world env) in
    (r, mkEnv w (sent env)).

Definition axios_post (req : execute_request) : JS piston_response :=
  fun env =>
    let (r, w) := axios_post_execute req (world env) in
    (r, mkEnv w (sent env ++ [req])).

End Effects.

Declare Scope js_scope.
Delimit Scope js_scope with js.
Notation "x <- m ;; k" := (bind m (fun x => k))
  (at level 61, m at next level, right associativity) : js_scope.

Local Open Scope js_scope.

(** ** codeExecutor.js *)

Section CodeExecutor.

Context {P : Platform}.

(** [x !== 0] on an exit code that may be missing. *)
Definition neq0 (c : option Z) : bool :=
  match c with
  | Some 0 => false
  | _ => true
  end.

Definition truthy_str (s : option jsstring) : bool :=
  match s with
  | Some (_ :: _) => true
  | _ => false
  end.

(** [languageMap[language] || language.toLowerCase()].  The map is an
    object literal: a key it does not own is looked up in
    [Object.prototype]. *)
Definition pistonLanguageOf (language : jsstring) : looked_up :=
  match own_property language languageMap with
  | Some v => AString (or_str (Some v) (toLowerCase language))
  | None =>
      match inherited_property language with
      | Some printed => AnObject printed
      | None => AString (toLowerCase language)
      end
  end.

Definition not_supported (language tried : jsstring) : jserror :=
  Error (lit "Language " ++ language ++ lit " not supported. Tried: " ++ tried).

(** The part of [executeCode] that reads [response.data.run]. *)
Definition classify_run (response : piston_response) (executionTime : Z) : JS exec_result :=
  match pr_run response with
  | NoRun => throw (TypeError_reading "code" "undefined")
  | NullRun => throw (TypeError_reading "code" "null")
  | Run run =>
      if neq0 (st_code run) && truthy_str (st_signal run) then
        ret {| output := or_str (st_stdout run) [];
               error := Some (or_str (st_stderr run)
                                (lit "Runtime error (signal: "
                                 ++ or_str (st_signal run) [] ++ lit ")"));
               executionTime := executionTime |}
      else
        ret {| output := or_str (st_stdout run) [];
               error := or_null (st_stderr run);
               executionTime := executionTime |}
  end.

(** The [catch] block of [executeCode]. *)
Definition executeCode_catch (startTime : Z) (error : jserror) : JS exec_result :=
  now <- Date_now ;;
  let executionTime := now - startTime in
  match err_response error with
  | Some NoData => throw (TypeError_reading "message" "undefined")
  | Some NullData => throw (TypeError_reading "message" "null")
  | Some (Data msg) =>
      ret {| output := [];
             error := Some (lit "API Error: " ++ or_str msg (err_message error));
             executionTime := executionTime |}
  | None =>
      ret {| output := [];
             error := Some (err_message error);
             executionTime := executionTime |}
  end.

Definition executeCode (code language input : jsstring) (timeLimit : Z) : JS exec_result :=
  startTime <- Date_now ;;
  try_catch
    (match pistonLanguageOf language with
     | AnObject printed =>
         (* no runtime's language is [===] to an object *)
         runtimesResponse <- axios_get ;;
         throw (not_supported language printed)
     | AString pistonLanguage =>
         runtimesResponse <- axios_get ;;
         match find (fun r => str_eqb (rt_language r) pistonLanguage) runtimesResponse with
         | None => throw (not_supported language pistonLanguage)
         | Some runtime =>
             (* Convert timeLimit from seconds to milliseconds *)
             let runTimeoutMs := or_num timeLimit 5 * 1000 in
             response <- axios_post
               {| req_language := pistonLanguage;
                  req_version := rt_version runtime;
                  req_files := [code];
                  req_stdin := or_str (Some input) [];
                  compile_timeout := 10000;
                  run_timeout := runTimeoutMs |} ;;
             now <- Date_now ;;
             let executionTime := now - startTime in
             match pr_compile response with
             | Some compile =>
                 if neq0 (st_code compile) then
                   ret {| output := [];
                          error := Some (or_str (st_stderr compile)
                                           (or_str (st_output compile)
                                              (lit "Compilation error")));
                          executionTime := executionTime |}
                 else classify_run response executionTime
             | None => classify_run response executionTime
             end
         end
     end)
    (executeCode_catch startTime).

(** One turn of the loop of [runTestcases]: the [try] block and its
    [catch]. *)
Definition runTestcase (code language : jsstring) (timeLimit : Z) (testcase : runnable) : JS outcome :=
  try_catch
    (result <- executeCode code language (r_input testcase) timeLimit ;;
     let actualOutput := trim (output result) in
     let expectedOutput := trim (r_expectedOutput testcase) in
     let passed := str_eqb actualOutput expectedOutput in
     ret {| o_testcaseId := r_id testcase;
            o_passed := passed;
            o_input := r_input testcase;
            o_expectedOutput := r_expectedOutput testcase;
            o_actualOutput := output result;
            o_error := error result;
            o_executionTime := executionTime result |})
    (fun error =>
     ret {| o_testcaseId := r_id testcase;
            o_passed := false;
            o_input := r_input testcase;
            o_expectedOutput := r_expectedOutput testcase;
            o_actualOutput := [];
            o_error := Some (err_message error);
            o_executionTime := 0 |}).

(** [for (const testcase of testcases) { ... results.push(...) }] *)
Fixpoint for_testcases (code language : jsstring) (timeLimit : Z)
    (testcases : list runnable) (results : list outcome) : JS (list outcome) :=
  match testcases with
  | [] => ret results
  | testcase :: rest =>
      r <- runTestcase code language timeLimit testcase ;;
      for_testcases code language timeLimit rest (results ++ [r])
  end.

(** The fifth parameter is received and never read. *)
Definition runTestcases (code language : jsstring) (testcases : list runnable)
    (timeLimit : Z) (memoryLimit : jsstring) : JS (list outcome) :=
  for_testcases code language timeLimit testcases [].

End CodeExecutor.

(** ** The data the routes read and write *)

Inductive visibility : Type := VISIBLE | HIDDEN.

Definition visibility_eqb (a b : visibility) : bool :=
  match a, b with
  | VISIBLE, VISIBLE | HIDDEN, HIDDEN => true
  | _, _ => false
  end.

Record testcase : Type := mkTestcase {
  tc_id : Z;
  tc_input : jsstring;
  tc_expectedOutput : jsstring;
  tc_visibility : visibility
}.

Record question : Type := mkQuestion {
  q_id : Z;
  q_examId : Z;
  q_title : jsstring;
  q_timeLimit : option Z;
  q_memoryLimit : option Z;
  q_maxMarks : float;
  q_testcases : list testcase
}.

Record submission : Type := mkSubmission {
  s_id : Z;
  s_participantId : Z;
  s_questionId : Z;
  s_language : jsstring;
  s_code : jsstring;
  s_score : float;
  s_totalTests : nat;
  s_passedTests : nat;
  s_status : jsstring;
  s_executionTime : float;
  s_createdAt : Z
}.

Record exam : Type := mkExam {
  exam_id : Z;
  exam_code : jsstring;
  exam_title : jsstring;
  exam_sequence : Z;
  exam_startTime : option Z;
  exam_endTime : option Z
}.

Record participant : Type := mkParticipant {
  p_id : Z;
  p_participantId : jsstring;
  p_collegeName : option jsstring;
  p_exams : list Z
}.

Record DB : Type := mkDB {
  exams : list exam;
  questions : list question;
  submissions : list submission;
  participants : list participant
}.

Definition COMPLETED : jsstring := lit "COMPLETED".

(** *** Queries *)

(** [prisma.question.findMany({ where: { examId } })] *)
Definition questionsOfExam (db : DB) (examId : Z) : list question :=
  filter (fun q => q_examId q =? examId) (questions db).

(** [prisma.question.findUnique({ where: { id } })] *)
Definition findQuestion (db : DB) (id : Z) : option question :=
  find (fun q => q_id q =? id) (questions db).

(** [prisma.participant.findUnique({ where: { id } })] *)
Definition findParticipant (db : DB) (id : Z) : option participant :=
  find (fun p => p_id p =? id) (participants db).

(** [distinct: ['questionId']]: the first row of each question id. *)
Fixpoint distinct_questionId (seen : list Z) (rows : list submission) : list submission :=
  match rows with
  | [] => []
  | s :: rows' =>
      if existsb (Z.eqb (s_questionId s)) seen then distinct_questionId seen rows'
      else s :: distinct_questionId (s_questionId s :: seen) rows'
  end.

(** [prisma.submission.findMany({ where: { participantId, questionId: { in },
    ...extra }, distinct: ['questionId'] })] *)
Definition submissionsWhere (db : DB) (extra : submission -> bool)
    (participantId : Z) (questionIds : list Z) : list submission :=
  distinct_questionId []
    (filter (fun s => (s_participantId s =? participantId)
                      && existsb (Z.eqb (s_questionId s)) questionIds
                      && extra s)
            (submissions db)).

(** [status: 'COMPLETED'] *)
Definition statusCompleted (s : submission) : bool := str_eqb (s_status s) COMPLETED.

(** [score: { gt: 0 }] *)
Definition scorePositive (s : submission) : bool := PrimFloat.ltb 0%float (s_score s).

(** [timedOut] of a level: its [endTime] is set and lies before now. *)
Definition timedOut (e : exam) (now : Z) : bool :=
  match exam_endTime e with
  | Some endTime => now >? endTime
  | None => false
  end.

(** ** POST /login: the highest unlocked exam *)

Fixpoint login_scan (db : DB) (participantId : Z) (prevExam : exam) (rest : list exam)
    (activeExam : exam) : exam :=
  match rest with
  | [] => activeExam
  | exam :: rest' =>
      let prevQuestions := questionsOfExam db (exam_id prevExam) in
      let prevSubmissions :=
        submissionsWhere db scorePositive (* Or any logic for "completed" *)
          participantId (map q_id prevQuestions) in
      if Nat.eqb (List.length prevSubmissions) (List.length prevQuestions)
         && Nat.ltb 0 (List.length prevQuestions)
      then login_scan db participantId exam rest' exam
      else activeExam (* break: level locked *)
  end.

Definition login_activeExam (db : DB) (participantId : Z) : option exam :=
  match exams db with
  | [] => None
  | first :: rest => Some (login_scan db participantId first rest first)
  end.

(** ** GET /exams: the levels listing *)

Record exam_status : Type := mkStatus {
  es_exam : exam;
  es_unlocked : bool;
  es_joined : bool;
  es_needsCode : bool;
  es_completed : bool;
  es_isLive : bool
}.

Definition isLive (e : exam) (nowTime : Z) : bool :=
  match exam_startTime e, exam_endTime e with
  | Some start, Some end_ => (nowTime >=? start) && (nowTime <=? end_)
  | Some start, None => nowTime >=? start
  | None, Some end_ => nowTime <=? end_
  | None, None => true
  end.

(** The body of the loop of GET /exams from index [i]: [prev] is
    [exams[i - 1]], missing when [i === 0]. *)
Fixpoint examStatus_from (db : DB) (participantId : Z) (joinedExamIds : list Z) (now : Z)
    (prev : option exam) (previousUnlocked : bool) (rest : list exam) : list exam_status :=
  match rest with
  | [] => []
  | exam :: rest' =>
      let unlocked :=
        match prev with
        | None => true
        | Some prevExam =>
            if previousUnlocked then
              let prevQuestions := questionsOfExam db (exam_id prevExam) in
              if Nat.ltb 0 (List.length prevQuestions) then
                let prevSubmissions :=
                  submissionsWhere db statusCompleted participantId
                    (map q_id prevQuestions) in
                let completed :=
                  Nat.eqb (List.length prevSubmissions) (List.length prevQuestions) in
                (* NEW: Also check if previous exam has timed out *)
                completed || timedOut prevExam now
              else false
            else false
        end in
      let currentQuestions := questionsOfExam db (exam_id exam) in
      let completed :=
        if Nat.ltb 0 (List.length currentQuestions) then
          let currentSubmissions :=
            submissionsWhere db statusCompleted participantId (map q_id currentQuestions) in
          Nat.eqb (List.length currentSubmissions) (List.length currentQuestions)
        else false in
      let joined := existsb (Z.eqb (exam_id exam)) joinedExamIds in
      {| es_exam := exam;
         es_unlocked := unlocked;
         es_joined := joined;
         es_needsCode := negb joined;
         es_completed := completed;
         es_isLive := isLive exam now |}
      :: examStatus_from db participantId joinedExamIds now (Some exam) unlocked rest'
  end.

Definition examStatus (db : DB) (participantId : Z) (joinedExamIds : list Z) (now : Z) : list exam_status :=
  examStatus_from db participantId joinedExamIds now None true (exams db).

(** ** isExamUnlocked: the helper the questions, run and submit routes call first *)

Fixpoint findIndex {A : Type} (f : A -> bool) (l : list A) : option nat :=
  match l with
  | [] => None
  | x :: l' => if f x then Some O else option_map S (findIndex f l')
  end.

(** [for (let i = 0; i < targetExamIndex; i++) { ... return false ... }
    return true], over the levels before the target. *)
Fixpoint previous_levels_pass (db : DB) (participantId : Z) (now : Z) (prevs : list exam) : bool :=
  match prevs with
  | [] => true
  | prevExam :: rest =>
      let prevQuestions := questionsOfExam db (exam_id prevExam) in
      let prevSubmissions :=
        submissionsWhere db statusCompleted participantId (map q_id prevQuestions) in
      let completed := Nat.eqb (List.length prevSubmissions) (List.length prevQuestions) in
      if negb completed && negb (timedOut prevExam now) && Nat.ltb 0 (List.length prevQuestions)
      then false
      else previous_levels_pass db participantId now rest
  end.

Definition isExamUnlocked (db : DB) (now : Z) (participantId examId : Z) : bool :=
  match findIndex (fun e => exam_id e =? examId) (exams db) with
  | None => false
  | Some O => true
  | Some targetExamIndex =>
      previous_levels_pass db participantId now (firstn targetExamIndex (exams db))
  end.

(** ** Responses *)

Record testcase_view : Type := mkTestcaseView {
  tv_id : Z;
  tv_input : jsstring;
  tv_expectedOutput : jsstring
}.

Record submission_brief : Type := mkBrief {
  sb_code : jsstring;
  sb_language : jsstring;
  sb_createdAt : Z;
  sb_score : float;
  sb_status : jsstring
}.

Record question_view : Type := mkQuestionView {
  qv_id : Z;
  qv_title : jsstring;
  qv_timeLimit : option Z;
  qv_memoryLimit : option Z;
  qv_testcases : list testcase_view;
  qv_submissions : list submission_brief
}.

Record submission_view : Type := mkSubmissionView {
  sv_id : Z;
  sv_score : float;
  sv_totalTests : nat;
  sv_passedTests : nat;
  sv_status : jsstring;
  sv_executionTime : float;
  sv_createdAt : Z;
  sv_testcaseResults : list outcome
}.

Record login_view : Type := mkLoginView {
  lv_token : jsstring;
  lv_id : Z;
  lv_participantId : jsstring;
  lv_collegeName : option jsstring;
  lv_activeExamId : option Z;
  lv_activeExamTitle : option jsstring
}.

Inductive body : Type :=
| ErrorBody (error : jsstring)
| LoginBody (message : jsstring) (participant : login_view)
| ExamsBody (exams : list exam_status)
| QuestionsBody (questions : list question_view)
| RunBody (results : list outcome)
| SubmitBody (message : jsstring) (submission : submission_view).

Record http_response : Type := mkResponse {
  status : Z;
  payload : body
}.

Definition json (b : body) : http_response := mkResponse 200 b.

Definition fail (code : Z) (msg : string) : http_response :=
  mkResponse code (ErrorBody (lit msg)).

(** [Array.prototype.sort(compare)]: stable; [a] stays before [b] unless
    [compare(a, b) > 0]. *)
Fixpoint insert_by {A : Type} (compare : A -> A -> Z) (x : A) (l : list A) : list A :=
  match l with
  | [] => [x]
  | y :: l' => if compare x y <=? 0 then x :: y :: l' else y :: insert_by compare x l'
  end.

Definition sort_by {A : Type} (compare : A -> A -> Z) (l : list A) : list A :=
  fold_right (insert_by compare) [] l.

(** ** The request bodies *)

Record run_body : Type := mkRunBody {
  rb_questionId : option Z;
  rb_language : option jsstring;
  rb_code : option jsstring;
  rb_customInput : option jsstring;
  rb_customExpectedOutput : option jsstring
}.

Record submit_body : Type := mkSubmitBody {
  sub_questionId : option Z;
  sub_language : option jsstring;
  sub_code : option jsstring
}.

(** [!questionId || !language || !code] is false: the three values. *)
Definition required (questionId : option Z) (language code : option jsstring)
    : option (Z * jsstring * jsstring) :=
  match questionId, language, code with
  | Some q, Some (l :: ls), Some (c :: cs) =>
      if q =? 0 then None else Some (q, l :: ls, c :: cs)
  | _, _, _ => None
  end.

Definition as_runnable (tc : testcase) : runnable :=
  {| r_id := IdNum (tc_id tc);
     r_input := tc_input tc;
     r_expectedOutput := tc_expectedOutput tc |}.

Definition isVisible (tc : testcase) : bool := visibility_eqb (tc_visibility tc) VISIBLE.

(** [participant.exams.some(e => e.id === examId)] *)
Definition hasJoined (p : participant) (examId : Z) : bool :=
  existsb (fun id => id =? examId) (p_exams p).

(** *** POST /run *)

(** The ad-hoc testcase of a run with custom input. *)
Definition customTestcase (q : question) (customInput : jsstring)
    (customExpectedOutput : option jsstring) : runnable :=
  let normalizedCustomInput := trim customInput in
  let matchingTestcase :=
    find (fun tc => str_eqb (trim (tc_input tc)) normalizedCustomInput) (q_testcases q) in
  let expectedOutput :=
    match matchingTestcase with
    | Some tc => tc_expectedOutput tc
    | None => or_str customExpectedOutput []
    end in
  {| r_id := IdStr (lit "custom");
     r_input := customInput;
     r_expectedOutput := expectedOutput |}.

(** [testcasesToRun], or nothing when the route answers 400. *)
Definition testcasesToRun (q : question) (customInput customExpectedOutput : option jsstring)
    : option (list runnable) :=
  match customInput with
  | Some customInput => Some [customTestcase q customInput customExpectedOutput]
  | None =>
      let visibleTestcases := filter isVisible (q_testcases q) in
      if Nat.eqb (List.length visibleTestcases) 0 then None
      else Some (map as_runnable visibleTestcases)
  end.

(** [question.timeLimit ? question.timeLimit * 1000 : 5000] *)
Definition run_timeLimit (q : question) : Z :=
  match q_timeLimit q with
  | Some t => if t =? 0 then 5000 else t * 1000
  | None => 5000
  end.

(** [question.memoryLimit ? `${question.memoryLimit}m` : '256m'] *)
Definition run_memoryLimit (q : question) : jsstring :=
  match q_memoryLimit q with
  | Some m => if m =? 0 then lit "256m" else num_str m ++ lit "m"
  | None => lit "256m"
  end.

(** [question.timeLimit * 1000]; [null * 1000] is [0]. *)
Definition submit_timeLimit (q : question) : Z :=
  match q_timeLimit q with
  | Some t => t * 1000
  | None => 0
  end.

(** [`${question.memoryLimit}m`] *)
Definition submit_memoryLimit (q : question) : jsstring :=
  opt_num_str (q_memoryLimit q) ++ lit "m".

(** *** POST /submit: the score *)

Definition totalTests (results : list outcome) : nat := List.length results.

Definition passedTests (results : list outcome) : nat :=
  List.length (filter o_passed results).

(** [(passedTests / totalTests) * maxMarks] *)
Definition score (results : list outcome) (maxMarks : float) : float :=
  PrimFloat.mul
    (PrimFloat.div (float_of_nat (passedTests results)) (float_of_nat (totalTests results)))
    maxMarks.

(** [results.reduce((sum, r) => sum + r.executionTime, 0)]: a sum of
    integers, exact in a double below 2^53. *)
Definition sumExecutionTime (results : list outcome) : Z :=
  fold_left (fun sum r => sum + o_executionTime r) results 0.

Definition avgExecutionTime (results : list outcome) : float :=
  PrimFloat.div (float_of_Z (sumExecutionTime results)) (float_of_nat (totalTests results)).

(** The id the database gives a new row. *)
Definition next_id (rows : list submission) : Z :=
  1 + fold_right (fun s m => Z.max (s_id s) m) 0 rows.

(** The results of the visible testcases, as the submit route returns
    them. *)
Definition visibleTestcaseResults (q : question) (results : list outcome) : list outcome :=
  filter (fun r =>
            match find (fun t => ident_eqb (IdNum (tc_id t)) (o_testcaseId r)) (q_testcases q) with
            | Some tc => isVisible tc
            | None => false
            end)
         results.

(** *** GET /questions: what is selected of a question *)

Definition view_testcase (tc : testcase) : testcase_view :=
  {| tv_id := tc_id tc; tv_input := tc_input tc; tv_expectedOutput := tc_expectedOutput tc |}.

Definition brief (s : submission) : submission_brief :=
  {| sb_code := s_code s; sb_language := s_language s; sb_createdAt := s_createdAt s;
     sb_score := s_score s; sb_status := s_status s |}.

Definition view_question (db : DB) (participantId : Z) (q : question) : question_view :=
  {| qv_id := q_id q;
     qv_title := q_title q;
     qv_timeLimit := q_timeLimit q;
     qv_memoryLimit := q_memoryLimit q;
     qv_testcases := map view_testcase (filter isVisible (q_testcases q));
     qv_submissions :=
       map brief
         (sort_by (fun a b => s_createdAt b - s_createdAt a)
            (filter (fun s => (s_questionId s =? q_id q) && (s_participantId s =? participantId))
                    (submissions db))) |}.

(** ** The routes *)

Section Routes.

Context {P : Platform}.

(** [x?.id || null] *)
Definition id_or_null (e : option exam) : option Z :=
  match e with
  | Some e => if exam_id e =? 0 then None else Some (exam_id e)
  | None => None
  end.

Definition title_or_null (e : option exam) : option jsstring :=
  match e with
  | Some e => or_null (Some (exam_title e))
  | None => None
  end.

(** POST /login *)
Definition login (db : DB) (participantId : option jsstring) : http_response :=
  match option_map trim participantId with
  | Some (c :: s) =>
      let normalizedParticipantId := c :: s in
      match find (fun p => str_eqb (p_participantId p) normalizedParticipantId)
                 (participants db) with
      | None => fail 401 "Invalid credentials. Team name not found."
      | Some participant =>
          let activeExam := login_activeExam db (p_id participant) in
          let token := jwt_sign (p_id participant) (id_or_null activeExam) in
          json (LoginBody (lit "Login successful")
                  {| lv_token := token;
                     lv_id := p_id participant;
                     lv_participantId := p_participantId participant;
                     lv_collegeName := p_collegeName participant;
                     lv_activeExamId := id_or_null activeExam;
                     lv_activeExamTitle := title_or_null activeExam |})
      end
  | _ => fail 400 "Team Name is required"
  end.

(** GET /exams *)
Definition getExams (db : DB) (participantId : Z) : JS http_response :=
  try_catch
    (match findParticipant db participantId with
     | None => throw (TypeError_reading "exams" "null")
     | Some participant =>
         now <- Date_now ;;
         ret (json (ExamsBody (examStatus db participantId (p_exams participant) now)))
     end)
    (fun _ => ret (fail 500 "Failed to fetch levels")).

(** The two checks every question route makes before it reads or runs
    anything: the level is unlocked, then the level is joined.  [locked] and
    [notJoined] are the route's two 403 answers, [k] the rest of the route. *)
Definition checks {A : Type} (db : DB) (participantId examId : Z) (locked notJoined : A)
    (k : JS A) : JS A :=
  now <- Date_now ;;
  if negb (isExamUnlocked db now participantId examId) then ret locked
  else
    match findParticipant db participantId with
    | None => throw (TypeError_reading "exams" "null")
    | Some participant =>
        if negb (hasJoined participant examId) then ret notJoined
        else k
    end.

(** GET /questions; [examId] is [parseInt(req.query.examId) || req.examId]. *)
Definition getQuestions (db : DB) (participantId : Z) (examId : option Z) : JS http_response :=
  try_catch
    (match examId with
     | None => ret (fail 400 "Exam ID is required")
     | Some examId =>
         if examId =? 0 then ret (fail 400 "Exam ID is required")
         else
           checks db participantId examId
             (fail 403 "This level is locked. Complete previous levels first.")
             (fail 403 "Please enter the exam code to access this level.")
             (let questions := map (view_question db participantId) (questionsOfExam db examId) in
              if Nat.eqb (List.length questions) 0
              then ret (fail 404 "No questions available for this level.")
              else
                let seed := num_str participantId ++ lit "-" ++ num_str examId in
                let shuffledQuestions :=
                  sort_by (fun a b =>
                             let hashA := sha256_hex (seed ++ num_str (qv_id a)) in
                             let hashB := sha256_hex (seed ++ num_str (qv_id b)) in
                             localeCompare hashA hashB)
                          questions in
                ret (json (QuestionsBody shuffledQuestions)))
     end)
    (fun _ => ret (fail 500 "Failed to fetch questions")).

(** POST /run *)
Definition run (db : DB) (participantId : Z) (body : run_body) : JS http_response :=
  try_catch
    (match required (rb_questionId body) (rb_language body) (rb_code body) with
     | None => ret (fail 400 "Question ID, language, and code are required")
     | Some (questionId, language, code) =>
         match findQuestion db questionId with
         | None => ret (fail 404 "Question not found")
         | Some question =>
             checks db participantId (q_examId question)
               (fail 403 "Level locked")
               (fail 403 "Please enter the exam code to access this level.")
               (match testcasesToRun question (rb_customInput body)
                        (rb_customExpectedOutput body) with
                | None => ret (fail 400 "No visible testcases available")
                | Some testcasesToRun =>
                    results <- runTestcases code language testcasesToRun
                                 (run_timeLimit question) (run_memoryLimit question) ;;
                    ret (json (RunBody results))
                end)
         end
     end)
    (fun _ => ret (fail 500 "Failed to run code")).

(** POST /submit.  The route reads and writes the database, so it is a
    computation over the database too: [submit] returns the response and
    the database it leaves. *)
Definition submit_accepted (db : DB) (participantId questionId : Z) (language code : jsstring)
    (question : question) : JS (http_response * DB) :=
  results <- runTestcases code language (map as_runnable (q_testcases question))
               (submit_timeLimit question) (submit_memoryLimit question) ;;
  createdAt <- Date_now ;;
  let submission :=
    {| s_id := next_id (submissions db);
       s_participantId := participantId;
       s_questionId := questionId;
       s_language := language;
       s_code := code;
       s_score := score results (q_maxMarks question);
       s_totalTests := totalTests results;
       s_passedTests := passedTests results;
       s_status := COMPLETED;
       s_executionTime := avgExecutionTime results;
       s_createdAt := createdAt |} in
  ret (json (SubmitBody (lit "Code submitted successfully")
               {| sv_id := s_id submission;
                  sv_score := s_score submission;
                  sv_totalTests := s_totalTests submission;
                  sv_passedTests := s_passedTests submission;
                  sv_status := s_status submission;
                  sv_executionTime := s_executionTime submission;
                  sv_createdAt := s_createdAt submission;
                  sv_testcaseResults := visibleTestcaseResults question results |}),
       mkDB (exams db) (questions db) (submissions db ++ [submission]) (participants db)).

Definition submit (db : DB) (participantId : Z) (body : submit_body) : JS (http_response * DB) :=
  try_catch
    (match required (sub_questionId body) (sub_language body) (sub_code body) with
     | None => ret (fail 400 "Question ID, language, and code are required", db)
     | Some (questionId, language, code) =>
         match findQuestion db questionId with
         | None => ret (fail 404 "Question not found", db)
         | Some question =>
             checks db participantId (q_examId question)
               (fail 403 "Level locked", db)
               (fail 403 "Please enter the exam code to access this level.", db)
               (if Nat.eqb (List.length (q_testcases question)) 0
                then ret (fail 400 "No testcases available", db)
                else submit_accepted db participantId questionId language code question)
         end
     end)
    (fun _ => ret (fail 500 "Failed to submit code", db)).

End Routes.

From Stdlib Require Import Permutation Sorted.

(** ** The remaining participant routes *)

(** The answer of one of the routes below: an error status with its
    message, or a status with the route's own payload. *)
Inductive reply (A : Type) : Type :=
| Refused (status : Z) (error : jsstring)
| Answered (status : Z) (a : A).

Arguments Refused {A} status error.
Arguments Answered {A} status a.

Definition refuse {A : Type} (code : Z) (msg : string) : reply A := Refused code (lit msg).

Definition reply_status {A : Type} (r : reply A) : Z :=
  match r with
  | Refused status _ => status
  | Answered status _ => status
  end.

(** [prisma.exam.findUnique({ where: { id } })] *)
Definition findExam (db : DB) (id : Z) : option exam :=
  find (fun e => exam_id e =? id) (exams db).

(** [prisma.participant.findUnique({ where: { participantId } })]: the team
    name is a unique column. *)
Definition findParticipantByName (db : DB) (name : jsstring) : option participant :=
  find (fun p => str_eqb (p_participantId p) name) (participants db).

(** The id the database gives a new participant. *)
Definition next_participant_id (rows : list participant) : Z :=
  1 + fold_right (fun p m => Z.max (p_id p) m) 0 rows.

(** [prisma.participant.update({ where: { id }, data: { exams: { connect:
    { id: examId } } } })] *)
Fixpoint connectExam (participantId examId : Z) (rows : list participant) : list participant :=
  match rows with
  | [] => []
  | p :: rows' =>
      if p_id p =? participantId
      then mkParticipant (p_id p) (p_participantId p) (p_collegeName p) (p_exams p ++ [examId])
           :: rows'
      else p :: connectExam participantId examId rows'
  end.

Record register_view : Type := mkRegisterView {
  rv_message : jsstring;
  rv_token : jsstring;
  rv_id : Z;
  rv_participantId : jsstring;
  rv_collegeName : option jsstring;
  rv_examId : option Z
}.

Record join_body : Type := mkJoinBody {
  jb_examId : option Z;
  jb_code : option jsstring
}.

Record join_view : Type := mkJoinView {
  jv_message : jsstring;
  jv_joined : bool;
  jv_examId : option Z
}.

(** A submission as GET /submissions returns it: the row, and the id and
    title of its question. *)
Record submission_listed : Type := mkListed {
  sl_submission : submission;
  sl_question : option (Z * jsstring)
}.

(** GET /submissions: the participant's own submissions, newest first. *)
Definition getSubmissions (db : DB) (participantId : Z) : reply (list submission_listed) :=
  Answered 200
    (map (fun s =>
            {| sl_submission := s;
               sl_question :=
                 option_map (fun q => (q_id q, q_title q)) (findQuestion db (s_questionId s)) |})
         (sort_by (fun a b => s_createdAt b - s_createdAt a)
            (filter (fun s => s_participantId s =? participantId) (submissions db)))).

Section OtherRoutes.

Context {P : Platform}.

(** POST /register *)
Definition register (db : DB) (participantId collegeName : option jsstring)
    : reply register_view * DB :=
  match option_map trim participantId with
  | Some (c :: s) =>
      let normalizedParticipantId := c :: s in
      match findParticipantByName db normalizedParticipantId with
      | Some existing =>
          (refuse 400 "Team name already registered. Please choose a different name.", db)
      | None =>
          let participant :=
            {| p_id := next_participant_id (participants db);
               p_participantId := normalizedParticipantId;
               p_collegeName := or_null (option_map trim collegeName);
               p_exams := [] |} in
          let firstExam := hd_error (exams db) in
          let token := jwt_sign (p_id participant) (id_or_null firstExam) in
          (Answered 201
             {| rv_message := lit "Participant registered successfully";
                rv_token := token;
                rv_id := p_id participant;
                rv_participantId := p_participantId participant;
                rv_collegeName := p_collegeName participant;
                rv_examId := id_or_null firstExam |},
           mkDB (exams db) (questions db) (submissions db) (participants db ++ [participant]))
      end
  | _ => (refuse 400 "Team Name is required", db)
  end.

(** POST /join-exam, from [parseInt(examId)]: the [jb_examId] of [body] is
    the number that the route looks up, compares and connects.  The route
    tests [!examId] on the number of the body, which is 0 when its
    [parseInt] is and only then; [postJoinExam] below starts from the number
    of the body. *)
Definition joinExam (db : DB) (participantId : Z) (body : join_body) : reply join_view * DB :=
  match jb_examId body, jb_code body with
  | Some examId, Some (c :: cs) =>
      let code := c :: cs in
      if examId =? 0 then (refuse 400 "Exam ID and code are required", db)
      else
        match findExam db examId with
        | None => (refuse 404 "Exam not found", db)
        | Some exam =>
            (* Verify the code (case-insensitive, trimmed) *)
            if negb (str_eqb (toLowerCase (trim (exam_code exam))) (toLowerCase (trim code)))
            then (refuse 401 "Incorrect exam code", db)
            else
              match findParticipant db participantId with
              | None => (refuse 500 "Failed to join exam", db)
              | Some participant =>
                  if Nat.ltb 0 (List.length (filter (fun id => id =? examId) (p_exams participant)))
                  then (Answered 200
                          {| jv_message := lit "Already joined this exam";
                             jv_joined := true;
                             jv_examId := None |},
                        db)
                  else (Answered 200
                          {| jv_message := lit "Successfully joined exam";
                             jv_joined := true;
                             jv_examId := Some examId |},
                        mkDB (exams db) (questions db) (submissions db)
                          (connectExam participantId examId (participants db)))
              end
        end
  | _, _ => (refuse 400 "Exam ID and code are required", db)
  end.

(** GET /questions/:id: the question is looked up first, then the two
    checks are made on its level. *)
Definition getQuestion (db : DB) (participantId questionId : Z)
    : JS (reply (Z * question_view)) :=
  try_catch
    (match findQuestion db questionId with
     | None => ret (refuse 404 "Question not found")
     | Some question =>
         checks db participantId (q_examId question)
           (refuse 403 "This level is locked.")
           (refuse 403 "Please enter the exam code to access this level.")
           (ret (Answered 200 (q_examId question, view_question db participantId question)))
     end)
    (fun _ => ret (refuse 500 "Failed to fetch question")).

End OtherRoutes.

(** ** [parseInt] of the [examId] of a body *)

Section ParseInt.

(** [parseInt(n)] writes the number [n] as a string and reads the integer
    at the head of the string.  An integer below 10^21 in absolute value is
    written with all its digits, and is read back as it is.  From 10^21 on
    the string is in exponent notation, ["1e+21"] or ["-2.5e+22"], of which
    [parseInt] reads the sign and the one digit ahead of the point or of the
    [e].  [exponent_digit n] is that digit, the first of the shortest decimal
    that rounds to [n]: it is never 0. *)
Variable exponent_digit : Z -> positive.

Definition parseInt_number (n : Z) : Z :=
  if Z.abs n <? 10 ^ 21 then n
  else Z.sgn n * Zpos (exponent_digit n).

Definition parsed (body : join_body) : join_body :=
  {| jb_examId := option_map parseInt_number (jb_examId body);
     jb_code := jb_code body |}.

(** POST /join-exam, from the number of the body. *)
Definition postJoinExam {P : Platform} (db : DB) (participantId : Z) (body : join_body)
    : reply join_view * DB :=
  joinExam db participantId (parsed body).

End ParseInt.

(** ** POST /submit when the database can refuse the row *)

Section FailingWrite.

Context {P : Platform}.

(** The error that [prisma.submission.create] throws when the database, in
    that state of the world, refuses the row; [None] when it stores it. *)
Variable create_error : World -> option jserror.

Definition submission_create (db : DB) (row : submission) : JS DB :=
  fun env =>
    match create_error (world env) with
    | Some e => (Throw e, env)
    | None =>
        (Normal (mkDB (exams db) (questions db) (submissions db ++ [row]) (participants db)),
         env)
    end.

Definition submit_accepted_storing (db : DB) (participantId questionId : Z)
    (language code : jsstring) (question : question) : JS (http_response * DB) :=
  results <- runTestcases code language (map as_runnable (q_testcases question))
               (submit_timeLimit question) (submit_memoryLimit question) ;;
  createdAt <- Date_now ;;
  let submission :=
    {| s_id := next_id (submissions db);
       s_participantId := participantId;
       s_questionId := questionId;
       s_language := language;
       s_code := code;
       s_score := score results (q_maxMarks question);
       s_totalTests := totalTests results;
       s_passedTests := passedTests results;
       s_status := COMPLETED;
       s_executionTime := avgExecutionTime results;
       s_createdAt := createdAt |} in
  db' <- submission_create db submission ;;
  ret (json (SubmitBody (lit "Code submitted successfully")
               {| sv_id := s_id submission;
                  sv_score := s_score submission;
                  sv_totalTests := s_totalTests submission;
                  sv_passedTests := s_passedTests submission;
                  sv_status := s_status submission;
                  sv_executionTime := s_executionTime submission;
                  sv_createdAt := s_createdAt submission;
                  sv_testcaseResults := visibleTestcaseResults question results |}),
       db').

(** The route with the write inside its [try]: an error of the write is
    caught with the others, after the testcases have run. *)
Definition submit_storing (db : DB) (participantId : Z) (body : submit_body)
    : JS (http_response * DB) :=
  try_catch
    (match required (sub_questionId body) (sub_language body) (sub_code body) with
     | None => ret (fail 400 "Question ID, language, and code are required", db)
     | Some (questionId, language, code) =>
         match findQuestion db questionId with
         | None => ret (fail 404 "Question not found", db)
         | Some question =>
             checks db participantId (q_examId question)
               (fail 403 "Level locked", db)
               (fail 403 "Please enter the exam code to access this level.", db)
               (if Nat.eqb (List.length (q_testcases question)) 0
                then ret (fail 400 "No testcases available", db)
                else submit_accepted_storing db participantId questionId language code
                       question)
         end
     end)
    (fun _ => ret (fail 500 "Failed to submit code", db)).

End FailingWrite.

(** ** An execution service and three small contests to evaluate the routes on *)

Definition ascii_lower (c : N) : N :=
  if (N.leb 65 c && N.leb c 90)%bool then (c + 32)%N else c.

Definition python_runtime : runtime := mkRuntime (lit "python") (lit "3.10.0").

(** What the execution service of the examples answers to a request: the program
    prints its standard input back, whatever its text. *)
Definition echo_response (req : execute_request) : piston_response :=
  {| pr_compile := None;
     pr_run := Run {| st_code := Some 0;
                       st_signal := None;
                       st_stdout := Some (req_stdin req);
                       st_stderr := Some [];
                       st_output := Some (req_stdin req) |} |}.

(** The world of the examples is its clock.  Listing the runtimes takes
    1 ms and a run 7 ms; a request whose standard input is "boom" fails
    with an HTTP error whose response has [null] for data. *)
Definition echo_piston : Platform :=
  {| World := Z;
     clock := fun w => w;
     axios_get_runtimes := fun w => (Normal [python_runtime], w + 1);
     axios_post_execute := fun req w =>
       if str_eqb (req_stdin req) (lit "boom")
       then (Throw (mkError (lit "Request failed with status code 502") (Some NullData)), w + 3)
       else (Normal (echo_response req), w + 7);
     toLowerCase := map ascii_lower;
     inherited_property := fun _ => None;
     sha256_hex := fun s => s;
     localeCompare := fun a b => if str_eqb a b then 0 else 1;
     jwt_sign := fun participantId _ => lit "token-" ++ num_str participantId |}.

Definition start_at (t : Z) : @Env echo_piston := @mkEnv echo_piston t [].

(** *** A contest of two levels *)

Definition level1 : exam := mkExam 1 (lit "ALPHA") (lit "Level 1") 1 None None.
Definition level2 : exam := mkExam 2 (lit "BRAVO") (lit "Level 2") 2 None None.

Definition hidden_square : testcase := mkTestcase 104 (lit "7") (lit "49") HIDDEN.

(** Under the echo service three of the four testcases pass. *)
Definition squares : question :=
  {| q_id := 10; q_examId := 1; q_title := lit "Squares";
     q_timeLimit := Some 2; q_memoryLimit := Some 64; q_maxMarks := 20%float;
     q_testcases :=
       [ mkTestcase 101 (lit "1") (lit "1") VISIBLE;
         mkTestcase 102 (lit "0") (lit "0 ") VISIBLE;
         mkTestcase 103 (lit "1 ") (lit "1") HIDDEN;
         hidden_square ] |}.

(** A question of level 2 that the echo service answers right. *)
Definition echoes : question :=
  {| q_id := 11; q_examId := 2; q_title := lit "Echo";
     q_timeLimit := Some 1; q_memoryLimit := Some 32; q_maxMarks := 5%float;
     q_testcases := [ mkTestcase 111 (lit "3") (lit "3") VISIBLE ] |}.

Definition team7 : participant := mkParticipant 7 (lit "team7") None [1; 2].

Definition contest : DB :=
  {| exams := [level1; level2];
     questions := [squares; echoes];
     submissions := [];
     participants := [team7] |}.

Definition python : jsstring := lit "Python".
Definition program : jsstring := lit "print(input())".

(** *** A contest whose first level has no question *)

Definition warmup : exam := mkExam 1 (lit "WARM") (lit "Warm-up") 1 None (Some 100).

Definition finals : exam := mkExam 2 (lit "LAST") (lit "Finals") 2 None None.

Definition finals_question : question :=
  {| q_id := 20; q_examId := 2; q_title := lit "Sum";
     q_timeLimit := None; q_memoryLimit := None; q_maxMarks := 10%float;
     q_testcases := [ mkTestcase 201 (lit "1 2") (lit "3") VISIBLE ] |}.

Definition empty_first_level : DB :=
  {| exams := [warmup; finals];
     questions := [finals_question];
     submissions := [];
     participants := [mkParticipant 7 (lit "team7") None [1; 2]] |}.

(** *** A contest whose first level was answered, and answered wrong *)

Definition doubling : question :=
  {| q_id := 30; q_examId := 1; q_title := lit "Double";
     q_timeLimit := Some 1; q_memoryLimit := Some 128; q_maxMarks := 10%float;
     q_testcases := [ mkTestcase 301 (lit "2") (lit "4") HIDDEN ] |}.

Definition unanswered : DB :=
  {| exams := [level1; level2];
     questions := [doubling];
     submissions := [];
     participants := [team7] |}.

(** The database after team 7 submits a program that fails the only
    testcase of the only question of level 1. *)
Definition answered_wrong : DB :=
  match fst (@submit echo_piston unanswered 7
               (mkSubmitBody (Some 30) (Some python) (Some program)) (start_at 0)) with
  | Normal (_, db') => db'
  | Throw _ => unanswered
  end.

(** ** Specifications *)

(** [completed] as the unlock computations take it, under the [where]
    clause [extra] of each: as many distinct questions with a kept submission
    as the level has questions. *)
Definition countMatches (db : DB) (extra : submission -> bool) (participantId : Z) (e : exam) : bool :=
  let prevQuestions := questionsOfExam db (exam_id e) in
  let prevSubmissions := submissionsWhere db extra participantId (map q_id prevQuestions) in
  Nat.eqb (List.length prevSubmissions) (List.length prevQuestions).

(** What each unlock computation asks of a level before it lets the next
    one open: the listing wants a question and (completed or timed out), the
    helper wants completed, timed out or no question at all. *)
Definition listing_opens (db : DB) (participantId : Z) (now : Z) (e : exam) : bool :=
  Nat.ltb 0 (List.length (questionsOfExam db (exam_id e)))
  && (countMatches db statusCompleted participantId e || timedOut e now).

Definition helper_opens (db : DB) (participantId : Z) (now : Z) (e : exam) : bool :=
  countMatches db statusCompleted participantId e
  || timedOut e now
  || Nat.eqb (List.length (questionsOfExam db (exam_id e))) 0.

(** A submission that counts for a question under a [where] clause: the
    participant's, for that question, and kept by the clause. *)
Definition counts_for (db : DB) (participantId : Z) (extra : submission -> bool)
    (q : question) (s : submission) : Prop :=
  In s (submissions db)
  /\ s_participantId s = participantId
  /\ s_questionId s = q_id q
  /\ extra s = true.

(** The content of an outcome is that of a visible testcase of the
    question. *)
Definition shows_visible_testcase (q : question) (o : outcome) : Prop :=
  exists tc,
    In tc (q_testcases q)
    /\ tc_visibility tc = VISIBLE
    /\ o_testcaseId o = IdNum (tc_id tc)
    /\ o_input o = tc_input tc
    /\ o_expectedOutput o = tc_expectedOutput tc.

(** A listed question is a question of the database, and every testcase
    listed with it is a visible testcase of that question. *)
Definition lists_visible_testcases (db : DB) (qv : question_view) : Prop :=
  exists q,
    In q (questions db)
    /\ qv_id qv = q_id q
    /\ Forall (fun tv => exists tc,
                  In tc (q_testcases q)
                  /\ tc_visibility tc = VISIBLE
                  /\ tv = view_testcase tc)
              (qv_testcases qv).

(** The exam ids are a primary key. *)
Definition distinct_exam_ids (db : DB) : Prop := NoDup (map exam_id (exams db)).

Section Specifications.

Context {P : Platform}.

(** The outcome [runTestcases] records for a testcase whose execution ended
    as [exec]: the testcase's id, input and expected output, and either what
    the execution returned, [passed] being the equality of the two trimmed
    outputs, or the failure record of a thrown execution. *)
Definition recorded (tc : runnable) (exec : completion exec_result) (o : outcome) : Prop :=
  o_testcaseId o = r_id tc
  /\ o_input o = r_input tc
  /\ o_expectedOutput o = r_expectedOutput tc
  /\ match exec with
     | Normal result =>
         (o_passed o = true <-> trim (output result) = trim (r_expectedOutput tc))
         /\ o_actualOutput o = output result
         /\ o_error o = error result
         /\ o_executionTime o = executionTime result
     | Throw e =>
         o_passed o = false
         /\ o_actualOutput o = []
         /\ o_error o = Some (err_message e)
         /\ o_executionTime o = 0
     end.

(** [batch env testcases results env']: from [env], executing the
    testcases one after the other, each from the environment the one before
    left, records [results], one per testcase and in their order, and leaves
    [env']. *)
Inductive batch (code language : jsstring) (timeLimit : Z)
    : Env -> list runnable -> list outcome -> Env -> Prop :=
| batch_done env : batch code language timeLimit env [] [] env
| batch_next env tc exec env1 o rest results env2 :
    executeCode code language (r_input tc) timeLimit env = (exec, env1) ->
    recorded tc exec o ->
    batch code language timeLimit env1 rest results env2 ->
    batch code language timeLimit env (tc :: rest) (o :: results) env2.

(** A request as [executeCode] builds it for a run budget [timeLimit]. *)
Definition built_for (code input : jsstring) (timeLimit : Z) (req : execute_request) : Prop :=
  req_files req = [code]
  /\ req_stdin req = input
  /\ compile_timeout req = 10000
  /\ run_timeout req = or_num timeLimit 5 * 1000.

(** A computation that posts nothing. *)
Definition silent {A : Type} (m : JS A) : Prop :=
  forall env, sent (snd (m env)) = sent env.

(** A computation that posts at most one request, and one of [ok]. *)
Definition posts_at_most_one {A : Type} (ok : execute_request -> Prop) (m : JS A) : Prop :=
  forall env,
    sent (snd (m env)) = sent env
    \/ exists req, sent (snd (m env)) = sent env ++ [req] /\ ok req.

(** A computation whose requests to the execution service are all of
    [ok]. *)
Definition posts_only {A : Type} (ok : execute_request -> Prop) (m : JS A) : Prop :=
  forall env,
    exists reqs, sent (snd (m env)) = sent env ++ reqs /\ Forall ok reqs.

(** The deadlines of a request. *)
Definition deadlines (compile run : Z) (req : execute_request) : Prop :=
  compile_timeout req = compile /\ run_timeout req = run.

(** Whether the participant has joined the level, as the routes read it. *)
Definition joined (db : DB) (participantId examId : Z) : bool :=
  match findParticipant db participantId with
  | Some p => hasJoined p examId
  | None => false
  end.

End Specifications.

(** *** An execution service whose compiler turns every program down *)

Definition compile_error_response : piston_response :=
  {| pr_compile := Some {| st_code := Some 1;
                           st_signal := None;
                           st_stdout := Some [];
                           st_stderr := Some (lit "main.c:1: error: expected ';'");
                           st_output := Some (lit "main.c:1: error: expected ';'") |};
     pr_run := Run {| st_code := Some 0;
                       st_signal := None;
                       st_stdout := Some (lit "stale");
                       st_stderr := Some [];
                       st_output := Some (lit "stale") |} |}.

Definition failing_compiler : Platform :=
  {| World := Z;
     clock := fun w => w;
     axios_get_runtimes := fun w => (Normal [mkRuntime (lit "c") (lit "10.2.0")], w + 1);
     axios_post_execute := fun req w => (Normal compile_error_response, w + 4);
     toLowerCase := map ascii_lower;
     inherited_property := fun _ => None;
     sha256_hex := fun s => s;
     localeCompare := fun a b => if str_eqb a b then 0 else 1;
     jwt_sign := fun participantId _ => lit "token-" ++ num_str participantId |}.

(** *** The contest with a team that has joined nothing *)

Definition team8 : participant := mkParticipant 8 (lit "team8") None [].

Definition open_contest : DB :=
  {| exams := [level1; level2];
     questions := [squares; echoes];
     submissions := [];
     participants := [team7; team8] |}.

(** The first decimal digit of a number.  It is the digit ahead of the
    point in the exponent notation of a number whose shortest decimal has
    that first digit, as 10^21, written ["1e+21"]. *)
Definition first_digit (n : Z) : positive :=
  match Z.abs n with
  | Zpos p =>
      match Pos.to_uint p with
      | Decimal.D2 _ => 2
      | Decimal.D3 _ => 3
      | Decimal.D4 _ => 4
      | Decimal.D5 _ => 5
      | Decimal.D6 _ => 6
      | Decimal.D7 _ => 7
      | Decimal.D8 _ => 8
      | Decimal.D9 _ => 9
      | _ => 1
      end
  | _ => 1
  end%positive.

(** A database that refuses every row, and one that stores every row. *)
Definition refusing {P : Platform} : World -> option jserror :=
  fun _ => Some (Error (lit "Can't reach database server")).

Definition storing {P : Platform} : World -> option jserror := fun _ => None.

(** ** Specifications of the remaining routes *)

(** What login asks of a level before it moves on to the next one. *)
Definition login_opens (db : DB) (participantId : Z) (e : exam) : bool :=
  countMatches db scorePositive participantId e
  && Nat.ltb 0 (List.length (questionsOfExam db (exam_id e))).

(** Every stored submission has status COMPLETED, as every submission the
    submit route stores has. *)
Definition all_completed (db : DB) : Prop :=
  Forall (fun s => s_status s = COMPLETED) (submissions db).

(** The question ids are a primary key. *)
Definition distinct_question_ids (db : DB) : Prop := NoDup (map q_id (questions db)).

(** The team names are a unique column. *)
Definition distinct_team_names (db : DB) : Prop :=
  NoDup (map p_participantId (participants db)).

(** [db'] is [db] with more submissions, and nothing else changed. *)
Definition more_submissions (db db' : DB) : Prop :=
  exams db' = exams db
  /\ questions db' = questions db
  /\ participants db' = participants db
  /\ exists added, submissions db' = submissions db ++ added.

(** What the language resolves to, as the error message prints it. *)
Definition tried (l : looked_up) : jsstring :=
  match l with
  | AString s => s
  | AnObject printed => printed
  end.

(** No runtime of the catalog is the one the language resolves to. *)
Definition not_in_catalog (l : looked_up) (runtimes : list runtime) : Prop :=
  match l with
  | AString s => Forall (fun r => rt_language r <> s) runtimes
  | AnObject _ => True
  end.

(** [a] is at least as recent as [b], by the key [key]. *)
Definition newer_by {A : Type} (key : A -> Z) (a b : A) : Prop := key a >= key b.

(** Case analysis on the scrutinee of an innermost [match] of a hypothesis,
    and the unfolding of [executeCode] down to the calls of the platform. *)
Ltac split_innermost H :=
  repeat match type of H with
         | context [match ?x with _ => _ end] =>
             lazymatch x with
             | context [match _ with _ => _ end] => fail
             | _ => destruct x eqn:?
             end; cbn in H
         end.

Ltac unfold_executeCode H :=
  unfold executeCode, executeCode_catch, classify_run in H;
  cbv [bind try_catch Date_now axios_get axios_post throw ret] in H;
  cbn in H.

(** * Properties *)

Section RunnerProperties.

Context {P : Platform}.

Lemma str_eqb_spec (a b : jsstring) : reflect (a = b) (str_eqb a b).
Proof.
  revert b; induction a as [|x a IH]; intros [|y b]; simpl; try (constructor; congruence).
  destruct (N.eqb_spec x y) as [->|Hxy]; simpl.
  - destruct (IH b) as [->|Hab]; constructor; congruence.
  - constructor; congruence.
Qed.

Lemma str_eqb_eq (a b : jsstring) : str_eqb a b = true <-> a = b.
Proof. destruct (str_eqb_spec a b); split; congruence. Qed.

Lemma str_eqb_refl (a : jsstring) : str_eqb a a = true.
Proof. apply str_eqb_eq; reflexivity. Qed.

(** One turn of the loop never throws: it records the execution's
    completion, whichever it is. *)
Lemma runTestcase_recorded code language timeLimit tc env :
  exists exec env1 o,
    executeCode code language (r_input tc) timeLimit env = (exec, env1)
    /\ runTestcase code language timeLimit tc env = (Normal o, env1)
    /\ recorded tc exec o.
Proof.
  unfold runTestcase, try_catch, bind.
  destruct (executeCode code language (r_input tc) timeLimit env) as [[result|e] env1].
  - eexists _, _, _. split; [reflexivity|]. split; [reflexivity|].
    unfold recorded; simpl. repeat split; apply str_eqb_eq.
  - eexists _, _, _. split; [reflexivity|]. split; [reflexivity|].
    unfold recorded; simpl. repeat split.
Qed.

Lemma for_testcases_batch code language timeLimit testcases :
  forall acc env,
  exists results env',
    for_testcases code language timeLimit testcases acc env = (Normal (acc ++ results), env')
    /\ batch code language timeLimit env testcases results env'.
Proof.
  induction testcases as [|tc rest IH]; intros acc env; simpl.
  - exists [], env. rewrite app_nil_r. split; [reflexivity | constructor].
  - destruct (runTestcase_recorded code language timeLimit tc env)
      as (exec & env1 & o & Hexec & Hrun & Hrec).
    destruct (IH (acc ++ [o]) env1) as (results & env2 & Hfor & Hbatch).
    exists (o :: results), env2. split.
    + unfold bind at 1. rewrite Hrun, Hfor, <- app_assoc. reflexivity.
    + econstructor; eassumption.
Qed.

Lemma batch_length code language timeLimit env testcases results env' :
  batch code language timeLimit env testcases results env' ->
  List.length results = List.length testcases.
Proof. induction 1; simpl; congruence. Qed.

Lemma batch_ids code language timeLimit env testcases results env' :
  batch code language timeLimit env testcases results env' ->
  map o_testcaseId results = map r_id testcases
  /\ map o_input results = map r_input testcases
  /\ map o_expectedOutput results = map r_expectedOutput testcases.
Proof.
  induction 1 as [|env tc exec env1 o rest results env2 Hexec Hrec Hbatch IH]; simpl.
  - repeat split.
  - destruct IH as (IH1 & IH2 & IH3).
    destruct Hrec as (Hid & Hin & Hexp & _).
    rewrite IH1, IH2, IH3, Hid, Hin, Hexp. repeat split.
Qed.

(** The runner returns the record of the batch. *)
Lemma runTestcases_batch
    (code language : jsstring) (testcases : list runnable) (timeLimit : Z)
    (memoryLimit : jsstring) (env : Env) :
  exists results env',
    runTestcases code language testcases timeLimit memoryLimit env = (Normal results, env')
    /\ batch code language timeLimit env testcases results env'.
Proof.
  unfold runTestcases.
  destruct (for_testcases_batch code language timeLimit testcases [] env)
    as (results & env' & Hfor & Hbatch).
  exists results, env'. split; assumption.
Qed.

(** C9.  [runTestcases] always returns, never throws, and returns the
    batch's record: one outcome per testcase and in the testcases' order
    (same ids, inputs and expected outputs, position by position); the
    outcome of a testcase whose execution returned has [passed] true exactly
    when the trimmed actual output and the trimmed expected output are the
    same string; the outcome of a testcase whose execution threw is
    [passed = false], [actualOutput = ''], [error] the thrown message and
    [executionTime = 0]; and the testcases after it are run all the same, each
    from the environment the one before left. *)
Theorem runTestcases_one_outcome_per_testcase
    (code language : jsstring) (testcases : list runnable) (timeLimit : Z)
    (memoryLimit : jsstring) (env : Env) :
  exists results env',
    runTestcases code language testcases timeLimit memoryLimit env = (Normal results, env')
    /\ batch code language timeLimit env testcases results env'
    /\ List.length results = List.length testcases
    /\ map o_testcaseId results = map r_id testcases
    /\ map o_input results = map r_input testcases
    /\ map o_expectedOutput results = map r_expectedOutput testcases.
Proof.
  destruct (runTestcases_batch code language testcases timeLimit memoryLimit env)
    as (results & env' & Hrun & Hbatch).
  exists results, env'.
  destruct (batch_ids _ _ _ _ _ _ _ Hbatch) as (Hids & Hin & Hexp).
  repeat split; try assumption.
  rewrite <- (length_map o_testcaseId), Hids, length_map. reflexivity.
Qed.

End RunnerProperties.

(** The comparison is on trimmed strings: ["5\n"] against ["5"] passes,
    ["5 "] against ["6"] does not. *)
Example trim_insensitive_comparison :
  str_eqb (trim (lit "5" ++ [10%N])) (trim (lit "5")) = true
  /\ str_eqb (trim (lit "5 ")) (trim (lit "6")) = false.
Proof. split; reflexivity. Qed.

(** A batch whose second execution throws: the service turns the request
    down, the catch block of [executeCode] throws in turn on the [null]
    data, and the runner records the failure and goes on to the third
    testcase. *)
Example batch_survives_a_throw :
  fst (@runTestcases echo_piston program python
         [ mkRunnable (IdNum 1) (lit "a") (lit "a");
           mkRunnable (IdNum 2) (lit "boom") (lit "boom");
           mkRunnable (IdNum 3) (lit "c ") (lit "c") ]
         2 (lit "64m") (start_at 0))
  = Normal
      [ mkOutcome (IdNum 1) true (lit "a") (lit "a") (lit "a") None 8;
        mkOutcome (IdNum 2) false (lit "boom") (lit "boom") []
          (Some (lit "Cannot read properties of null (reading 'message')")) 0;
        mkOutcome (IdNum 3) true (lit "c ") (lit "c") (lit "c ") None 8 ].
Proof. vm_compute. reflexivity. Qed.

Section ExecutorProperties.

Context {P : Platform}.

Lemma silent_ret {A} (a : A) : silent (ret a).
Proof. intro env; reflexivity. Qed.

Lemma silent_throw {A} (e : jserror) : silent (@throw _ A e).
Proof. intro env; reflexivity. Qed.

Lemma silent_now : silent Date_now.
Proof. intro env; reflexivity. Qed.

Lemma silent_get : silent axios_get.
Proof.
  intro env. unfold axios_get.
  destruct (axios_get_runtimes (world env)); reflexivity.
Qed.

Lemma silent_bind {A B} (m : JS A) (k : A -> JS B) :
  silent m -> (forall a, silent (k a)) -> silent (bind m k).
Proof.
  intros Hm Hk env. unfold bind. specialize (Hm env).
  destruct (m env) as [[a|e] env1]; simpl in *.
  - rewrite Hk. assumption.
  - assumption.
Qed.

Lemma silent_catch {A} (m : JS A) (h : jserror -> JS A) :
  silent m -> (forall e, silent (h e)) -> silent (try_catch m h).
Proof.
  intros Hm Hh env. unfold try_catch. specialize (Hm env).
  destruct (m env) as [[a|e] env1]; simpl in *.
  - assumption.
  - rewrite Hh. assumption.
Qed.

Lemma silent_posts {A} ok (m : JS A) : silent m -> posts_at_most_one ok m.
Proof. intros Hm env; left; apply Hm. Qed.

Lemma posts_post ok req : ok req -> posts_at_most_one ok (axios_post req).
Proof.
  intros Hok env. right. exists req. unfold axios_post.
  destruct (axios_post_execute req (world env)); simpl. split; [reflexivity | assumption].
Qed.

Lemma posts_then_silent {A B} ok (m : JS A) (k : A -> JS B) :
  posts_at_most_one ok m -> (forall a, silent (k a)) -> posts_at_most_one ok (bind m k).
Proof.
  intros Hm Hk env. unfold bind. specialize (Hm env).
  destruct (m env) as [[a|e] env1]; simpl in *.
  - pose proof (Hk a env1) as Hs. rewrite Hs. assumption.
  - assumption.
Qed.

Lemma silent_then_posts {A B} ok (m : JS A) (k : A -> JS B) :
  silent m -> (forall a, posts_at_most_one ok (k a)) -> posts_at_most_one ok (bind m k).
Proof.
  intros Hm Hk env. unfold bind. specialize (Hm env).
  destruct (m env) as [[a|e] env1]; simpl in *.
  - rewrite <- Hm. apply Hk.
  - left; assumption.
Qed.

Lemma posts_catch {A} ok (m : JS A) (h : jserror -> JS A) :
  posts_at_most_one ok m -> (forall e, silent (h e)) -> posts_at_most_one ok (try_catch m h).
Proof.
  intros Hm Hh env. unfold try_catch. specialize (Hm env).
  destruct (m env) as [[a|e] env1]; simpl in *.
  - assumption.
  - rewrite (Hh e env1). assumption.
Qed.

Lemma silent_executeCode_catch startTime e : silent (executeCode_catch startTime e).
Proof.
  unfold executeCode_catch. apply silent_bind; [apply silent_now|]. intro now.
  destruct (err_response e) as [[| |msg]|];
    [apply silent_throw | apply silent_throw | apply silent_ret | apply silent_ret].
Qed.

Lemma silent_classify_run response t : silent (classify_run response t).
Proof.
  unfold classify_run.
  destruct (pr_run response) as [| |run]; [apply silent_throw | apply silent_throw |].
  destruct (neq0 (st_code run) && truthy_str (st_signal run)); apply silent_ret.
Qed.

Lemma or_str_some (s : jsstring) : or_str (Some s) [] = s.
Proof. destruct s; reflexivity. Qed.

(** [executeCode] posts at most one request, built from its arguments. *)
Lemma executeCode_sent code language input timeLimit :
  posts_at_most_one (built_for code input timeLimit)
    (executeCode code language input timeLimit).
Proof.
  unfold executeCode.
  apply silent_then_posts; [apply silent_now|]. intro startTime.
  apply posts_catch; [|intro e; apply silent_executeCode_catch].
  destruct (pistonLanguageOf language) as [pistonLanguage|printed].
  - apply silent_then_posts; [apply silent_get|]. intro runtimes.
    destruct (find _ runtimes) as [rt|]; [|apply silent_posts, silent_throw].
    apply posts_then_silent.
    + apply posts_post. unfold built_for.
      cbn [req_files req_stdin compile_timeout run_timeout].
      rewrite or_str_some. repeat split.
    + intro response. apply silent_bind; [apply silent_now|]. intro now.
      destruct (pr_compile response) as [c|]; [|apply silent_classify_run].
      destruct (neq0 (st_code c)); [apply silent_ret | apply silent_classify_run].
  - apply silent_posts, silent_bind; [apply silent_get|]. intro runtimes. apply silent_throw.
Qed.

(** The requests a batch posts: each is built for the batch's run budget
    from the batch's code, and none carries anything else. *)
Lemma batch_sent code language timeLimit env testcases results env' :
  batch code language timeLimit env testcases results env' ->
  exists reqs,
    sent env' = sent env ++ reqs
    /\ Forall (fun req => exists input, built_for code input timeLimit req) reqs.
Proof.
  induction 1 as [|env tc exec env1 o rest results env2 Hexec Hrec Hbatch IH].
  - exists []. rewrite app_nil_r. split; [reflexivity | constructor].
  - destruct IH as (reqs & Hsent & Hall).
    destruct (executeCode_sent code language (r_input tc) timeLimit env) as [Hsame|(req & Hone & Hreq)];
      rewrite Hexec in *; simpl in *.
    + exists reqs. rewrite Hsent, Hsame. split; [reflexivity | assumption].
    + exists (req :: reqs). rewrite Hsent, Hone, <- app_assoc. split; [reflexivity|].
      constructor; [exists (r_input tc); assumption | assumption].
Qed.

End ExecutorProperties.

Section RouteProperties.

Context {P : Platform}.

(** *** The two checks *)

Lemma checks_locked {A} db pid examId (locked notJoined : A) k env :
  isExamUnlocked db (clock (world env)) pid examId = false ->
  checks db pid examId locked notJoined k env = (Normal locked, env).
Proof.
  intro H. unfold checks, bind, Date_now. rewrite H. reflexivity.
Qed.

Lemma checks_unknown_participant {A} db pid examId (locked notJoined : A) k env :
  isExamUnlocked db (clock (world env)) pid examId = true ->
  findParticipant db pid = None ->
  checks db pid examId locked notJoined k env = (Throw (TypeError_reading "exams" "null"), env).
Proof.
  intros H1 H2. unfold checks, bind, Date_now. rewrite H1, H2. reflexivity.
Qed.

Lemma checks_not_joined {A} db pid examId (locked notJoined : A) k env p :
  isExamUnlocked db (clock (world env)) pid examId = true ->
  findParticipant db pid = Some p ->
  hasJoined p examId = false ->
  checks db pid examId locked notJoined k env = (Normal notJoined, env).
Proof.
  intros H1 H2 H3. unfold checks, bind, Date_now. rewrite H1, H2, H3. reflexivity.
Qed.

Lemma checks_pass {A} db pid examId (locked notJoined : A) k env p :
  isExamUnlocked db (clock (world env)) pid examId = true ->
  findParticipant db pid = Some p ->
  hasJoined p examId = true ->
  checks db pid examId locked notJoined k env = k env.
Proof.
  intros H1 H2 H3. unfold checks, bind, Date_now. rewrite H1, H2, H3. reflexivity.
Qed.

Lemma required_questionId questionId language code q l c :
  required questionId language code = Some (q, l, c) ->
  questionId = Some q /\ language = Some l /\ code = Some c.
Proof.
  unfold required.
  destruct questionId as [q'|]; [|discriminate].
  destruct language as [[|x xs]|]; try discriminate.
  destruct code as [[|y ys]|]; try discriminate.
  destruct (q' =? 0); [discriminate|].
  intro H; injection H as <- <- <-. repeat split.
Qed.

(** The order of the submit route.  A submit request for a question whose
    level [isExamUnlocked] has locked for the participant, or that the
    participant has not joined, is answered with an error status and nothing
    else happens: the environment is the one the
    request found (no request was posted to the execution service, which was
    not called) and the database is unchanged (no submission was created).
    Nothing is assumed of the submitted code.  The status is 403, unless the
    body lacks a field (400) or the participant row is gone (500). *)
Lemma submit_rejected_before_execution
    (db : DB) (participantId : Z) (body : submit_body) (env : Env)
    (questionId : Z) (q : question) :
  sub_questionId body = Some questionId ->
  findQuestion db questionId = Some q ->
  isExamUnlocked db (clock (world env)) participantId (q_examId q) = false
  \/ joined db participantId (q_examId q) = false ->
  exists resp,
    submit db participantId body env = (Normal (resp, db), env)
    /\ (status resp = 403
        \/ (required (sub_questionId body) (sub_language body) (sub_code body) = None
            /\ status resp = 400)
        \/ (findParticipant db participantId = None /\ status resp = 500)).
Proof.
  intros Hid Hq Hlock. unfold submit, try_catch.
  destruct (required (sub_questionId body) (sub_language body) (sub_code body))
    as [[[qid language] code]|] eqn:Hreq.
  - apply required_questionId in Hreq. destruct Hreq as (Hid' & _ & _).
    rewrite Hid in Hid'. injection Hid' as <-. rewrite Hq.
    destruct (isExamUnlocked db (clock (world env)) participantId (q_examId q)) eqn:Hun.
    + destruct Hlock as [Hlock|Hlock]; [discriminate|]. unfold joined in Hlock.
      destruct (findParticipant db participantId) as [p|] eqn:Hp.
      * erewrite checks_not_joined by eassumption.
        eexists; split; [reflexivity|]. left; reflexivity.
      * erewrite checks_unknown_participant by eassumption.
        eexists; split; [reflexivity|]. right; right; split; reflexivity.
    + erewrite checks_locked by eassumption.
      eexists; split; [reflexivity|]. left; reflexivity.
  - eexists; split; [reflexivity|]. right; left; split; reflexivity.
Qed.

(** *** The score *)

Lemma passedTests_count results :
  passedTests results = count_occ bool_dec (map o_passed results) true.
Proof.
  unfold passedTests. induction results as [|r rs IH]; simpl; [reflexivity|].
  destruct (o_passed r); simpl.
  - rewrite IH. reflexivity.
  - assumption.
Qed.

Lemma fold_left_sum (rs : list outcome) : forall acc,
  fold_left (fun sum r => sum + o_executionTime r) rs acc
  = acc + fold_right Z.add 0 (map o_executionTime rs).
Proof.
  induction rs as [|r rs IH]; intro acc; simpl.
  - lia.
  - rewrite IH. lia.
Qed.

Lemma sumExecutionTime_sum results :
  sumExecutionTime results = fold_right Z.add 0 (map o_executionTime results).
Proof. unfold sumExecutionTime. rewrite fold_left_sum. reflexivity. Qed.

(** C8.  A submit request that passes the checks for a question with at
    least one testcase runs all [n] testcases and appends one submission to
    the database: [totalTests = n], [passedTests = k], the number of outcomes
    that passed, [score = (k / n) * maxMarks] with JavaScript's division and
    multiplication and no rounding step, and [executionTime] the sum of the
    execution times of all [n] outcomes, the failed ones too, divided
    by [n]. *)
Theorem submit_persists_proportional_score
    (db : DB) (participantId : Z) (body : submit_body) (env : Env)
    (questionId : Z) (language code : jsstring) (q : question) (p : participant) :
  required (sub_questionId body) (sub_language body) (sub_code body)
    = Some (questionId, language, code) ->
  findQuestion db questionId = Some q ->
  isExamUnlocked db (clock (world env)) participantId (q_examId q) = true ->
  findParticipant db participantId = Some p ->
  hasJoined p (q_examId q) = true ->
  (1 <= List.length (q_testcases q))%nat ->
  exists results env' resp sub,
    runTestcases code language (map as_runnable (q_testcases q))
      (submit_timeLimit q) (submit_memoryLimit q) env = (Normal results, env')
    /\ submit db participantId body env
       = (Normal (resp, mkDB (exams db) (questions db) (submissions db ++ [sub])
                          (participants db)), env')
    /\ status resp = 200
    /\ let n := List.length results in
       let k := count_occ bool_dec (map o_passed results) true in
       n = List.length (q_testcases q)
       /\ s_totalTests sub = n
       /\ s_passedTests sub = k
       /\ s_score sub
          = PrimFloat.mul (PrimFloat.div (float_of_nat k) (float_of_nat n)) (q_maxMarks q)
       /\ s_executionTime sub
          = PrimFloat.div (float_of_Z (fold_right Z.add 0 (map o_executionTime results)))
              (float_of_nat n)
       /\ s_status sub = COMPLETED
       /\ s_participantId sub = participantId
       /\ s_questionId sub = questionId.
Proof.
  intros Hreq Hq Hun Hp Hj Hn.
  destruct (runTestcases_batch code language
              (map as_runnable (q_testcases q)) (submit_timeLimit q)
              (submit_memoryLimit q) env)
    as (results & env' & Hrun & Hbatch).
  pose proof (batch_length _ _ _ _ _ _ _ Hbatch) as Hlen.
  rewrite length_map in Hlen.
  eexists results, env', _, _. split; [exact Hrun|].
  split.
  - unfold submit, try_catch. rewrite Hreq, Hq.
    erewrite checks_pass by eassumption.
    destruct (Nat.eqb_spec (List.length (q_testcases q)) 0) as [H0|_]; [lia|].
    unfold submit_accepted, bind at 1. rewrite Hrun.
    unfold bind, Date_now, ret. reflexivity.
  - split; [reflexivity|]. simpl.
    rewrite <- passedTests_count, <- sumExecutionTime_sum.
    repeat split; assumption.
Qed.

End RouteProperties.

(** ** The levels *)

Section LevelProperties.

Variables (db : DB) (participantId : Z) (now : Z).

Lemma previous_levels_pass_forallb prevs :
  previous_levels_pass db participantId now prevs
  = forallb (helper_opens db participantId now) prevs.
Proof.
  induction prevs as [|e rest IH]; simpl; [reflexivity|].
  rewrite IH. unfold helper_opens.
  change (Nat.eqb (List.length (submissionsWhere db statusCompleted participantId
                                  (map q_id (questionsOfExam db (exam_id e)))))
                  (List.length (questionsOfExam db (exam_id e))))
    with (countMatches db statusCompleted participantId e).
  destruct (countMatches db statusCompleted participantId e); simpl; [reflexivity|].
  destruct (timedOut e now); simpl; [reflexivity|].
  destruct (questionsOfExam db (exam_id e)); reflexivity.
Qed.

Lemma findIndex_nth (l : list exam) : forall i e,
  NoDup (map exam_id l) ->
  nth_error l i = Some e ->
  findIndex (fun x => exam_id x =? exam_id e) l = Some i.
Proof.
  induction l as [|x l IH]; intros i e Hnd Hnth.
  - destruct i; discriminate.
  - simpl in Hnd. inversion Hnd as [|? ? Hnotin Hnd']; subst.
    destruct i as [|i]; simpl in *.
    + injection Hnth as ->. rewrite Z.eqb_refl. reflexivity.
    + destruct (Z.eqb_spec (exam_id x) (exam_id e)) as [Heq|_].
      * exfalso. apply Hnotin. rewrite Heq. apply in_map.
        eapply nth_error_In; eassumption.
      * rewrite (IH i e Hnd' Hnth). reflexivity.
Qed.

Lemma firstn_snoc {A} (l : list A) : forall i x,
  nth_error l i = Some x -> firstn (S i) l = firstn i l ++ [x].
Proof.
  induction l as [|y l IH]; intros [|i] x H; try discriminate; simpl in *.
  - injection H as ->. reflexivity.
  - rewrite <- (IH i x H). reflexivity.
Qed.

(** [isExamUnlocked] on the level at index [i]: every level before it
    opens the way. *)
Lemma isExamUnlocked_nth i e :
  distinct_exam_ids db ->
  nth_error (exams db) i = Some e ->
  isExamUnlocked db now participantId (exam_id e)
  = forallb (helper_opens db participantId now) (firstn i (exams db)).
Proof.
  intros Hnd Hnth. unfold isExamUnlocked.
  rewrite (findIndex_nth _ _ _ Hnd Hnth).
  destruct i; [reflexivity|]. apply previous_levels_pass_forallb.
Qed.

Lemma helper_step i prev cur :
  distinct_exam_ids db ->
  nth_error (exams db) i = Some prev ->
  nth_error (exams db) (S i) = Some cur ->
  isExamUnlocked db now participantId (exam_id cur)
  = isExamUnlocked db now participantId (exam_id prev)
    && helper_opens db participantId now prev.
Proof.
  intros Hnd Hp Hc.
  rewrite (isExamUnlocked_nth _ _ Hnd Hc), (isExamUnlocked_nth _ _ Hnd Hp).
  rewrite (firstn_snoc _ _ _ Hp), forallb_app. simpl. rewrite andb_true_r. reflexivity.
Qed.

(** *** The listing *)

Variable joinedExamIds : list Z.

Local Abbreviation listing_from := (examStatus_from db participantId joinedExamIds now).

Lemma listing_from_length rest : forall prev previousUnlocked,
  List.length (listing_from prev previousUnlocked rest) = List.length rest.
Proof.
  induction rest as [|x rest IH]; intros prev pu; simpl; [reflexivity|].
  rewrite IH. reflexivity.
Qed.

Lemma listing_from_nth rest : forall prev previousUnlocked i e,
  nth_error rest i = Some e ->
  exists st,
    nth_error (listing_from prev previousUnlocked rest) i = Some st
    /\ es_exam st = e
    /\ es_joined st = existsb (Z.eqb (exam_id e)) joinedExamIds
    /\ es_completed st
       = Nat.ltb 0 (List.length (questionsOfExam db (exam_id e)))
         && countMatches db statusCompleted participantId e.
Proof.
  induction rest as [|x rest IH]; intros prev pu [|i] e H; try discriminate; simpl in *.
  - injection H as ->. eexists; split; [reflexivity|]. simpl. repeat split.
  - apply IH. assumption.
Qed.

Lemma listing_from_head prev previousUnlocked e rest st :
  nth_error (listing_from prev previousUnlocked (e :: rest)) 0 = Some st ->
  es_unlocked st
  = match prev with
    | None => true
    | Some prevExam => previousUnlocked && listing_opens db participantId now prevExam
    end.
Proof.
  simpl. intro H; injection H as <-. simpl.
  destruct prev as [prevExam|]; [|reflexivity].
  unfold listing_opens. destruct previousUnlocked; simpl; [|reflexivity].
  destruct (Nat.ltb 0 _); reflexivity.
Qed.

Lemma listing_from_step rest : forall prev previousUnlocked i e st st',
  nth_error rest i = Some e ->
  nth_error (listing_from prev previousUnlocked rest) i = Some st ->
  nth_error (listing_from prev previousUnlocked rest) (S i) = Some st' ->
  es_unlocked st' = es_unlocked st && listing_opens db participantId now e.
Proof.
  induction rest as [|x rest IH]; intros prev pu [|i] e st st' He Hst Hst'; try discriminate.
  - simpl in He. injection He as ->.
    cbn [examStatus_from nth_error] in Hst, Hst'. injection Hst as <-.
    destruct rest as [|y rest]; [discriminate|].
    apply (listing_from_head _ _ y rest) in Hst'. simpl. exact Hst'.
  - cbn [examStatus_from nth_error] in *. eapply IH; eassumption.
Qed.

(** The listing's flag of the level at index [i]: every level before it has
    a question and is completed or timed out. *)
Lemma listing_unlocked_nth : forall i st,
  nth_error (examStatus db participantId joinedExamIds now) i = Some st ->
  es_unlocked st = forallb (listing_opens db participantId now) (firstn i (exams db)).
Proof.
  unfold examStatus. induction i as [|i IH]; intros st Hst.
  - destruct (exams db) as [|e rest]; [discriminate|].
    apply listing_from_head in Hst. exact Hst.
  - assert (exists e, nth_error (exams db) i = Some e) as [e He].
    { destruct (nth_error (exams db) i) as [e|] eqn:He; [eauto|].
      exfalso. apply nth_error_None in He.
      assert (nth_error (listing_from None true (exams db)) (S i) <> None) as Hn by congruence.
      apply nth_error_Some in Hn.
      rewrite listing_from_length in Hn. lia. }
    destruct (listing_from_nth (exams db) None true i e He) as (sti & Hsti & _).
    rewrite (listing_from_step _ _ _ _ _ _ _ He Hsti Hst), (IH _ Hsti).
    rewrite (firstn_snoc _ _ _ He), forallb_app. simpl. rewrite andb_true_r. reflexivity.
Qed.

Lemma listing_opens_helper_opens e :
  listing_opens db participantId now e = true -> helper_opens db participantId now e = true.
Proof.
  unfold listing_opens, helper_opens. intro H.
  apply andb_true_iff in H. destruct H as [_ H]. rewrite H. reflexivity.
Qed.

Lemma nonempty_listing_helper e :
  questionsOfExam db (exam_id e) <> [] ->
  listing_opens db participantId now e = helper_opens db participantId now e.
Proof.
  unfold listing_opens, helper_opens. intro H.
  destruct (questionsOfExam db (exam_id e)); [congruence|]. simpl.
  rewrite orb_false_r. reflexivity.
Qed.

End LevelProperties.

(** What the levels listing does after a level with no question: the next
    level is reported locked, whether or not the level with no question is
    unlocked and whatever its [endTime], and the level with no question is
    not reported completed. *)
Lemma zero_question_predecessor
    (db : DB) (participantId now : Z) (joinedExamIds : list Z)
    (i : nat) (prev cur : exam) :
  nth_error (exams db) i = Some prev ->
  nth_error (exams db) (S i) = Some cur ->
  questionsOfExam db (exam_id prev) = [] ->
  (exists st,
     nth_error (examStatus db participantId joinedExamIds now) (S i) = Some st
     /\ es_exam st = cur /\ es_unlocked st = false)
  /\ (exists st,
        nth_error (examStatus db participantId joinedExamIds now) i = Some st
        /\ es_exam st = prev /\ es_completed st = false).
Proof.
  intros Hprev Hcur Hnone. split.
  - destruct (listing_from_nth db participantId now joinedExamIds (exams db) None true
                (S i) cur Hcur) as (st & Hst & Hexam & _).
    exists st. repeat split; try assumption.
    rewrite (listing_unlocked_nth _ _ _ _ _ _ Hst).
    rewrite (firstn_snoc _ _ _ Hprev), forallb_app. simpl.
    unfold listing_opens. rewrite Hnone. simpl. apply andb_false_r.
  - destruct (listing_from_nth db participantId now joinedExamIds (exams db) None true
                i prev Hprev) as (st & Hst & Hexam & _ & Hcompleted).
    exists st. repeat split; try assumption.
    rewrite Hcompleted, Hnone. reflexivity.
Qed.

(** The first level ended at 100, is unlocked and has no question: at 200
    the listing has the second level locked and the first not completed. *)
Lemma zero_question_predecessor_witness :
  (exists st,
     nth_error (examStatus empty_first_level 7 [1; 2] 200) 1 = Some st
     /\ es_exam st = finals /\ es_unlocked st = false)
  /\ (exists st,
        nth_error (examStatus empty_first_level 7 [1; 2] 200) 0 = Some st
        /\ es_exam st = warmup /\ es_completed st = false).
Proof.
  apply (zero_question_predecessor empty_first_level 7 200 [1; 2] 0 warmup finals);
    reflexivity.
Defined.

(** C3 at the input on which both unlock computations part from it.  The
    first level of the contest has no question and ends at 100; it is
    unlocked, being the first, and never reported completed.  At 200 its
    [endTime] has passed, and the listing keeps the second level locked: the
    expiry does not unlock it.  At 50 its [endTime] has not passed, and
    [isExamUnlocked] has the second level unlocked: it is unlocked without
    the expiry. *)
Example zero_question_level_does_not_unlock_by_expiry :
  questionsOfExam empty_first_level (exam_id warmup) = []
  /\ exam_endTime warmup = Some 100
  /\ timedOut warmup 200 = true
  /\ map (fun st => (exam_id (es_exam st), es_unlocked st, es_completed st))
       (examStatus empty_first_level 7 [1; 2] 200)
     = [(1, true, false); (2, false, false)]
  /\ timedOut warmup 50 = false
  /\ isExamUnlocked empty_first_level 50 7 (exam_id warmup) = true
  /\ isExamUnlocked empty_first_level 50 7 (exam_id finals) = true.
Proof. vm_compute. repeat split. Qed.

(** C10 at the input on which the two computations part.  The first level
    has no question: the listing reports the second level locked, and the
    helper lets the participant, who has joined it, list its questions. *)
Example listing_locks_what_the_helper_opens :
  map (fun st => (exam_id (es_exam st), es_unlocked st))
      (examStatus empty_first_level 7 [1; 2] 50)
  = [(1, true); (2, false)]
  /\ isExamUnlocked empty_first_level 50 7 2 = true
  /\ option_map status
       (match fst (@getQuestions echo_piston empty_first_level 7 (Some 2) (start_at 50)) with
        | Normal resp => Some resp
        | Throw _ => None
        end)
     = Some 200.
Proof. vm_compute. repeat split. Qed.

(** C7 at the input on which a submit for a locked level is run and
    stored.  The first level has no question and its window is open until
    100: at 50 it is neither completed nor expired, and the listing reports
    the second level locked.  [isExamUnlocked] lets a submit for the question
    of the second level through: a request is posted to the execution
    service, the answer is 200 and a submission is stored. *)
Example submit_runs_on_a_level_the_listing_locks :
  questionsOfExam empty_first_level (exam_id warmup) = []
  /\ timedOut warmup 50 = false
  /\ map (fun st => (exam_id (es_exam st), es_unlocked st, es_completed st))
       (examStatus empty_first_level 7 [1; 2] 50)
     = [(1, true, false); (2, false, false)]
  /\ option_map q_examId (findQuestion empty_first_level 20) = Some 2
  /\ isExamUnlocked empty_first_level 50 7 2 = true
  /\ submissions empty_first_level = []
  /\ option_map (fun r => (status (fst r),
                           map (fun s => (s_participantId s, s_questionId s, s_status s))
                               (submissions (snd r))))
       (match fst (@submit echo_piston empty_first_level 7
                     (mkSubmitBody (Some 20) (Some python) (Some program)) (start_at 50)) with
        | Normal r => Some r
        | Throw _ => None
        end)
     = Some (200, [(7, 20, COMPLETED)])
  /\ sent (snd (@submit echo_piston empty_first_level 7
                  (mkSubmitBody (Some 20) (Some python) (Some program)) (start_at 50)))
     = [ mkRequest (lit "python") (lit "3.10.0") [program] (lit "1 2") 10000 5000 ].
Proof. vm_compute. repeat split. Qed.

(** C4 at the input on which login parts from the other two.  The
    submission is COMPLETED with score 0: the listing and the helper have
    level 2 unlocked, login stops at level 1. *)
Example login_wants_a_positive_score :
  map (fun s => (s_questionId s, s_status s, s_score s, s_passedTests s))
      (submissions answered_wrong)
  = [(30, COMPLETED, 0%float, 0%nat)]
  /\ map es_unlocked (examStatus answered_wrong 7 [1; 2] 50) = [true; true]
  /\ isExamUnlocked answered_wrong 50 7 2 = true
  /\ option_map exam_id (login_activeExam answered_wrong 7) = Some 1.
Proof. vm_compute. repeat split. Qed.

(** C5: the memory limit that [runTestcases] receives changes nothing,
    neither the outcomes nor the requests posted nor the state the execution
    service is left in. *)
Theorem memory_limit_is_never_read {P : Platform}
    (code language : jsstring) (testcases : list runnable) (timeLimit : Z)
    (memoryLimit memoryLimit' : jsstring) (env : Env) :
  runTestcases code language testcases timeLimit memoryLimit env
  = runTestcases code language testcases timeLimit memoryLimit' env.
Proof. reflexivity. Qed.

(** The requests of a submission for a question limited to 64 MB: no field
    of any of them holds the limit. *)
Example submit_requests_of_squares :
  q_memoryLimit squares = Some 64
  /\ sent (snd (@submit echo_piston contest 7
                  (mkSubmitBody (Some 10) (Some python) (Some program)) (start_at 0)))
     = [ mkRequest (lit "python") (lit "3.10.0") [program] (lit "1") 10000 2000000;
         mkRequest (lit "python") (lit "3.10.0") [program] (lit "0") 10000 2000000;
         mkRequest (lit "python") (lit "3.10.0") [program] (lit "1 ") 10000 2000000;
         mkRequest (lit "python") (lit "3.10.0") [program] (lit "7") 10000 2000000 ].
Proof. vm_compute. repeat split. Qed.

(** C2 at a question limited to 2 seconds, and at one with no limit: the
    run deadline posted is 2,000,000 ms on both routes; with no limit it is
    5,000,000 ms on the run route and 5,000 ms on the submit route.  The
    compile deadline is 10,000 ms throughout. *)
Example run_deadline_is_multiplied_twice :
  q_timeLimit squares = Some 2
  /\ map (fun r => (compile_timeout r, run_timeout r))
       (sent (snd (@submit echo_piston contest 7
                     (mkSubmitBody (Some 10) (Some python) (Some program)) (start_at 0))))
     = [(10000, 2000000); (10000, 2000000); (10000, 2000000); (10000, 2000000)]
  /\ map (fun r => (compile_timeout r, run_timeout r))
       (sent (snd (@run echo_piston contest 7
                     (mkRunBody (Some 10) (Some python) (Some program) None None) (start_at 0))))
     = [(10000, 2000000); (10000, 2000000)]
  /\ q_timeLimit finals_question = None
  /\ map (fun r => (compile_timeout r, run_timeout r))
       (sent (snd (@run echo_piston empty_first_level 7
                     (mkRunBody (Some 20) (Some python) (Some program) None None) (start_at 0))))
     = [(10000, 5000000)]
  /\ map (fun r => (compile_timeout r, run_timeout r))
       (sent (snd (@submit echo_piston empty_first_level 7
                     (mkSubmitBody (Some 20) (Some python) (Some program)) (start_at 0))))
     = [(10000, 5000)].
Proof. vm_compute. repeat split. Qed.

(** C1 at the input on which the run route answers with a hidden
    testcase's expected output: the custom input is the input of the hidden
    testcase, whose expected output no visible testcase shares, and the
    response carries it. *)
Example run_returns_a_hidden_expected_output :
  existsb (fun tc => negb (isVisible tc)
                     && str_eqb (tc_input tc) (lit "7")
                     && str_eqb (tc_expectedOutput tc) (lit "49"))
          (q_testcases squares) = true
  /\ existsb (fun tc => isVisible tc && str_eqb (tc_expectedOutput tc) (lit "49"))
             (q_testcases squares) = false
  /\ fst (@run echo_piston contest 7
            (mkRunBody (Some 10) (Some python) (Some program) (Some (lit "7")) None)
            (start_at 0))
     = Normal (json (RunBody
         [ mkOutcome (IdStr (lit "custom")) false (lit "7") (lit "49") (lit "7") None 8 ])).
Proof. vm_compute. repeat split. Qed.

Section CustomInput.

Context {P : Platform}.

Lemma customTestcase_match q customInput supplied m :
  find (fun tc => str_eqb (trim (tc_input tc)) (trim customInput)) (q_testcases q) = Some m ->
  r_expectedOutput (customTestcase q customInput supplied) = tc_expectedOutput m.
Proof. unfold customTestcase. intros ->. reflexivity. Qed.

Lemma customTestcase_no_match q customInput supplied :
  find (fun tc => str_eqb (trim (tc_input tc)) (trim customInput)) (q_testcases q) = None ->
  r_expectedOutput (customTestcase q customInput supplied) = or_str supplied [].
Proof. unfold customTestcase. intros ->. reflexivity. Qed.

(** C6.  A run request with custom input that passes the checks executes
    the code once, on the custom input as sent, and answers with the one
    outcome recorded for the ad-hoc testcase [judged].  If the trimmed custom
    input equals the trimmed input of a testcase of the question, visible or
    hidden, the expected output of [judged] is that of the first such
    testcase [m], whatever expected output the caller sent; so it is that of
    any matching testcase [tc] when the matching testcases agree on it.  If
    no testcase matches, it is the caller's expected output, or the empty
    string when the caller sent none. *)
Theorem run_custom_input_is_judged_against_the_testcase
    (db : DB) (participantId : Z) (body : run_body) (env : Env)
    (questionId : Z) (language code : jsstring) (q : question) (p : participant)
    (customInput : jsstring) :
  required (rb_questionId body) (rb_language body) (rb_code body)
    = Some (questionId, language, code) ->
  findQuestion db questionId = Some q ->
  isExamUnlocked db (clock (world env)) participantId (q_examId q) = true ->
  findParticipant db participantId = Some p ->
  hasJoined p (q_examId q) = true ->
  rb_customInput body = Some customInput ->
  let judged := customTestcase q customInput (rb_customExpectedOutput body) in
  let matches tc := trim (tc_input tc) = trim customInput in
  (exists exec o env',
     executeCode code language customInput (run_timeLimit q) env = (exec, env')
     /\ recorded judged exec o
     /\ run db participantId body env = (Normal (json (RunBody [o])), env'))
  /\ (forall tc, In tc (q_testcases q) -> matches tc ->
        exists m,
          find (fun t => str_eqb (trim (tc_input t)) (trim customInput)) (q_testcases q) = Some m
          /\ In m (q_testcases q) /\ matches m
          /\ r_expectedOutput judged = tc_expectedOutput m
          /\ (forall supplied, customTestcase q customInput supplied = judged)
          /\ ((forall other, In other (q_testcases q) -> matches other ->
                 tc_expectedOutput other = tc_expectedOutput tc) ->
              r_expectedOutput judged = tc_expectedOutput tc))
  /\ ((forall tc, In tc (q_testcases q) -> matches tc -> False) ->
      r_expectedOutput judged = or_str (rb_customExpectedOutput body) []).
Proof.
  intros Hreq Hq Hun Hp Hj Hci judged matches. split; [|split].
  - destruct (runTestcase_recorded code language (run_timeLimit q) judged env)
      as (exec & env1 & o & Hexec & Hrun & Hrec).
    exists exec, o, env1. split; [exact Hexec|]. split; [exact Hrec|].
    unfold run, try_catch. rewrite Hreq, Hq.
    erewrite checks_pass by eassumption.
    unfold testcasesToRun. rewrite Hci.
    unfold runTestcases. cbn [for_testcases]. fold judged.
    unfold bind. rewrite Hrun. reflexivity.
  - intros tc Hin Hm.
    destruct (find (fun t => str_eqb (trim (tc_input t)) (trim customInput)) (q_testcases q))
      as [m|] eqn:Hfind.
    + destruct (find_some _ _ Hfind) as [Hinm Hmm]. apply str_eqb_eq in Hmm.
      exists m. split; [reflexivity|]. split; [assumption|]. split; [assumption|].
      split; [apply customTestcase_match; assumption|].
      split.
      * intro supplied. unfold judged, customTestcase. rewrite Hfind. reflexivity.
      * intro Hagree. unfold judged. rewrite (customTestcase_match _ _ _ _ Hfind).
        apply Hagree; assumption.
    + exfalso. pose proof (find_none _ _ Hfind tc Hin) as Hno. simpl in Hno.
      unfold matches in Hm. rewrite Hm, str_eqb_refl in Hno. discriminate.
  - intro Hnone. apply customTestcase_no_match.
    destruct (find (fun t => str_eqb (trim (tc_input t)) (trim customInput)) (q_testcases q))
      as [m|] eqn:Hfind; [|reflexivity].
    exfalso. destruct (find_some _ _ Hfind) as [Hinm Hmm]. apply str_eqb_eq in Hmm.
    exact (Hnone m Hinm Hmm).
Qed.

End CustomInput.

(** The caller sends the input of the hidden testcase, with surrounding
    blanks, and the output the program is known to give as the expected one:
    the run is judged against the hidden 49 and fails. *)
Lemma custom_input_of_a_hidden_testcase :
  exists o env',
    @run echo_piston contest 7
      (mkRunBody (Some 10) (Some python) (Some program) (Some (lit " 7 ")) (Some (lit "7")))
      (start_at 0)
    = (Normal (json (RunBody [o])), env')
    /\ o_expectedOutput o = tc_expectedOutput hidden_square
    /\ o_passed o = false.
Proof.
  destruct (@run_custom_input_is_judged_against_the_testcase echo_piston contest 7
              (mkRunBody (Some 10) (Some python) (Some program) (Some (lit " 7 ")) (Some (lit "7")))
              (start_at 0) 10 python program squares team7 (lit " 7 ")
              eq_refl eq_refl eq_refl eq_refl eq_refl eq_refl)
    as ((exec & o & env' & Hexec & Hrec & Hrun) & _ & _).
  exists o, env'. split; [exact Hrun|].
  vm_compute in Hexec. injection Hexec as <- <-.
  destruct Hrec as (_ & _ & Hexp & Hpassed & _). split; [exact Hexp|].
  destruct (o_passed o); [|reflexivity].
  destruct Hpassed as [Hpassed _]. discriminate (Hpassed eq_refl).
Defined.

(** Level 2 is locked for team 7, which has joined it and submits a
    program that passes every testcase of its question: the request is
    turned down with the world and the database as they were. *)
Lemma locked_level_submit_changes_nothing :
  exists resp,
    @submit echo_piston contest 7 (mkSubmitBody (Some 11) (Some python) (Some program))
      (start_at 0)
    = (Normal (resp, contest), start_at 0)
    /\ (status resp = 403
        \/ (required (Some 11) (Some python) (Some program) = None /\ status resp = 400)
        \/ (findParticipant contest 7 = None /\ status resp = 500)).
Proof.
  apply (@submit_rejected_before_execution echo_piston contest 7
           (mkSubmitBody (Some 11) (Some python) (Some program)) (start_at 0) 11 echoes).
  - reflexivity.
  - reflexivity.
  - left. reflexivity.
Defined.

(** The program of that request does pass the testcases of the locked
    question. *)
Example the_rejected_program_would_pass :
  match fst (@runTestcases echo_piston program python (map as_runnable (q_testcases echoes))
               (submit_timeLimit echoes) (submit_memoryLimit echoes) (start_at 0)) with
  | Normal results => forallb o_passed results
  | Throw _ => false
  end = true.
Proof. vm_compute. reflexivity. Qed.

(** Three of the four testcases of the question pass under the echo
    service and the question is worth 20 marks: the submission is stored with
    4 tests, 3 passed, score 15 and a mean execution time of 8 ms. *)
Lemma three_of_four_scores_fifteen :
  exists resp sub env',
    @submit echo_piston contest 7 (mkSubmitBody (Some 10) (Some python) (Some program))
      (start_at 0)
    = (Normal (resp, mkDB (exams contest) (questions contest) (submissions contest ++ [sub])
                       (participants contest)), env')
    /\ s_totalTests sub = 4%nat
    /\ s_passedTests sub = 3%nat
    /\ s_score sub = 15%float
    /\ s_executionTime sub = 8%float.
Proof.
  destruct (@submit_persists_proportional_score echo_piston contest 7
              (mkSubmitBody (Some 10) (Some python) (Some program)) (start_at 0)
              10 python program squares team7
              eq_refl eq_refl eq_refl eq_refl eq_refl (le_S _ _ (le_S _ _ (le_S _ _ (le_n 1)))))
    as (results & env' & resp & sub & Hrun & Hsubmit & _ & H).
  exists resp, sub, env'. split; [exact Hsubmit|].
  vm_compute in Hrun. injection Hrun as <- <-.
  cbv zeta in H. destruct H as (_ & Ht & Hp & Hs & He & _).
  rewrite Ht, Hp, Hs, He. repeat split.
Defined.

(** ** Completion of a level *)

Section Completion.

Lemma existsb_Zeqb (a : Z) (l : list Z) : existsb (Z.eqb a) l = true <-> In a l.
Proof.
  rewrite existsb_exists. split.
  - intros (x & Hin & Heq). apply Z.eqb_eq in Heq. subst. assumption.
  - intro Hin. exists a. split; [assumption | apply Z.eqb_refl].
Qed.

(** The question ids [distinct] keeps: those of the rows, less the ones
    already seen, each once. *)
Lemma distinct_questionId_keys rows : forall seen k,
  In k (map s_questionId (distinct_questionId seen rows))
  <-> In k (map s_questionId rows) /\ ~ In k seen.
Proof.
  induction rows as [|s rows IH]; intros seen k; simpl.
  - tauto.
  - destruct (existsb (Z.eqb (s_questionId s)) seen) eqn:Hseen.
    + apply existsb_Zeqb in Hseen. rewrite IH. split.
      * intros [H1 H2]. tauto.
      * intros [[H1|H1] H2]; [subst; tauto | tauto].
    + assert (~ In (s_questionId s) seen) as Hnot.
      { intro H. apply existsb_Zeqb in H. congruence. }
      simpl. rewrite IH. simpl. split.
      * intros [H|[H1 H2]]; [subst; tauto | tauto].
      * intros [[H|H] H2]; [tauto|].
        destruct (Z.eq_dec (s_questionId s) k); [tauto|]. right. tauto.
Qed.

Lemma distinct_questionId_NoDup rows : forall seen,
  NoDup (map s_questionId (distinct_questionId seen rows)).
Proof.
  induction rows as [|s rows IH]; intro seen; simpl.
  - constructor.
  - destruct (existsb (Z.eqb (s_questionId s)) seen); [apply IH|].
    simpl. constructor; [|apply IH].
    rewrite distinct_questionId_keys. simpl. tauto.
Qed.

Variables (db : DB) (participantId : Z) (extra : submission -> bool).

Lemma submissionsWhere_keys (questionIds : list Z) (k : Z) :
  In k (map s_questionId (submissionsWhere db extra participantId questionIds))
  <-> In k questionIds
      /\ exists s, In s (submissions db) /\ s_participantId s = participantId
                   /\ s_questionId s = k /\ extra s = true.
Proof.
  unfold submissionsWhere. rewrite distinct_questionId_keys, in_map_iff. split.
  - intros [(s & Hk & Hin) _]. apply filter_In in Hin. destruct Hin as [Hin Hkeep].
    apply andb_true_iff in Hkeep. destruct Hkeep as [Hkeep Hextra].
    apply andb_true_iff in Hkeep. destruct Hkeep as [Hpid Hqid].
    apply Z.eqb_eq in Hpid. apply existsb_Zeqb in Hqid. subst k.
    split; [assumption|]. exists s. repeat split; assumption.
  - intros [Hin (s & Hs & Hpid & Hqid & Hextra)]. split; [|intros []].
    exists s. split; [assumption|]. apply filter_In. split; [assumption|].
    rewrite Hextra, andb_true_r. apply andb_true_iff. split.
    + apply Z.eqb_eq; assumption.
    + apply existsb_Zeqb. rewrite Hqid. assumption.
Qed.

(** The count of distinct questions with a kept submission equals the
    number of questions of the level exactly when every question of the level
    has one (question ids distinct). *)
Lemma countMatches_iff (e : exam) :
  NoDup (map q_id (questionsOfExam db (exam_id e))) ->
  countMatches db extra participantId e = true
  <-> forall q, In q (questionsOfExam db (exam_id e)) -> exists s, counts_for db participantId extra q s.
Proof.
  intro Hnd. unfold countMatches.
  set (qs := questionsOfExam db (exam_id e)) in *.
  set (rows := submissionsWhere db extra participantId (map q_id qs)).
  assert (NoDup (map s_questionId rows)) as Hrows by apply distinct_questionId_NoDup.
  assert (incl (map s_questionId rows) (map q_id qs)) as Hincl.
  { intros k Hk. apply submissionsWhere_keys in Hk. tauto. }
  rewrite Nat.eqb_eq, <- (length_map s_questionId rows), <- (length_map q_id qs).
  split.
  - intros Hlen q Hq.
    assert (incl (map q_id qs) (map s_questionId rows)) as Hback.
    { apply NoDup_length_incl; [assumption | lia | assumption]. }
    assert (In (q_id q) (map s_questionId rows)) as Hk.
    { apply Hback, in_map; assumption. }
    apply submissionsWhere_keys in Hk. destruct Hk as [_ (s & Hs)].
    exists s. exact Hs.
  - intro Hall.
    assert (incl (map q_id qs) (map s_questionId rows)) as Hincl'.
    { intros k Hk. apply submissionsWhere_keys. split; [assumption|].
      apply in_map_iff in Hk. destruct Hk as (q & <- & Hq).
      destruct (Hall q Hq) as (s & Hs). exists s. exact Hs. }
    apply Nat.le_antisymm; apply NoDup_incl_length; assumption.
Qed.

End Completion.

(** ** Further properties of the levels *)

Lemma firstn_In {A} (l : list A) : forall n x, In x (firstn n l) -> In x l.
Proof.
  induction l as [|y l IH]; intros [|n] x H; simpl in *; try contradiction.
  destruct H as [H|H]; [left; assumption | right; eapply IH; eassumption].
Qed.

Lemma forallb_firstn_le {A} (f : A -> bool) (l : list A) (i j : nat) :
  (i <= j)%nat -> forallb f (firstn j l) = true -> forallb f (firstn i l) = true.
Proof.
  intros Hij H. replace i with (Nat.min i j) by lia.
  rewrite <- firstn_firstn. rewrite forallb_forall in *.
  intros x Hx. apply H. eapply firstn_In; eassumption.
Qed.

(** X1.  In the listing an unlocked level has no locked level before
    it. *)
Theorem listing_unlock_is_monotone
    (db : DB) (participantId now : Z) (joinedExamIds : list Z)
    (i j : nat) (st_i st_j : exam_status) :
  (i <= j)%nat ->
  nth_error (examStatus db participantId joinedExamIds now) i = Some st_i ->
  nth_error (examStatus db participantId joinedExamIds now) j = Some st_j ->
  es_unlocked st_j = true ->
  es_unlocked st_i = true.
Proof.
  intros Hij Hi Hj.
  rewrite (listing_unlocked_nth _ _ _ _ _ _ Hi), (listing_unlocked_nth _ _ _ _ _ _ Hj).
  apply forallb_firstn_le. assumption.
Qed.

Lemma listing_unlock_is_monotone_witness :
  es_unlocked (mkStatus level1 true true false true true) = true.
Proof.
  apply (listing_unlock_is_monotone answered_wrong 7 50 [1; 2] 0 1
           (mkStatus level1 true true false true true)
           (mkStatus level2 true true false false true)).
  - repeat constructor.
  - reflexivity.
  - reflexivity.
  - reflexivity.
Defined.

(** X2.  [isExamUnlocked] is monotone too: a level it opens has no closed
    level before it (exam ids distinct). *)
Theorem helper_unlock_is_monotone
    (db : DB) (participantId now : Z) (i j : nat) (e_i e_j : exam) :
  distinct_exam_ids db ->
  (i <= j)%nat ->
  nth_error (exams db) i = Some e_i ->
  nth_error (exams db) j = Some e_j ->
  isExamUnlocked db now participantId (exam_id e_j) = true ->
  isExamUnlocked db now participantId (exam_id e_i) = true.
Proof.
  intros Hnd Hij Hi Hj.
  rewrite (isExamUnlocked_nth _ _ _ _ _ Hnd Hi), (isExamUnlocked_nth _ _ _ _ _ Hnd Hj).
  apply forallb_firstn_le. assumption.
Qed.

Lemma contest_exam_ids_distinct : distinct_exam_ids answered_wrong.
Proof.
  unfold distinct_exam_ids. simpl.
  constructor; [simpl; intros [H|[]]; discriminate H|].
  constructor; [simpl; intros []|]. constructor.
Defined.

Lemma helper_unlock_is_monotone_witness :
  isExamUnlocked answered_wrong 50 7 (exam_id level1) = true.
Proof.
  apply (helper_unlock_is_monotone answered_wrong 7 50 0 1 level1 level2
           contest_exam_ids_distinct).
  - repeat constructor.
  - reflexivity.
  - reflexivity.
  - reflexivity.
Defined.

(** X3.  For [isExamUnlocked] a level with no question never stands in the way:
    the level after it is unlocked exactly when it is itself (exam ids
    distinct). *)
Theorem helper_skips_a_level_without_questions
    (db : DB) (participantId now : Z) (i : nat) (prev cur : exam) :
  distinct_exam_ids db ->
  nth_error (exams db) i = Some prev ->
  nth_error (exams db) (S i) = Some cur ->
  questionsOfExam db (exam_id prev) = [] ->
  isExamUnlocked db now participantId (exam_id cur)
  = isExamUnlocked db now participantId (exam_id prev).
Proof.
  intros Hnd Hprev Hcur Hnone.
  rewrite (helper_step db participantId now i prev cur Hnd Hprev Hcur).
  unfold helper_opens. rewrite Hnone. simpl. rewrite orb_true_r. apply andb_true_r.
Qed.

Lemma empty_first_level_exam_ids_distinct : distinct_exam_ids empty_first_level.
Proof.
  unfold distinct_exam_ids. simpl.
  constructor; [simpl; intros [H|[]]; discriminate H|].
  constructor; [simpl; intros []|]. constructor.
Defined.

Lemma helper_skips_a_level_without_questions_witness :
  isExamUnlocked empty_first_level 50 7 (exam_id finals)
  = isExamUnlocked empty_first_level 50 7 (exam_id warmup).
Proof.
  apply (helper_skips_a_level_without_questions empty_first_level 7 50 0 warmup finals
           empty_first_level_exam_ids_distinct);
    reflexivity.
Defined.

(** X4.  The first level is unlocked for every participant, whatever the
    history, in the listing and for [isExamUnlocked]. *)
Theorem first_level_is_always_unlocked
    (db : DB) (participantId now : Z) (joinedExamIds : list Z)
    (first : exam) (rest : list exam) :
  exams db = first :: rest ->
  (exists st,
     nth_error (examStatus db participantId joinedExamIds now) 0 = Some st
     /\ es_exam st = first /\ es_unlocked st = true)
  /\ isExamUnlocked db now participantId (exam_id first) = true.
Proof.
  intro Hexams. split.
  - unfold examStatus. rewrite Hexams. simpl. eexists. repeat split.
  - unfold isExamUnlocked. rewrite Hexams. simpl. rewrite Z.eqb_refl. reflexivity.
Qed.

Lemma first_level_is_always_unlocked_witness :
  (exists st,
     nth_error (examStatus contest 7 [] 0) 0 = Some st
     /\ es_exam st = level1 /\ es_unlocked st = true)
  /\ isExamUnlocked contest 0 7 (exam_id level1) = true.
Proof.
  apply (first_level_is_always_unlocked contest 7 0 [] level1 [level2]). reflexivity.
Defined.

(** X5.  A level with at least one question is reported completed exactly when
    each of its questions has a submission of the participant with status
    COMPLETED; the score of the submission plays no part (question ids
    distinct). *)
Theorem level_completed_iff_every_question_completed
    (db : DB) (participantId now : Z) (joinedExamIds : list Z)
    (i : nat) (e : exam) :
  nth_error (exams db) i = Some e ->
  NoDup (map q_id (questionsOfExam db (exam_id e))) ->
  questionsOfExam db (exam_id e) <> [] ->
  exists st,
    nth_error (examStatus db participantId joinedExamIds now) i = Some st
    /\ es_exam st = e
    /\ (es_completed st = true
        <-> forall q, In q (questionsOfExam db (exam_id e)) ->
              exists s, In s (submissions db)
                        /\ s_participantId s = participantId
                        /\ s_questionId s = q_id q
                        /\ s_status s = COMPLETED).
Proof.
  intros He Hnd Hne.
  destruct (listing_from_nth db participantId now joinedExamIds (exams db) None true i e He)
    as (st & Hst & Hexam & _ & Hcompleted).
  exists st. split; [exact Hst|]. split; [exact Hexam|].
  rewrite Hcompleted.
  destruct (questionsOfExam db (exam_id e)) as [|q0 qs] eqn:Hqs; [congruence|].
  cbn [List.length Nat.ltb Nat.leb andb]. rewrite <- Hqs in *.
  rewrite (countMatches_iff db participantId statusCompleted e Hnd).
  unfold counts_for, statusCompleted.
  split; intros H q Hq; destruct (H q Hq) as (s & Hs & Hp & Hk & Hstat);
    exists s; repeat split; try assumption; apply str_eqb_eq; assumption.
Qed.

Lemma level_completed_iff_every_question_completed_witness :
  exists st,
    nth_error (examStatus answered_wrong 7 [1; 2] 50) 0 = Some st
    /\ es_exam st = level1
    /\ (es_completed st = true
        <-> forall q, In q (questionsOfExam answered_wrong (exam_id level1)) ->
              exists s, In s (submissions answered_wrong)
                        /\ s_participantId s = 7
                        /\ s_questionId s = q_id q
                        /\ s_status s = COMPLETED).
Proof.
  apply (level_completed_iff_every_question_completed answered_wrong 7 50 [1; 2] 0 level1).
  - reflexivity.
  - simpl. constructor; [intros []|constructor].
  - discriminate.
Defined.

(** X6.  Where the listing has a level unlocked [isExamUnlocked] has it unlocked too,
    and the two agree on a level when every level before it has a question
    (exam ids distinct). *)
Theorem listing_unlocked_is_helper_unlocked
    (db : DB) (participantId now : Z) (joinedExamIds : list Z)
    (i : nat) (st : exam_status) :
  distinct_exam_ids db ->
  nth_error (examStatus db participantId joinedExamIds now) i = Some st ->
  (es_unlocked st = true ->
   isExamUnlocked db now participantId (exam_id (es_exam st)) = true)
  /\ (Forall (fun e => questionsOfExam db (exam_id e) <> []) (firstn i (exams db)) ->
      es_unlocked st = isExamUnlocked db now participantId (exam_id (es_exam st))).
Proof.
  intros Hnd Hst.
  assert (nth_error (exams db) i = Some (es_exam st)) as He.
  { destruct (nth_error (exams db) i) as [e|] eqn:He.
    - destruct (listing_from_nth db participantId now joinedExamIds (exams db) None true i e He)
        as (st' & Hst' & Hexam & _).
      unfold examStatus in Hst. rewrite Hst in Hst'. injection Hst' as <-. congruence.
    - exfalso. apply nth_error_None in He.
      assert (nth_error (examStatus db participantId joinedExamIds now) i <> None) as Hn
        by congruence.
      apply nth_error_Some in Hn. unfold examStatus in Hn.
      rewrite listing_from_length in Hn. lia. }
  rewrite (listing_unlocked_nth _ _ _ _ _ _ Hst), (isExamUnlocked_nth _ _ _ _ _ Hnd He).
  split.
  - rewrite !forallb_forall. intros H e Hin. apply listing_opens_helper_opens, H, Hin.
  - intro Hall. induction (firstn i (exams db)) as [|e l IH]; [reflexivity|].
    inversion Hall as [|? ? Hne Hall']; subst. simpl.
    rewrite (nonempty_listing_helper _ _ _ _ Hne), (IH Hall'). reflexivity.
Qed.

Lemma listing_unlocked_is_helper_unlocked_witness :
  (es_unlocked (mkStatus level2 true true false false true) = true ->
   isExamUnlocked answered_wrong 50 7 (exam_id level2) = true)
  /\ (Forall (fun e => questionsOfExam answered_wrong (exam_id e) <> [])
        (firstn 1 (exams answered_wrong)) ->
      es_unlocked (mkStatus level2 true true false false true)
      = isExamUnlocked answered_wrong 50 7 (exam_id level2)).
Proof.
  apply (listing_unlocked_is_helper_unlocked answered_wrong 7 50 [1; 2] 1
           (mkStatus level2 true true false false true) contest_exam_ids_distinct).
  reflexivity.
Defined.

(** ** What the routes send to the execution service and back to the participant *)

Section Traffic.

Context {P : Platform}.

Lemma posts_only_silent {A} ok (m : JS A) : silent m -> posts_only ok m.
Proof.
  intros Hm env. exists []. rewrite app_nil_r. split; [apply Hm | constructor].
Qed.

Lemma posts_only_bind {A B} ok (m : JS A) (k : A -> JS B) :
  posts_only ok m -> (forall a, posts_only ok (k a)) -> posts_only ok (bind m k).
Proof.
  intros Hm Hk env. unfold bind. destruct (Hm env) as (reqs & Hsent & Hok).
  destruct (m env) as [[a|e] env1]; simpl in *.
  - destruct (Hk a env1) as (reqs' & Hsent' & Hok').
    exists (reqs ++ reqs'). rewrite Hsent', Hsent, app_assoc.
    split; [reflexivity | apply Forall_app; split; assumption].
  - exists reqs. split; assumption.
Qed.

Lemma posts_only_catch {A} ok (m : JS A) (h : jserror -> JS A) :
  posts_only ok m -> (forall e, posts_only ok (h e)) -> posts_only ok (try_catch m h).
Proof.
  intros Hm Hh env. unfold try_catch. destruct (Hm env) as (reqs & Hsent & Hok).
  destruct (m env) as [[a|e] env1]; simpl in *.
  - exists reqs. split; assumption.
  - destruct (Hh e env1) as (reqs' & Hsent' & Hok').
    exists (reqs ++ reqs'). rewrite Hsent', Hsent, app_assoc.
    split; [reflexivity | apply Forall_app; split; assumption].
Qed.

Lemma posts_only_runTestcases code language testcases timeLimit memoryLimit :
  posts_only (deadlines 10000 (or_num timeLimit 5 * 1000))
    (runTestcases code language testcases timeLimit memoryLimit).
Proof.
  intro env.
  destruct (runTestcases_batch code language testcases timeLimit memoryLimit env)
    as (results & env' & Hrun & Hbatch).
  rewrite Hrun. simpl.
  destruct (batch_sent _ _ _ _ _ _ _ Hbatch) as (reqs & Hsent & Hall).
  exists reqs. split; [assumption|].
  eapply Forall_impl; [|exact Hall].
  intros req (input & _ & _ & Hc & Hr). split; assumption.
Qed.

Lemma posts_only_checks {A} ok db pid examId (locked notJoined : A) k :
  posts_only ok k -> posts_only ok (checks db pid examId locked notJoined k).
Proof.
  intro Hk. unfold checks.
  apply posts_only_bind; [apply posts_only_silent, silent_now|]. intro now.
  destruct (negb _); [apply posts_only_silent, silent_ret|].
  destruct (findParticipant db pid) as [p|]; [|apply posts_only_silent, silent_throw].
  destruct (negb _); [apply posts_only_silent, silent_ret | exact Hk].
Qed.

(** X7.  What the two routes post for a question.  Every request of a submit
    carries the compile deadline 10,000 ms and the run deadline
    [(question.timeLimit * 1000 || 5) * 1000]; every request of a run the
    same with [question.timeLimit ? question.timeLimit * 1000 : 5000] inside.
    For a question limited to [t] seconds, [t] not zero, both are
    [t * 1,000,000] ms. *)
Theorem routes_post_the_converted_limit_times_1000
    (db : DB) (participantId : Z) (questionId : Z) (q : question) (t : Z)
    (language code : option jsstring) (customInput customExpectedOutput : option jsstring) :
  findQuestion db questionId = Some q ->
  q_timeLimit q = Some t ->
  t <> 0 ->
  posts_only (deadlines 10000 (t * 1000000))
    (submit db participantId (mkSubmitBody (Some questionId) language code))
  /\ posts_only (deadlines 10000 (t * 1000000))
       (run db participantId
          (mkRunBody (Some questionId) language code customInput customExpectedOutput)).
Proof.
  intros Hq Ht Hnz.
  assert (or_num (submit_timeLimit q) 5 * 1000 = t * 1000000) as Hs.
  { unfold submit_timeLimit, or_num. rewrite Ht.
    destruct (Z.eqb_spec (t * 1000) 0); lia. }
  assert (or_num (run_timeLimit q) 5 * 1000 = t * 1000000) as Hr.
  { unfold run_timeLimit, or_num. rewrite Ht.
    destruct (Z.eqb_spec t 0); [lia|]. destruct (Z.eqb_spec (t * 1000) 0); lia. }
  split.
  - unfold submit. apply posts_only_catch; [|intro; apply posts_only_silent, silent_ret].
    cbn [sub_questionId sub_language sub_code].
    destruct (required (Some questionId) language code) as [[[qid l] c]|] eqn:Hreq;
      [|apply posts_only_silent, silent_ret].
    apply required_questionId in Hreq. destruct Hreq as (Hid & _ & _).
    injection Hid as <-. rewrite Hq.
    apply posts_only_checks.
    destruct (Nat.eqb _ 0); [apply posts_only_silent, silent_ret|].
    unfold submit_accepted.
    apply posts_only_bind; [rewrite <- Hs; apply posts_only_runTestcases|]. intro results.
    apply posts_only_bind; [apply posts_only_silent, silent_now|]. intro createdAt.
    apply posts_only_silent, silent_ret.
  - unfold run. apply posts_only_catch; [|intro; apply posts_only_silent, silent_ret].
    cbn [rb_questionId rb_language rb_code rb_customInput rb_customExpectedOutput].
    destruct (required (Some questionId) language code) as [[[qid l] c]|] eqn:Hreq;
      [|apply posts_only_silent, silent_ret].
    apply required_questionId in Hreq. destruct Hreq as (Hid & _ & _).
    injection Hid as <-. rewrite Hq.
    apply posts_only_checks.
    destruct (testcasesToRun q customInput customExpectedOutput) as [tcs|];
      [|apply posts_only_silent, silent_ret].
    apply posts_only_bind; [rewrite <- Hr; apply posts_only_runTestcases|]. intro results.
    apply posts_only_silent, silent_ret.
Qed.

End Traffic.

Lemma routes_post_the_converted_limit_times_1000_witness :
  @posts_only echo_piston _ (deadlines 10000 (2 * 1000000))
    (submit contest 7 (mkSubmitBody (Some 10) (Some python) (Some program)))
  /\ @posts_only echo_piston _ (deadlines 10000 (2 * 1000000))
       (run contest 7 (mkRunBody (Some 10) (Some python) (Some program) None None)).
Proof.
  apply (@routes_post_the_converted_limit_times_1000 echo_piston contest 7 10 squares 2).
  - reflexivity.
  - reflexivity.
  - discriminate.
Defined.

Section HiddenTestcases.

Context {P : Platform}.

Lemma batch_In code language timeLimit env testcases results env' :
  batch code language timeLimit env testcases results env' ->
  forall o, In o results ->
    exists tc, In tc testcases
               /\ o_testcaseId o = r_id tc
               /\ o_input o = r_input tc
               /\ o_expectedOutput o = r_expectedOutput tc.
Proof.
  induction 1 as [|env tc exec env1 o' rest results env2 Hexec Hrec Hbatch IH];
    intros o Hin; simpl in Hin.
  - contradiction.
  - destruct Hin as [<-|Hin].
    + destruct Hrec as (Hid & Hi & He & _). exists tc. simpl. auto.
    + destruct (IH o Hin) as (tc' & Htc' & Hrest). exists tc'. simpl. auto.
Qed.

Lemma tc_id_injective (tcs : list testcase) (a b : testcase) :
  NoDup (map tc_id tcs) -> In a tcs -> In b tcs -> tc_id a = tc_id b -> a = b.
Proof.
  induction tcs as [|x tcs IH]; simpl; intros Hnd Ha Hb Hab; [contradiction|].
  inversion Hnd as [|? ? Hnotin Hnd']; subst.
  destruct Ha as [<-|Ha], Hb as [<-|Hb].
  - reflexivity.
  - exfalso. apply Hnotin. rewrite Hab. apply in_map. assumption.
  - exfalso. apply Hnotin. rewrite <- Hab. apply in_map. assumption.
  - apply IH; assumption.
Qed.

Lemma visibility_eqb_VISIBLE v : visibility_eqb v VISIBLE = true -> v = VISIBLE.
Proof. destruct v; [reflexivity | discriminate]. Qed.

(** The outcomes the submit route returns, out of those of a batch over
    all the testcases of the question, are outcomes of visible testcases. *)
Lemma visibleTestcaseResults_visible code language timeLimit env q results env' :
  NoDup (map tc_id (q_testcases q)) ->
  batch code language timeLimit env (map as_runnable (q_testcases q)) results env' ->
  Forall (shows_visible_testcase q) (visibleTestcaseResults q results).
Proof.
  intros Hnd Hbatch. apply Forall_forall. intros o Ho.
  unfold visibleTestcaseResults in Ho. apply filter_In in Ho. destruct Ho as [Ho Hkeep].
  destruct (find (fun t => ident_eqb (IdNum (tc_id t)) (o_testcaseId o)) (q_testcases q))
    as [tc|] eqn:Hfind; [|discriminate].
  destruct (find_some _ _ Hfind) as [Htc Hid].
  destruct (batch_In _ _ _ _ _ _ _ Hbatch o Ho) as (r & Hr & Hrid & Hrin & Hrexp).
  apply in_map_iff in Hr. destruct Hr as (tc' & <- & Htc').
  simpl in Hrid, Hrin, Hrexp. rewrite Hrid in Hid. simpl in Hid. apply Z.eqb_eq in Hid.
  assert (tc = tc') as <- by (eapply tc_id_injective; eassumption).
  exists tc. repeat split; try assumption.
  apply visibility_eqb_VISIBLE. exact Hkeep.
Qed.

(** X8.  An accepted submit answers with the results of visible testcases
    only: each result returned carries the id, input and expected output of a
    VISIBLE testcase of the question (testcase ids distinct). *)
Theorem submit_returns_visible_results_only
    (db : DB) (participantId : Z) (body : submit_body) (env : Env)
    (questionId : Z) (language code : jsstring) (q : question) (p : participant) :
  required (sub_questionId body) (sub_language body) (sub_code body)
    = Some (questionId, language, code) ->
  findQuestion db questionId = Some q ->
  isExamUnlocked db (clock (world env)) participantId (q_examId q) = true ->
  findParticipant db participantId = Some p ->
  hasJoined p (q_examId q) = true ->
  (1 <= List.length (q_testcases q))%nat ->
  NoDup (map tc_id (q_testcases q)) ->
  exists message view db' env',
    submit db participantId body env
    = (Normal (json (SubmitBody message view), db'), env')
    /\ Forall (shows_visible_testcase q) (sv_testcaseResults view).
Proof.
  intros Hreq Hq Hun Hp Hj Hn Hnd.
  destruct (runTestcases_batch code language
              (map as_runnable (q_testcases q)) (submit_timeLimit q)
              (submit_memoryLimit q) env)
    as (results & env' & Hrun & Hbatch).
  eexists _, _, _, env'. split.
  - unfold submit, try_catch. rewrite Hreq, Hq.
    erewrite checks_pass by eassumption.
    destruct (Nat.eqb_spec (List.length (q_testcases q)) 0) as [H0|_]; [lia|].
    unfold submit_accepted, bind at 1. rewrite Hrun.
    unfold bind, Date_now, ret. reflexivity.
  - simpl. eapply visibleTestcaseResults_visible; eassumption.
Qed.

Lemma insert_by_In {A} (compare : A -> A -> Z) (x : A) (l : list A) (y : A) :
  In y (insert_by compare x l) <-> y = x \/ In y l.
Proof.
  induction l as [|z l IH]; simpl.
  - intuition.
  - destruct (compare x z <=? 0); simpl; [intuition|]. rewrite IH. intuition.
Qed.

Lemma sort_by_In {A} (compare : A -> A -> Z) (l : list A) (y : A) :
  In y (sort_by compare l) <-> In y l.
Proof.
  unfold sort_by. induction l as [|x l IH]; simpl; [tauto|].
  rewrite insert_by_In, IH. intuition.
Qed.

Lemma view_question_visible db participantId q :
  In q (questions db) -> lists_visible_testcases db (view_question db participantId q).
Proof.
  intro Hq. exists q. split; [assumption|]. split; [reflexivity|].
  simpl. apply Forall_forall. intros tv Htv.
  apply in_map_iff in Htv. destruct Htv as (tc & <- & Htc).
  apply filter_In in Htc. destruct Htc as [Htc Hvis].
  exists tc. repeat split; [assumption|]. apply visibility_eqb_VISIBLE. exact Hvis.
Qed.

(** X9.  Whatever the questions listing answers, a list of questions it
    answers with holds questions of the database, each with VISIBLE testcases
    of its own only. *)
Theorem questions_listing_holds_visible_testcases_only
    (db : DB) (participantId : Z) (examId : option Z) (env : Env) :
  exists resp env',
    getQuestions db participantId examId env = (Normal resp, env')
    /\ match payload resp with
       | QuestionsBody listed => Forall (lists_visible_testcases db) listed
       | ErrorBody _ => True
       | _ => False
       end.
Proof.
  unfold getQuestions, try_catch.
  destruct examId as [examId|]; [|eexists _, _; split; [reflexivity | exact I]].
  destruct (examId =? 0); [eexists _, _; split; [reflexivity | exact I]|].
  unfold checks, bind, Date_now.
  destruct (negb (isExamUnlocked db (clock (world env)) participantId examId));
    [eexists _, _; split; [reflexivity | exact I]|].
  destruct (findParticipant db participantId) as [p|];
    [|eexists _, _; split; [reflexivity | exact I]].
  destruct (negb (hasJoined p examId)); [eexists _, _; split; [reflexivity | exact I]|].
  destruct (Nat.eqb _ 0); [eexists _, _; split; [reflexivity | exact I]|].
  eexists _, _; split; [reflexivity|]. simpl.
  apply Forall_forall. intros qv Hqv. apply sort_by_In in Hqv.
  apply in_map_iff in Hqv. destruct Hqv as (q & <- & Hq).
  apply view_question_visible. unfold questionsOfExam in Hq.
  apply filter_In in Hq. tauto.
Qed.

End HiddenTestcases.

Lemma submit_returns_visible_results_only_witness :
  exists message view db' env',
    @submit echo_piston contest 7 (mkSubmitBody (Some 10) (Some python) (Some program))
      (start_at 0)
    = (Normal (json (SubmitBody message view), db'), env')
    /\ Forall (shows_visible_testcase squares) (sv_testcaseResults view).
Proof.
  apply (@submit_returns_visible_results_only echo_piston contest 7
           (mkSubmitBody (Some 10) (Some python) (Some program)) (start_at 0)
           10 python program squares team7);
    try reflexivity.
  - simpl. lia.
  - simpl. repeat constructor; simpl; intuition discriminate.
Defined.

(** The listing of level 1 for team 7: the two visible testcases of the
    question and neither of the hidden ones. *)
Example questions_of_level_1 :
  option_map (fun resp =>
                match payload resp with
                | QuestionsBody listed => map (fun qv => map tv_id (qv_testcases qv)) listed
                | _ => []
                end)
    (match fst (@getQuestions echo_piston contest 7 (Some 1) (start_at 0)) with
     | Normal resp => Some resp
     | Throw _ => None
     end)
  = Some [[101; 102]].
Proof. vm_compute. reflexivity. Qed.

(** ** The execution client *)

Section ClientProperties.

Context {P : Platform}.

(** X10.  [executeCode] throws in one case only: a call to the execution
    service failed with an HTTP error whose response has no data,
    [undefined] or [null], on which the catch block reads
    [error.response.data.message].  What it throws then is the TypeError of
    that read, worded for the value that was read. *)
Theorem executeCode_throws_only_on_a_response_without_data
    (code language input : jsstring) (timeLimit : Z) (env env' : Env) (e : jserror) :
  executeCode code language input timeLimit env = (Throw e, env') ->
  exists err,
    ((exists w, axios_get_runtimes (world env) = (Throw err, w))
     \/ (exists runtimes w1 req w,
            axios_get_runtimes (world env) = (Normal runtimes, w1)
            /\ axios_post_execute req w1 = (Throw err, w)))
    /\ ((err_response err = Some NoData
         /\ e = TypeError_reading "message" "undefined")
        \/ (err_response err = Some NullData
            /\ e = TypeError_reading "message" "null")).
Proof.
  intro H. unfold_executeCode H. split_innermost H.
  all: try discriminate H.
  all: injection H as <- <-.
  all: eexists; split;
    [ first [ left; eexists; reflexivity
            | right; eexists _, _, _, _; split; [reflexivity | eassumption] ]
    | first [ left; split; [eassumption | reflexivity]
            | right; split; [eassumption | reflexivity] ] ].
Qed.

(** X11.  The time [executeCode] reports with a result is the wall-clock
    time of the whole call: the clock when it returns less the clock when it
    was called, the round trips to the execution service included, whichever
    way the call went. *)
Theorem executeCode_reports_the_elapsed_time
    (code language input : jsstring) (timeLimit : Z) (env env' : Env) (result : exec_result) :
  executeCode code language input timeLimit env = (Normal result, env') ->
  executionTime result = clock (world env') - clock (world env).
Proof.
  intro H. unfold_executeCode H. split_innermost H.
  all: try discriminate H.
  all: injection H as <- <-; reflexivity.
Qed.

(** X12.  A language the catalog of the execution service does not hold is
    reported, not run: [executeCode] returns an empty output with the error
    naming the language and what it resolved to, and posts no request. *)
Theorem unsupported_language_is_reported_and_not_run
    (code language input : jsstring) (timeLimit : Z) (env : Env)
    (runtimes : list runtime) (w : World) :
  axios_get_runtimes (world env) = (Normal runtimes, w) ->
  not_in_catalog (pistonLanguageOf language) runtimes ->
  executeCode code language input timeLimit env
  = (Normal {| output := [];
               error := Some (lit "Language " ++ language ++ lit " not supported. Tried: "
                              ++ tried (pistonLanguageOf language));
               executionTime := clock w - clock (world env) |},
     mkEnv w (sent env)).
Proof.
  intros Hget Hnot. unfold executeCode.
  destruct (pistonLanguageOf language) as [s|printed]; simpl in Hnot;
    cbv [bind try_catch Date_now axios_get throw ret executeCode_catch not_supported tried];
    rewrite Hget.
  - assert (find (fun r => str_eqb (rt_language r) s) runtimes = None) as ->.
    { destruct (find _ runtimes) as [r|] eqn:Hfind; [|reflexivity].
      apply find_some in Hfind. destruct Hfind as [Hin Heq]. apply str_eqb_eq in Heq.
      rewrite Forall_forall in Hnot. exfalso. exact (Hnot r Hin Heq). }
    reflexivity.
  - reflexivity.
Qed.

(** X13.  A compile failure is classified before anything of the run
    stage is read: whatever the run stage holds, the result has an empty
    output and a non-empty error (the compiler's stderr, else its output,
    else "Compilation error").  So the testcase passes exactly when its
    expected output is blank. *)
Theorem compile_failure_passes_only_a_blank_expectation
    (code language : jsstring) (timeLimit : Z) (tc : runnable) (env : Env)
    (pistonLanguage : jsstring) (runtimes : list runtime) (w1 w2 : World)
    (rt : runtime) (response : piston_response) (compile : stage) :
  pistonLanguageOf language = AString pistonLanguage ->
  axios_get_runtimes (world env) = (Normal runtimes, w1) ->
  find (fun r => str_eqb (rt_language r) pistonLanguage) runtimes = Some rt ->
  axios_post_execute
    {| req_language := pistonLanguage;
       req_version := rt_version rt;
       req_files := [code];
       req_stdin := r_input tc;
       compile_timeout := 10000;
       run_timeout := or_num timeLimit 5 * 1000 |} w1 = (Normal response, w2) ->
  pr_compile response = Some compile ->
  st_code compile <> Some 0 ->
  exists o env' message,
    runTestcase code language timeLimit tc env = (Normal o, env')
    /\ o_actualOutput o = []
    /\ o_error o = Some message
    /\ message <> []
    /\ (o_passed o = true <-> trim (r_expectedOutput tc) = []).
Proof.
  intros Hlang Hget Hfind Hpost Hcompile Hcode.
  unfold runTestcase, executeCode.
  cbv [bind try_catch Date_now axios_get axios_post throw ret].
  rewrite Hlang, Hget. cbn [world sent]. rewrite Hfind. cbn [world sent].
  rewrite or_str_some, Hpost. cbn [world sent]. rewrite Hcompile.
  assert (neq0 (st_code compile) = true) as ->.
  { destruct (st_code compile) as [[|p|p]|]; try reflexivity. congruence. }
  eexists _, _, _. split; [reflexivity|]. cbn. repeat split.
  - destruct (st_stderr compile) as [[|c s]|]; simpl; try discriminate;
      destruct (st_output compile) as [[|c' s']|]; simpl; discriminate.
  - destruct (trim (r_expectedOutput tc)); [reflexivity | discriminate].
  - intros ->. reflexivity.
Qed.

Lemma for_testcases_acc code language timeLimit testcases : forall acc env,
  for_testcases code language timeLimit testcases acc env
  = match for_testcases code language timeLimit testcases [] env with
    | (Normal results, env') => (Normal (acc ++ results), env')
    | (Throw e, env') => (Throw e, env')
    end.
Proof.
  induction testcases as [|tc rest IH]; intros acc env; simpl.
  - unfold ret. rewrite app_nil_r. reflexivity.
  - unfold bind.
    destruct (runTestcase code language timeLimit tc env) as [[o|e] env1]; [|reflexivity].
    rewrite (IH (acc ++ [o])), (IH ([] ++ [o])).
    destruct (for_testcases code language timeLimit rest [] env1) as [[results|e] env2];
      [|reflexivity].
    rewrite <- app_assoc. reflexivity.
Qed.

(** X14.  Batches compose: running the testcases of two lists in one batch
    gives the outcomes of the first list followed by those of the second run
    from where the first batch left the world, and leaves the world the second
    batch leaves. *)
Theorem runTestcases_of_two_lists
    (code language : jsstring) (first second : list runnable) (timeLimit : Z)
    (memoryLimit : jsstring) (env env1 env2 : Env) (results1 results2 : list outcome) :
  runTestcases code language first timeLimit memoryLimit env = (Normal results1, env1) ->
  runTestcases code language second timeLimit memoryLimit env1 = (Normal results2, env2) ->
  runTestcases code language (first ++ second) timeLimit memoryLimit env
  = (Normal (results1 ++ results2), env2).
Proof.
  unfold runTestcases. revert env results1.
  induction first as [|tc rest IH]; intros env results1 H1 H2; simpl in *.
  - injection H1 as <- <-. exact H2.
  - unfold bind in *.
    destruct (runTestcase code language timeLimit tc env) as [[o|e] env0]; [|discriminate].
    rewrite for_testcases_acc in H1. rewrite for_testcases_acc.
    destruct (for_testcases code language timeLimit rest [] env0) as [[rs|e] env0'] eqn:Hrest;
      [|discriminate].
    injection H1 as <- <-.
    rewrite (IH env0 rs Hrest H2). simpl. reflexivity.
Qed.

End ClientProperties.

(** The request of the examples that the service turns down with [null]
    for data. *)
Lemma executeCode_throws_only_on_a_response_without_data_witness :
  exists err,
    ((exists w, @axios_get_runtimes echo_piston (world (start_at 0)) = (Throw err, w))
     \/ (exists runtimes w1 req w,
            @axios_get_runtimes echo_piston (world (start_at 0)) = (Normal runtimes, w1)
            /\ @axios_post_execute echo_piston req w1 = (Throw err, w)))
    /\ ((err_response err = Some NoData
         /\ mkError (lit "Cannot read properties of null (reading 'message')") None
            = TypeError_reading "message" "undefined")
        \/ (err_response err = Some NullData
            /\ mkError (lit "Cannot read properties of null (reading 'message')") None
               = TypeError_reading "message" "null")).
Proof.
  apply (@executeCode_throws_only_on_a_response_without_data echo_piston
           program python (lit "boom") 2 (start_at 0) (@mkEnv echo_piston 4
             [mkRequest (lit "python") (lit "3.10.0") [program] (lit "boom") 10000 2000])).
  reflexivity.
Defined.

Lemma executeCode_reports_the_elapsed_time_witness :
  executionTime (mkExec (lit "9") None 8)
  = @clock echo_piston (world (@mkEnv echo_piston 8
      [mkRequest (lit "python") (lit "3.10.0") [program] (lit "9") 10000 2000]))
    - @clock echo_piston (world (start_at 0)).
Proof.
  apply (@executeCode_reports_the_elapsed_time echo_piston program python (lit "9") 2
           (start_at 0)).
  reflexivity.
Defined.

Lemma unsupported_language_is_reported_and_not_run_witness :
  @executeCode echo_piston program (lit "Ruby") (lit "1") 2 (start_at 0)
  = (Normal {| output := [];
               error := Some (lit "Language Ruby not supported. Tried: ruby");
               executionTime := 1 |},
     @mkEnv echo_piston 1 []).
Proof.
  apply (@unsupported_language_is_reported_and_not_run echo_piston program (lit "Ruby")
           (lit "1") 2 (start_at 0) [python_runtime] 1).
  - reflexivity.
  - repeat constructor. discriminate.
Defined.

Lemma compile_failure_passes_only_a_blank_expectation_witness :
  exists o env' message,
    @runTestcase failing_compiler (lit "int main() { return 0 }") (lit "C") 2
      (mkRunnable (IdNum 1) (lit "1") (lit " ")) (@mkEnv failing_compiler 0 [])
    = (Normal o, env')
    /\ o_actualOutput o = []
    /\ o_error o = Some message
    /\ message <> []
    /\ (o_passed o = true <-> trim (lit " ") = []).
Proof.
  apply (@compile_failure_passes_only_a_blank_expectation failing_compiler
           (lit "int main() { return 0 }") (lit "C") 2
           (mkRunnable (IdNum 1) (lit "1") (lit " ")) (@mkEnv failing_compiler 0 [])
           (lit "c") [mkRuntime (lit "c") (lit "10.2.0")] 1 5
           (mkRuntime (lit "c") (lit "10.2.0")) compile_error_response
           {| st_code := Some 1;
              st_signal := None;
              st_stdout := Some [];
              st_stderr := Some (lit "main.c:1: error: expected ';'");
              st_output := Some (lit "main.c:1: error: expected ';'") |});
    try reflexivity.
  discriminate.
Defined.

Lemma runTestcases_of_two_lists_witness :
  @runTestcases echo_piston program python
    ([mkRunnable (IdNum 1) (lit "a") (lit "a")] ++ [mkRunnable (IdNum 2) (lit "b") (lit "c")])
    2 (lit "64m") (start_at 0)
  = (Normal ([mkOutcome (IdNum 1) true (lit "a") (lit "a") (lit "a") None 8]
             ++ [mkOutcome (IdNum 2) false (lit "b") (lit "c") (lit "b") None 8]),
     @mkEnv echo_piston 16
       [mkRequest (lit "python") (lit "3.10.0") [program] (lit "a") 10000 2000;
        mkRequest (lit "python") (lit "3.10.0") [program] (lit "b") 10000 2000]).
Proof.
  apply (@runTestcases_of_two_lists echo_piston program python
           [mkRunnable (IdNum 1) (lit "a") (lit "a")]
           [mkRunnable (IdNum 2) (lit "b") (lit "c")] 2 (lit "64m") (start_at 0)
           (@mkEnv echo_piston 8
              [mkRequest (lit "python") (lit "3.10.0") [program] (lit "a") 10000 2000])).
  - reflexivity.
  - reflexivity.
Defined.

(** ** More on run and submit *)

Section RunAndSubmit.

Context {P : Platform}.

(** X15.  A run request for a question whose level is locked for the
    participant, or that the participant has not joined, is answered with an
    error status and executes nothing: the world is as the request found it
    and no request was posted.  The status is 403, unless the body lacks a
    field (400) or the participant row is gone (500). *)
Theorem run_rejected_before_execution
    (db : DB) (participantId : Z) (body : run_body) (env : Env)
    (questionId : Z) (q : question) :
  rb_questionId body = Some questionId ->
  findQuestion db questionId = Some q ->
  isExamUnlocked db (clock (world env)) participantId (q_examId q) = false
  \/ joined db participantId (q_examId q) = false ->
  exists resp,
    run db participantId body env = (Normal resp, env)
    /\ (status resp = 403
        \/ (required (rb_questionId body) (rb_language body) (rb_code body) = None
            /\ status resp = 400)
        \/ (findParticipant db participantId = None /\ status resp = 500)).
Proof.
  intros Hid Hq Hlock. unfold run, try_catch.
  destruct (required (rb_questionId body) (rb_language body) (rb_code body))
    as [[[qid language] code]|] eqn:Hreq.
  - apply required_questionId in Hreq. destruct Hreq as (Hid' & _ & _).
    rewrite Hid in Hid'. injection Hid' as <-. rewrite Hq.
    destruct (isExamUnlocked db (clock (world env)) participantId (q_examId q)) eqn:Hun.
    + destruct Hlock as [Hlock|Hlock]; [discriminate|]. unfold joined in Hlock.
      destruct (findParticipant db participantId) as [p|] eqn:Hp.
      * erewrite checks_not_joined by eassumption.
        eexists; split; [reflexivity|]. left; reflexivity.
      * erewrite checks_unknown_participant by eassumption.
        eexists; split; [reflexivity|]. right; right; split; reflexivity.
    + erewrite checks_locked by eassumption.
      eexists; split; [reflexivity|]. left; reflexivity.
  - eexists; split; [reflexivity|]. right; left; split; reflexivity.
Qed.



(** A submit request that passes the checks for a question with a
    testcase is answered 200. *)
Lemma submit_persists_score_shape
    (db : DB) (participantId : Z) (body : submit_body) (env : Env)
    (questionId : Z) (language code : jsstring) (q : question) (p : participant) :
  required (sub_questionId body) (sub_language body) (sub_code body)
    = Some (questionId, language, code) ->
  findQuestion db questionId = Some q ->
  isExamUnlocked db (clock (world env)) participantId (q_examId q) = true ->
  findParticipant db participantId = Some p ->
  hasJoined p (q_examId q) = true ->
  (1 <= List.length (q_testcases q))%nat ->
  exists resp db' env',
    submit db participantId body env = (Normal (resp, db'), env')
    /\ status resp = 200.
Proof.
  intros Hreq Hq Hun Hp Hj Hn.
  destruct (runTestcases_batch code language (map as_runnable (q_testcases q))
              (submit_timeLimit q) (submit_memoryLimit q) env)
    as (results & env' & Hrun & _).
  eexists _, _, env'. split.
  - unfold submit, try_catch. rewrite Hreq, Hq.
    erewrite checks_pass by eassumption.
    destruct (Nat.eqb_spec (List.length (q_testcases q)) 0) as [H0|_]; [lia|].
    unfold submit_accepted, bind at 1. rewrite Hrun.
    unfold bind, Date_now, ret. reflexivity.
  - reflexivity.
Qed.

(** The two ways a submit request ends. *)
Lemma submit_outcome
    (db : DB) (participantId : Z) (body : submit_body) (env : Env) :
  exists resp db' env',
    submit db participantId body env = (Normal (resp, db'), env')
    /\ ((status resp = 200
         /\ exists sub,
              db' = mkDB (exams db) (questions db) (submissions db ++ [sub]) (participants db)
              /\ s_participantId sub = participantId
              /\ sub_questionId body = Some (s_questionId sub)
              /\ s_status sub = COMPLETED
              /\ (1 <= s_totalTests sub)%nat
              /\ (s_passedTests sub <= s_totalTests sub)%nat)
        \/ (status resp <> 200 /\ db' = db /\ env' = env)).
Proof.
  unfold submit, try_catch.
  destruct (required (sub_questionId body) (sub_language body) (sub_code body))
    as [[[questionId language] code]|] eqn:Hreq;
    [|eexists _, _, _; split; [reflexivity|]; right; repeat split; discriminate].
  apply required_questionId in Hreq. destruct Hreq as (Hid & _ & _).
  destruct (findQuestion db questionId) as [q|];
    [|eexists _, _, _; split; [reflexivity|]; right; repeat split; discriminate].
  unfold checks, bind at 1, Date_now.
  destruct (negb (isExamUnlocked db (clock (world env)) participantId (q_examId q)));
    [eexists _, _, _; split; [reflexivity|]; right; repeat split; discriminate|].
  destruct (findParticipant db participantId) as [p|];
    [|eexists _, _, _; split; [reflexivity|]; right; repeat split; discriminate].
  destruct (negb (hasJoined p (q_examId q)));
    [eexists _, _, _; split; [reflexivity|]; right; repeat split; discriminate|].
  destruct (Nat.eqb_spec (List.length (q_testcases q)) 0) as [H0|Hn];
    [eexists _, _, _; split; [reflexivity|]; right; repeat split; discriminate|].
  destruct (runTestcases_batch code language (map as_runnable (q_testcases q))
              (submit_timeLimit q) (submit_memoryLimit q) env)
    as (results & env' & Hrun & Hbatch).
  pose proof (batch_length _ _ _ _ _ _ _ Hbatch) as Hlen. rewrite length_map in Hlen.
  eexists _, _, env'. split.
  - unfold submit_accepted, bind at 1. rewrite Hrun. unfold bind, Date_now, ret. reflexivity.
  - left. split; [reflexivity|]. eexists. split; [reflexivity|]. simpl.
    repeat split; try assumption.
    + unfold totalTests. lia.
    + unfold passedTests, totalTests. apply filter_length_le.
Qed.

(** With a database that stores every row, the route with the fallible
    write is [submit]. *)
Lemma submit_storing_every_row
    (db : DB) (participantId : Z) (body : submit_body) (env : Env) :
  submit_storing (fun _ => None) db participantId body env
  = submit db participantId body env.
Proof.
  unfold submit_storing, submit, try_catch.
  destruct (required (sub_questionId body) (sub_language body) (sub_code body))
    as [[[questionId language] code]|]; [|reflexivity].
  destruct (findQuestion db questionId) as [q|]; [|reflexivity].
  unfold checks, bind, Date_now.
  destruct (negb (isExamUnlocked db (clock (world env)) participantId (q_examId q)));
    [reflexivity|].
  destruct (findParticipant db participantId) as [p|]; [|reflexivity].
  destruct (negb (hasJoined p (q_examId q))); [reflexivity|].
  destruct (Nat.eqb (List.length (q_testcases q)) 0); [reflexivity|].
  unfold submit_accepted_storing, submit_accepted, bind, Date_now, submission_create, ret.
  destruct (runTestcases code language (map as_runnable (q_testcases q))
              (submit_timeLimit q) (submit_memoryLimit q) env) as [[results|e] env'];
    reflexivity.
Qed.

(** X17.  What a submit request can do to the database, whatever the
    request and whether or not the database accepts the row: the route always
    answers, and either it answers 200 and the database has gained exactly one
    submission, of the participant, for the question of the body, with status
    COMPLETED, at least one test and no more tests passed than run; or it
    answers another status and the database is as the request found it.  In
    the second case nothing has been executed either, unless the status is
    500 and the write failed, after the testcases had run. *)
Theorem submit_stores_one_submission_or_nothing
    (create_error : World -> option jserror)
    (db : DB) (participantId : Z) (body : submit_body) (env : Env) :
  exists resp db' env',
    submit_storing create_error db participantId body env = (Normal (resp, db'), env')
    /\ ((status resp = 200
         /\ create_error (world env') = None
         /\ exists sub,
              db' = mkDB (exams db) (questions db) (submissions db ++ [sub]) (participants db)
              /\ s_participantId sub = participantId
              /\ sub_questionId body = Some (s_questionId sub)
              /\ s_status sub = COMPLETED
              /\ (1 <= s_totalTests sub)%nat
              /\ (s_passedTests sub <= s_totalTests sub)%nat)
        \/ (status resp <> 200
            /\ db' = db
            /\ (env' = env
                \/ (status resp = 500 /\ exists e, create_error (world env') = Some e)))).
Proof.
  unfold submit_storing, try_catch.
  destruct (required (sub_questionId body) (sub_language body) (sub_code body))
    as [[[questionId language] code]|] eqn:Hreq;
    [|eexists _, _, _; split; [reflexivity|]; right; repeat split; [discriminate | now left]].
  apply required_questionId in Hreq. destruct Hreq as (Hid & _ & _).
  destruct (findQuestion db questionId) as [q|];
    [|eexists _, _, _; split; [reflexivity|]; right; repeat split; [discriminate | now left]].
  unfold checks, bind at 1, Date_now.
  destruct (negb (isExamUnlocked db (clock (world env)) participantId (q_examId q)));
    [eexists _, _, _; split; [reflexivity|]; right; repeat split; [discriminate | now left]|].
  destruct (findParticipant db participantId) as [p|];
    [|eexists _, _, _; split; [reflexivity|]; right; repeat split; [discriminate | now left]].
  destruct (negb (hasJoined p (q_examId q)));
    [eexists _, _, _; split; [reflexivity|]; right; repeat split; [discriminate | now left]|].
  destruct (Nat.eqb_spec (List.length (q_testcases q)) 0) as [H0|Hn];
    [eexists _, _, _; split; [reflexivity|]; right; repeat split; [discriminate | now left]|].
  destruct (runTestcases_batch code language (map as_runnable (q_testcases q))
              (submit_timeLimit q) (submit_memoryLimit q) env)
    as (results & env' & Hrun & Hbatch).
  pose proof (batch_length _ _ _ _ _ _ _ Hbatch) as Hlen. rewrite length_map in Hlen.
  destruct (create_error (world env')) as [e|] eqn:Hwrite.
  - eexists _, _, env'. split.
    + unfold submit_accepted_storing, bind at 1. rewrite Hrun.
      unfold bind, Date_now, submission_create, ret. rewrite Hwrite. reflexivity.
    + right. repeat split; [discriminate|]. right. split; [reflexivity|]. eauto.
  - eexists _, _, env'. split.
    + unfold submit_accepted_storing, bind at 1. rewrite Hrun.
      unfold bind, Date_now, submission_create, ret. rewrite Hwrite. reflexivity.
    + left. split; [reflexivity|]. split; [assumption|].
      eexists. split; [reflexivity|]. simpl.
      repeat split; try assumption.
      * unfold totalTests. lia.
      * unfold passedTests, totalTests. apply filter_length_le.
Qed.

End RunAndSubmit.

Lemma run_rejected_before_execution_witness :
  exists resp,
    @run echo_piston contest 7
      (mkRunBody (Some 11) (Some python) (Some program) None None) (start_at 0)
    = (Normal resp, start_at 0)
    /\ (status resp = 403
        \/ (required (Some 11) (Some python) (Some program) = None /\ status resp = 400)
        \/ (findParticipant contest 7 = None /\ status resp = 500)).
Proof.
  apply (@run_rejected_before_execution echo_piston contest 7
           (mkRunBody (Some 11) (Some python) (Some program) None None) (start_at 0)
           11 echoes).
  - reflexivity.
  - reflexivity.
  - left. reflexivity.
Defined.


(** A submit when the database refuses the row: the testcases have run, the
    answer is 500 and nothing is stored; with a database that stores the row
    the same request is answered 200. *)
Example submit_when_the_write_fails :
  (let r := @submit_storing echo_piston refusing contest 7
              (mkSubmitBody (Some 10) (Some python) (Some program)) (start_at 0) in
   fst r = Normal (fail 500 "Failed to submit code", contest)
   /\ List.length (sent (snd r)) = 4%nat)
  /\ (let r := @submit_storing echo_piston storing contest 7
                 (mkSubmitBody (Some 10) (Some python) (Some program)) (start_at 0) in
      r = @submit echo_piston contest 7
            (mkSubmitBody (Some 10) (Some python) (Some program)) (start_at 0)
      /\ List.length (sent (snd r)) = 4%nat).
Proof. vm_compute. repeat split. Qed.

(** ** Progress through the levels *)

Section Progress.

Lemma NoDup_map_filter {A B} (f : A -> B) (keep : A -> bool) (l : list A) :
  NoDup (map f l) -> NoDup (map f (filter keep l)).
Proof.
  induction l as [|x l IH]; simpl; intro H; [constructor|].
  inversion H as [|? ? Hnotin Hnd]; subst.
  destruct (keep x); simpl; [|apply IH; assumption].
  constructor; [|apply IH; assumption].
  intro Hin. apply Hnotin. apply in_map_iff in Hin. destruct Hin as (y & Hy & Hin).
  apply filter_In in Hin. rewrite <- Hy. apply in_map. tauto.
Qed.

Lemma level_question_ids_distinct db examId :
  distinct_question_ids db -> NoDup (map q_id (questionsOfExam db examId)).
Proof. apply NoDup_map_filter. Qed.

Lemma findQuestion_id db questionId q :
  findQuestion db questionId = Some q -> In q (questions db) /\ q_id q = questionId.
Proof.
  intro H. apply find_some in H. destruct H as [Hin Heq].
  apply Z.eqb_eq in Heq. tauto.
Qed.

Lemma countMatches_more db db' extra participantId e :
  distinct_question_ids db ->
  more_submissions db db' ->
  countMatches db extra participantId e = true ->
  countMatches db' extra participantId e = true.
Proof.
  intros Hnd (Hexams & Hquestions & _ & added & Hsubs) H.
  assert (questionsOfExam db' (exam_id e) = questionsOfExam db (exam_id e)) as Hqs
    by (unfold questionsOfExam; rewrite Hquestions; reflexivity).
  apply countMatches_iff; [rewrite Hqs; apply level_question_ids_distinct, Hnd|].
  rewrite Hqs. intros q Hq.
  pose proof (proj1 (countMatches_iff db participantId extra e
                       (level_question_ids_distinct _ _ Hnd)) H) as Hall.
  destruct (Hall q Hq) as (s & Hs & Hrest). exists s. split; [|exact Hrest].
  rewrite Hsubs. apply in_or_app. left. exact Hs.
Qed.

Lemma timedOut_later e now now' :
  now <= now' -> timedOut e now = true -> timedOut e now' = true.
Proof.
  unfold timedOut. destruct (exam_endTime e) as [endTime|]; [|discriminate].
  intros Hle H. apply Z.gtb_lt in H. apply Z.gtb_lt. lia.
Qed.

Lemma helper_opens_more db db' participantId now now' e :
  distinct_question_ids db -> more_submissions db db' -> now <= now' ->
  helper_opens db participantId now e = true ->
  helper_opens db' participantId now' e = true.
Proof.
  intros Hnd Hmore Hle. unfold helper_opens.
  assert (questionsOfExam db' (exam_id e) = questionsOfExam db (exam_id e)) as ->.
  { destruct Hmore as (_ & Hq & _). unfold questionsOfExam. rewrite Hq. reflexivity. }
  intro H. apply orb_true_iff in H. destruct H as [H|H]; [|rewrite H; apply orb_true_r].
  apply orb_true_iff in H. destruct H as [H|H].
  - rewrite (countMatches_more _ _ _ _ _ Hnd Hmore H). reflexivity.
  - rewrite (timedOut_later _ _ _ Hle H). rewrite orb_true_r. reflexivity.
Qed.

Lemma listing_opens_more db db' participantId now now' e :
  distinct_question_ids db -> more_submissions db db' -> now <= now' ->
  listing_opens db participantId now e = true ->
  listing_opens db' participantId now' e = true.
Proof.
  intros Hnd Hmore Hle. unfold listing_opens.
  assert (questionsOfExam db' (exam_id e) = questionsOfExam db (exam_id e)) as ->.
  { destruct Hmore as (_ & Hq & _). unfold questionsOfExam. rewrite Hq. reflexivity. }
  intro H. apply andb_true_iff in H. destruct H as [Hn H]. rewrite Hn. simpl.
  apply orb_true_iff in H. destruct H as [H|H].
  - rewrite (countMatches_more _ _ _ _ _ Hnd Hmore H). reflexivity.
  - rewrite (timedOut_later _ _ _ Hle H). apply orb_true_r.
Qed.

Lemma forallb_impl {A} (f g : A -> bool) (l : list A) :
  (forall x, f x = true -> g x = true) -> forallb f l = true -> forallb g l = true.
Proof.
  intros Hfg H. rewrite forallb_forall in *. intros x Hx. apply Hfg, H, Hx.
Qed.

Lemma isExamUnlocked_forallb db now participantId examId :
  isExamUnlocked db now participantId examId
  = match findIndex (fun e => exam_id e =? examId) (exams db) with
    | None => false
    | Some i => forallb (helper_opens db participantId now) (firstn i (exams db))
    end.
Proof.
  unfold isExamUnlocked.
  destruct (findIndex _ (exams db)) as [[|i]|]; try reflexivity.
  apply previous_levels_pass_forallb.
Qed.

Lemma listing_nth_exists db participantId joinedExamIds now i st :
  nth_error (examStatus db participantId joinedExamIds now) i = Some st ->
  nth_error (exams db) i = Some (es_exam st).
Proof.
  intro Hst. destruct (nth_error (exams db) i) as [e|] eqn:He.
  - destruct (listing_from_nth db participantId now joinedExamIds (exams db) None true i e He)
      as (st' & Hst' & Hexam & _).
    unfold examStatus in Hst. rewrite Hst in Hst'. injection Hst' as <-. congruence.
  - exfalso. apply nth_error_None in He.
    assert (nth_error (examStatus db participantId joinedExamIds now) i <> None) as Hn
      by congruence.
    apply nth_error_Some in Hn. unfold examStatus in Hn.
    rewrite listing_from_length in Hn. lia.
Qed.

(** X18.  Neither more submissions, of any participant, nor the passing
    of time lock a level again: a level that [isExamUnlocked] has unlocked,
    or that the listing reports unlocked or completed, is still so in any
    later database that differs by added submissions, at any later instant
    (question ids distinct). *)
Theorem unlocked_levels_stay_unlocked
    (db db' : DB) (participantId now now' : Z) (joinedExamIds : list Z) :
  distinct_question_ids db ->
  more_submissions db db' ->
  now <= now' ->
  (forall examId,
     isExamUnlocked db now participantId examId = true ->
     isExamUnlocked db' now' participantId examId = true)
  /\ (forall i st,
        nth_error (examStatus db participantId joinedExamIds now) i = Some st ->
        exists st',
          nth_error (examStatus db' participantId joinedExamIds now') i = Some st'
          /\ es_exam st' = es_exam st
          /\ (es_unlocked st = true -> es_unlocked st' = true)
          /\ (es_completed st = true -> es_completed st' = true)).
Proof.
  intros Hnd Hmore Hle.
  pose proof Hmore as (Hexams & Hquestions & _).
  split.
  - intro examId. rewrite !isExamUnlocked_forallb, Hexams.
    destruct (findIndex _ (exams db)) as [i|]; [|discriminate].
    apply forallb_impl. intros e. apply helper_opens_more; assumption.
  - intros i st Hst.
    pose proof (listing_nth_exists _ _ _ _ _ _ Hst) as He.
    destruct (listing_from_nth db' participantId now' joinedExamIds (exams db') None true i
                (es_exam st)) as (st' & Hst' & Hexam & _ & Hcompleted');
      [rewrite Hexams; exact He|].
    exists st'. split; [exact Hst'|]. split; [exact Hexam|]. split.
    + rewrite (listing_unlocked_nth _ _ _ _ _ _ Hst), (listing_unlocked_nth _ _ _ _ _ _ Hst').
      rewrite Hexams. apply forallb_impl. intro e. apply listing_opens_more; assumption.
    + destruct (listing_from_nth db participantId now joinedExamIds (exams db) None true i
                  (es_exam st) He) as (st0 & Hst0 & _ & _ & Hcompleted).
      unfold examStatus in Hst. rewrite Hst in Hst0. injection Hst0 as <-.
      rewrite Hcompleted, Hcompleted'.
      assert (questionsOfExam db' (exam_id (es_exam st))
              = questionsOfExam db (exam_id (es_exam st))) as ->
        by (unfold questionsOfExam; rewrite Hquestions; reflexivity).
      intro H. apply andb_true_iff in H. destruct H as [Hn H]. rewrite Hn. simpl.
      apply (countMatches_more _ _ _ _ _ Hnd Hmore H).
Qed.

End Progress.

Section SubmitProgress.

Context {P : Platform}.

(** What a submit leaves: the database it found, with at most one more
    submission. *)
Lemma submit_more_submissions db participantId body env resp db' env' :
  submit db participantId body env = (Normal (resp, db'), env') ->
  more_submissions db db'.
Proof.
  intro H.
  destruct (submit_outcome db participantId body env)
    as (resp0 & db0 & env0 & Hsubmit & Hcases).
  rewrite Hsubmit in H. injection H as <- <- <-.
  destruct Hcases as [(_ & sub & -> & _)|(_ & -> & _)].
  - repeat split. exists [sub]. reflexivity.
  - repeat split. exists []. rewrite app_nil_r. reflexivity.
Qed.

(** X19.  A level is completed by attempts, not by passes.  When a submit
    request is accepted for a question of a level whose other questions each
    have a COMPLETED submission of the participant, the listing reports the
    level completed in the database the submit leaves, whatever the outcomes
    of the testcases (question ids distinct). *)
Theorem accepted_submit_completes_the_level
    (db : DB) (participantId : Z) (body : submit_body) (env : Env)
    (questionId : Z) (language code : jsstring) (q : question) (p : participant)
    (i : nat) (e : exam) (joinedExamIds : list Z) (now : Z) :
  required (sub_questionId body) (sub_language body) (sub_code body)
    = Some (questionId, language, code) ->
  findQuestion db questionId = Some q ->
  isExamUnlocked db (clock (world env)) participantId (q_examId q) = true ->
  findParticipant db participantId = Some p ->
  hasJoined p (q_examId q) = true ->
  (1 <= List.length (q_testcases q))%nat ->
  distinct_question_ids db ->
  nth_error (exams db) i = Some e ->
  q_examId q = exam_id e ->
  (forall other, In other (questionsOfExam db (exam_id e)) -> q_id other <> questionId ->
     exists s, counts_for db participantId statusCompleted other s) ->
  exists resp db' env' st,
    submit db participantId body env = (Normal (resp, db'), env')
    /\ status resp = 200
    /\ nth_error (examStatus db' participantId joinedExamIds now) i = Some st
    /\ es_exam st = e
    /\ es_completed st = true.
Proof.
  intros Hreq Hq Hun Hp Hj Hn Hnd He Hlevel Hothers.
  destruct (submit_outcome db participantId body env)
    as (resp & db' & env' & Hsubmit & Hcases).
  assert (status resp = 200) as Hok.
  { destruct (submit_persists_score_shape db participantId body env questionId language code q p
                Hreq Hq Hun Hp Hj Hn) as (resp0 & db0 & env0 & H0 & Hs).
    rewrite Hsubmit in H0. injection H0 as <- <- <-. exact Hs. }
  destruct Hcases as [(_ & sub & -> & Hpid & Hqid & Hstatus & _)|(Hno & _)]; [|congruence].
  apply required_questionId in Hreq. destruct Hreq as (Hid & _ & _).
  rewrite Hid in Hqid. injection Hqid as Hqid.
  destruct (findQuestion_id _ _ _ Hq) as [Hinq Hidq].
  set (db' := mkDB (exams db) (questions db) (submissions db ++ [sub]) (participants db)).
  destruct (listing_from_nth db' participantId now joinedExamIds (exams db') None true i e He)
    as (st & Hst & Hexam & _ & Hcompleted).
  exists resp, db', env', st. repeat split; try assumption.
  rewrite Hcompleted.
  assert (In q (questionsOfExam db (exam_id e))) as Hqin.
  { apply filter_In. split; [assumption | apply Z.eqb_eq; assumption]. }
  change (questionsOfExam db' (exam_id e)) with (questionsOfExam db (exam_id e)).
  destruct (questionsOfExam db (exam_id e)) as [|q0 qs] eqn:Hqs; [contradiction|].
  cbn [List.length Nat.ltb Nat.leb andb]. rewrite <- Hqs in *.
  apply countMatches_iff.
  - change (questionsOfExam db' (exam_id e)) with (questionsOfExam db (exam_id e)).
    apply level_question_ids_distinct, Hnd.
  - change (questionsOfExam db' (exam_id e)) with (questionsOfExam db (exam_id e)).
    intros other Hother.
    destruct (Z.eq_dec (q_id other) questionId) as [Heq|Hneq].
    + exists sub. unfold counts_for, statusCompleted. simpl. repeat split.
      * apply in_or_app. right. left. reflexivity.
      * assumption.
      * congruence.
      * apply str_eqb_eq. assumption.
    + destruct (Hothers other Hother Hneq) as (s & Hs & Hrest).
      exists s. split; [|exact Hrest]. simpl. apply in_or_app. left. exact Hs.
Qed.

End SubmitProgress.

Lemma unanswered_question_ids_distinct : distinct_question_ids unanswered.
Proof.
  unfold distinct_question_ids. simpl. constructor; [intros []|constructor].
Defined.

Lemma unlocked_levels_stay_unlocked_witness :
  (forall examId,
     isExamUnlocked unanswered 0 7 examId = true ->
     isExamUnlocked answered_wrong 50 7 examId = true)
  /\ (forall i st,
        nth_error (examStatus unanswered 7 [1; 2] 0) i = Some st ->
        exists st',
          nth_error (examStatus answered_wrong 7 [1; 2] 50) i = Some st'
          /\ es_exam st' = es_exam st
          /\ (es_unlocked st = true -> es_unlocked st' = true)
          /\ (es_completed st = true -> es_completed st' = true)).
Proof.
  apply (unlocked_levels_stay_unlocked unanswered answered_wrong 7 0 50 [1; 2]
           unanswered_question_ids_distinct).
  - repeat split. eexists. reflexivity.
  - discriminate.
Defined.

Lemma accepted_submit_completes_the_level_witness :
  exists resp db' env' st,
    @submit echo_piston unanswered 7 (mkSubmitBody (Some 30) (Some python) (Some program))
      (start_at 0)
    = (Normal (resp, db'), env')
    /\ status resp = 200
    /\ nth_error (examStatus db' 7 [1; 2] 50) 0 = Some st
    /\ es_exam st = level1
    /\ es_completed st = true.
Proof.
  apply (@accepted_submit_completes_the_level echo_piston unanswered 7
           (mkSubmitBody (Some 30) (Some python) (Some program)) (start_at 0)
           30 python program doubling team7 0 level1 [1; 2] 50
           eq_refl eq_refl eq_refl eq_refl eq_refl (le_n 1)
           unanswered_question_ids_distinct eq_refl eq_refl).
  intros other [<-|[]] Hneq. exfalso. apply Hneq. reflexivity.
Defined.

(** ** Login *)

Section LoginProperties.

Variables (db : DB) (participantId : Z).

(** Where the scan of login stops: at the level of some index [k], every
    level before which has a question and, for each of its questions, a
    submission of the participant with a positive score. *)
Lemma login_scan_stops rest : forall prevExam,
  exists k,
    nth_error (prevExam :: rest) k = Some (login_scan db participantId prevExam rest prevExam)
    /\ forallb (login_opens db participantId) (firstn k (prevExam :: rest)) = true.
Proof.
  induction rest as [|x rest IH]; intro prevExam.
  - exists O. split; reflexivity.
  - cbn [login_scan].
    change (Nat.eqb
              (List.length (submissionsWhere db scorePositive participantId
                 (map q_id (questionsOfExam db (exam_id prevExam)))))
              (List.length (questionsOfExam db (exam_id prevExam)))
            && Nat.ltb 0 (List.length (questionsOfExam db (exam_id prevExam))))
      with (login_opens db participantId prevExam).
    destruct (login_opens db participantId prevExam) eqn:Hopens.
    + destruct (IH x) as (k & Hk & Hall). exists (S k). split; [exact Hk|].
      cbn [firstn forallb]. rewrite Hopens. exact Hall.
    + exists O. split; reflexivity.
Qed.

Hypothesis Hcompleted : all_completed db.
Hypothesis Hdistinct : distinct_question_ids db.

Lemma login_opens_listing_opens now e :
  login_opens db participantId e = true -> listing_opens db participantId now e = true.
Proof.
  unfold login_opens, listing_opens. intro H.
  apply andb_true_iff in H. destruct H as [Hcount Hn]. rewrite Hn. simpl.
  apply orb_true_iff. left.
  apply countMatches_iff; [apply level_question_ids_distinct, Hdistinct|].
  pose proof (proj1 (countMatches_iff db participantId scorePositive e
                       (level_question_ids_distinct _ _ Hdistinct)) Hcount) as Hall.
  intros q Hq. destruct (Hall q Hq) as (s & Hs & Hp & Hk & _).
  exists s. repeat split; try assumption.
  unfold statusCompleted. apply str_eqb_eq.
  unfold all_completed in Hcompleted. rewrite Forall_forall in Hcompleted.
  apply Hcompleted. exact Hs.
Qed.

End LoginProperties.

(** X20.  Login never lands on a locked level.  When every stored
    submission has status COMPLETED, as all those the submit route stores
    have, the active exam of login is a level the listing reports unlocked
    and, the exam ids being distinct, one that [isExamUnlocked] has unlocked,
    at any instant (question ids distinct). *)
Theorem login_lands_on_an_unlocked_level
    (db : DB) (participantId now : Z) (joinedExamIds : list Z) (active : exam) :
  all_completed db ->
  distinct_question_ids db ->
  distinct_exam_ids db ->
  login_activeExam db participantId = Some active ->
  (exists i st,
     nth_error (examStatus db participantId joinedExamIds now) i = Some st
     /\ es_exam st = active
     /\ es_unlocked st = true)
  /\ isExamUnlocked db now participantId (exam_id active) = true.
Proof.
  intros Hcompleted Hdq Hde Hactive. unfold login_activeExam in Hactive.
  destruct (exams db) as [|first rest] eqn:Hexams; [discriminate|].
  injection Hactive as <-.
  destruct (login_scan_stops db participantId rest first) as (k & Hk & Hall).
  rewrite <- Hexams in Hk, Hall.
  destruct (listing_from_nth db participantId now joinedExamIds (exams db) None true k _ Hk)
    as (st & Hst & Hexam & _).
  assert (forallb (listing_opens db participantId now) (firstn k (exams db)) = true) as Hlist.
  { revert Hall. apply forallb_impl. intro e.
    apply login_opens_listing_opens; assumption. }
  split.
  - exists k, st. repeat split; try assumption.
    rewrite (listing_unlocked_nth _ _ _ _ _ _ Hst). exact Hlist.
  - rewrite (isExamUnlocked_nth _ _ _ _ _ Hde Hk).
    revert Hlist. apply forallb_impl. intro e. apply listing_opens_helper_opens.
Qed.

Lemma login_lands_on_an_unlocked_level_witness :
  (exists i st,
     nth_error (examStatus answered_wrong 7 [1; 2] 50) i = Some st
     /\ es_exam st = level1
     /\ es_unlocked st = true)
  /\ isExamUnlocked answered_wrong 50 7 (exam_id level1) = true.
Proof.
  apply (login_lands_on_an_unlocked_level answered_wrong 7 50 [1; 2] level1).
  - repeat constructor.
  - unfold distinct_question_ids. simpl. constructor; [intros []|constructor].
  - exact contest_exam_ids_distinct.
  - reflexivity.
Defined.

(** ** Joining a level *)

Section JoinProperties.

Context {P : Platform}.

Lemma connectExam_same participantId examId rows p :
  find (fun r => p_id r =? participantId) rows = Some p ->
  find (fun r => p_id r =? participantId) (connectExam participantId examId rows)
  = Some (mkParticipant (p_id p) (p_participantId p) (p_collegeName p) (p_exams p ++ [examId])).
Proof.
  induction rows as [|r rows IH]; simpl; [discriminate|].
  destruct (p_id r =? participantId) eqn:Hr; simpl.
  - intro H; injection H as <-. rewrite Hr. reflexivity.
  - rewrite Hr. exact IH.
Qed.

Lemma connectExam_other participantId examId rows other :
  other <> participantId ->
  find (fun r => p_id r =? other) (connectExam participantId examId rows)
  = find (fun r => p_id r =? other) rows.
Proof.
  intro Hneq. induction rows as [|r rows IH]; simpl; [reflexivity|].
  destruct (Z.eqb_spec (p_id r) participantId) as [Hr|Hr]; simpl.
  - destruct (Z.eqb_spec (p_id r) other) as [Ho|Ho]; [congruence | reflexivity].
  - rewrite IH. reflexivity.
Qed.

Lemma hasJoined_connected p examId other :
  hasJoined (mkParticipant (p_id p) (p_participantId p) (p_collegeName p)
               (p_exams p ++ [examId])) other
  = hasJoined p other || (examId =? other).
Proof.
  unfold hasJoined. cbn [p_exams]. rewrite existsb_app. simpl.
  rewrite orb_false_r. reflexivity.
Qed.

Lemma already_joined p examId :
  Nat.ltb 0 (List.length (filter (fun id => id =? examId) (p_exams p))) = hasJoined p examId.
Proof.
  unfold hasJoined. induction (p_exams p) as [|x l IH]; simpl; [reflexivity|].
  destruct (x =? examId); simpl; [reflexivity | exact IH].
Qed.

(** Who has joined what, once the participant's exams hold one more. *)
Lemma joined_after_connect db participantId examId p other level :
  findParticipant db participantId = Some p ->
  joined (mkDB (exams db) (questions db) (submissions db)
            (connectExam participantId examId (participants db))) other level
  = joined db other level || ((other =? participantId) && (level =? examId)).
Proof.
  intro Hp. unfold joined, findParticipant in *. cbn [participants].
  destruct (Z.eqb_spec other participantId) as [->|Hneq].
  - rewrite (connectExam_same _ _ _ _ Hp), Hp, hasJoined_connected.
    simpl. rewrite (Z.eqb_sym level examId). reflexivity.
  - rewrite (connectExam_other _ _ _ _ Hneq). simpl. rewrite orb_false_r. reflexivity.
Qed.

(** X21.  A participant who gives the code of an exam, in any case and
    with any surrounding blanks, has joined it afterwards, whether or not the
    level is unlocked for them: the route does not look at the unlock state.
    Nothing else changes: the exams, the questions and the submissions are as
    they were, and everyone else has joined what they had joined. *)
Theorem join_with_the_code_of_the_exam
    (db : DB) (participantId : Z) (body : join_body)
    (examId : Z) (code : jsstring) (exam : exam) (p : participant) :
  jb_examId body = Some examId ->
  examId <> 0 ->
  jb_code body = Some code ->
  code <> [] ->
  findExam db examId = Some exam ->
  toLowerCase (trim (exam_code exam)) = toLowerCase (trim code) ->
  findParticipant db participantId = Some p ->
  exists view db',
    joinExam db participantId body = (Answered 200 view, db')
    /\ jv_joined view = true
    /\ exams db' = exams db
    /\ questions db' = questions db
    /\ submissions db' = submissions db
    /\ forall other level,
         joined db' other level
         = joined db other level || ((other =? participantId) && (level =? examId)).
Proof.
  intros Hid Hnz Hcode Hne Hexam Hmatch Hp. unfold joinExam.
  rewrite Hid, Hcode. destruct code as [|c cs]; [congruence|].
  destruct (Z.eqb_spec examId 0) as [|_]; [congruence|].
  rewrite Hexam, Hmatch, str_eqb_refl, Hp, (already_joined p examId). cbn [negb].
  destruct (hasJoined p examId) eqn:Hj.
  - eexists _, db. repeat split. intros other level.
    destruct (Z.eqb_spec other participantId) as [->|_]; [|simpl; rewrite orb_false_r; reflexivity].
    destruct (Z.eqb_spec level examId) as [->|_]; [|simpl; rewrite orb_false_r; reflexivity].
    unfold joined. rewrite Hp, Hj. reflexivity.
  - eexists _, _. repeat split. intros other level.
    apply (joined_after_connect db participantId examId p other level Hp).
Qed.

(** X22.  Joining is idempotent: repeating a join that was answered 200
    is answered 200 with "Already joined this exam" and leaves the database
    as the first join left it. *)
Theorem joining_twice_is_joining_once
    (db db' : DB) (participantId : Z) (body : join_body) (view : join_view) :
  joinExam db participantId body = (Answered 200 view, db') ->
  joinExam db' participantId body
  = (Answered 200 (mkJoinView (lit "Already joined this exam") true None), db').
Proof.
  unfold joinExam.
  destruct (jb_examId body) as [examId|]; [|discriminate].
  destruct (jb_code body) as [[|c cs]|]; try discriminate.
  destruct (examId =? 0); [discriminate|].
  unfold findExam.
  destruct (find (fun e => exam_id e =? examId) (exams db)) as [exam|] eqn:Hexam; [|discriminate].
  destruct (negb (str_eqb (toLowerCase (trim (exam_code exam))) (toLowerCase (trim (c :: cs)))))
    eqn:Hmatch; [discriminate|].
  destruct (findParticipant db participantId) as [p|] eqn:Hp; [|discriminate].
  rewrite (already_joined p examId).
  destruct (hasJoined p examId) eqn:Hj; intro H; injection H as _ <-.
  - rewrite Hexam, Hmatch, Hp, (already_joined p examId), Hj. reflexivity.
  - cbn [exams]. rewrite Hexam, Hmatch.
    unfold findParticipant in *. cbn [participants].
    rewrite (connectExam_same _ _ _ _ Hp).
    match goal with
    | |- context [Nat.ltb 0 (List.length (filter _ (p_exams ?r)))] =>
        rewrite (already_joined r examId)
    end.
    rewrite hasJoined_connected, Z.eqb_refl, orb_true_r. reflexivity.
Qed.

(** Who has joined a level after a request had joined it before, unless it
    is the caller, the level is the one looked up, and the code of the body
    is the code of that exam up to case and surrounding blanks. *)
Lemma joined_by_joinExam
    (db db' : DB) (participantId : Z) (body : join_body) (r : reply join_view)
    (other level : Z) :
  joinExam db participantId body = (r, db') ->
  joined db' other level = true ->
  joined db other level = true
  \/ (other = participantId
      /\ jb_examId body = Some level
      /\ exists exam code,
           findExam db level = Some exam
           /\ jb_code body = Some code
           /\ toLowerCase (trim (exam_code exam)) = toLowerCase (trim code)).
Proof.
  unfold joinExam.
  destruct (jb_examId body) as [examId|];
    [|intro H; injection H as _ <-; tauto].
  destruct (jb_code body) as [[|c cs]|]; try (intro H; injection H as _ <-; tauto).
  destruct (examId =? 0); [intro H; injection H as _ <-; tauto|].
  destruct (findExam db examId) as [exam|] eqn:Hexam; [|intro H; injection H as _ <-; tauto].
  destruct (str_eqb_spec (toLowerCase (trim (exam_code exam))) (toLowerCase (trim (c :: cs))))
    as [Hmatch|_]; cbn [negb]; [|intro H; injection H as _ <-; tauto].
  destruct (findParticipant db participantId) as [p|] eqn:Hp;
    [|intro H; injection H as _ <-; tauto].
  destruct (Nat.ltb 0 _); intro H; injection H as _ <-; [tauto|].
  rewrite (joined_after_connect _ _ _ _ _ _ Hp).
  intro Hj. apply orb_true_iff in Hj. destruct Hj as [Hj|Hj]; [tauto|].
  apply andb_true_iff in Hj. destruct Hj as [Ho Hl].
  apply Z.eqb_eq in Ho, Hl. subst. right. repeat split. eauto.
Qed.

(** [parseInt] gives 0 for the number 0 only: the test [!examId] of the
    route is the test of [joinExam] on the parsed number. *)
Lemma parseInt_number_zero (exponent_digit : Z -> positive) (n : Z) :
  parseInt_number exponent_digit n = 0 <-> n = 0.
Proof.
  unfold parseInt_number.
  destruct (Z.ltb_spec (Z.abs n) (10 ^ 21)) as [_|Hbig]; [reflexivity|].
  assert (0 < 10 ^ 21) by reflexivity.
  destruct n; simpl; split; intro; try discriminate; lia.
Qed.

(** An integer below 10^21 is looked up as it is. *)
Lemma postJoinExam_below_1e21 (exponent_digit : Z -> positive)
    (db : DB) (participantId : Z) (body : join_body) (examId : Z) :
  jb_examId body = Some examId ->
  Z.abs examId < 10 ^ 21 ->
  postJoinExam exponent_digit db participantId body = joinExam db participantId body.
Proof.
  intros Hid Hsmall. unfold postJoinExam, parsed, parseInt_number.
  destruct body as [i c]. cbn [jb_examId jb_code option_map] in *. subst i.
  cbn [option_map].
  destruct (Z.ltb_spec (Z.abs examId) (10 ^ 21)) as [_|Hbig]; [reflexivity | lia].
Qed.

(** X23.  Nobody joins without the code.  Whatever the request, also one
    whose [examId] is so large that [parseInt] reads one digit of it, and
    whatever the answer, whoever has joined a level afterwards had joined it
    before, unless it is the caller and the level is the one that [parseInt]
    reads in the body, and the code of the body is the code of that exam up
    to case and surrounding blanks. *)
Theorem nobody_joins_without_the_code
    (exponent_digit : Z -> positive)
    (db db' : DB) (participantId : Z) (body : join_body) (r : reply join_view)
    (other level : Z) :
  postJoinExam exponent_digit db participantId body = (r, db') ->
  joined db' other level = true ->
  joined db other level = true
  \/ (other = participantId
      /\ option_map (parseInt_number exponent_digit) (jb_examId body) = Some level
      /\ exists exam code,
           findExam db level = Some exam
           /\ jb_code body = Some code
           /\ toLowerCase (trim (exam_code exam)) = toLowerCase (trim code)).
Proof.
  intros Hjoin Hafter.
  exact (joined_by_joinExam db db' participantId (parsed exponent_digit body) r other level
           Hjoin Hafter).
Qed.

(** The unlock state does not depend on who has joined what. *)
Lemma isExamUnlocked_participants db rows now participantId examId :
  isExamUnlocked (mkDB (exams db) (questions db) (submissions db) rows) now participantId examId
  = isExamUnlocked db now participantId examId.
Proof.
  destruct db as [es qs ss ps]. unfold isExamUnlocked. cbn [exams].
  destruct (findIndex _ es) as [[|i]|]; try reflexivity.
  induction (firstn (S i) es) as [|e l IH]; [reflexivity|].
  cbn [previous_levels_pass]. rewrite IH. reflexivity.
Qed.

(** X24.  Joining opens the questions of an unlocked level.  Before the
    join the questions listing answers 403 to a participant for whom the
    level is unlocked; after a join with the code, in the database the join
    leaves, it answers 200 with the questions. *)
Theorem join_grants_access_to_the_questions
    (db : DB) (participantId : Z) (body : join_body) (env : Env)
    (examId : Z) (code : jsstring) (exam : exam) (p : participant) :
  jb_examId body = Some examId ->
  examId <> 0 ->
  jb_code body = Some code ->
  code <> [] ->
  findExam db examId = Some exam ->
  toLowerCase (trim (exam_code exam)) = toLowerCase (trim code) ->
  findParticipant db participantId = Some p ->
  hasJoined p examId = false ->
  isExamUnlocked db (clock (world env)) participantId examId = true ->
  questionsOfExam db examId <> [] ->
  getQuestions db participantId (Some examId) env
  = (Normal (fail 403 "Please enter the exam code to access this level."), env)
  /\ exists view db' listed,
       joinExam db participantId body = (Answered 200 view, db')
       /\ getQuestions db' participantId (Some examId) env
          = (Normal (json (QuestionsBody listed)), env).
Proof.
  intros Hid Hnz Hcode Hne Hexam Hmatch Hp Hnj Hun Hqs. split.
  - unfold getQuestions, try_catch.
    destruct (Z.eqb_spec examId 0) as [|_]; [congruence|].
    erewrite checks_not_joined by eassumption. reflexivity.
  - unfold joinExam. rewrite Hid, Hcode. destruct code as [|c cs]; [congruence|].
    destruct (Z.eqb_spec examId 0) as [|_]; [congruence|].
    rewrite Hexam, Hmatch, str_eqb_refl, Hp, (already_joined p examId), Hnj. cbn [negb].
    eexists _, _, _. split; [reflexivity|].
    unfold getQuestions, try_catch.
    destruct (Z.eqb_spec examId 0) as [|_]; [congruence|].
    erewrite checks_pass.
    + change (questionsOfExam _ examId) with (questionsOfExam db examId).
      assert (forall f : question -> question_view,
                Nat.eqb (List.length (map f (questionsOfExam db examId))) 0 = false) as Hlen
        by (intro f; destruct (questionsOfExam db examId); [congruence | reflexivity]).
      rewrite Hlen. reflexivity.
    + rewrite isExamUnlocked_participants. exact Hun.
    + unfold findParticipant in *. cbn [participants].
      apply connectExam_same. exact Hp.
    + rewrite hasJoined_connected, Z.eqb_refl. apply orb_true_r.
Qed.

End JoinProperties.

Lemma join_with_the_code_of_the_exam_witness :
  exists view db',
    @joinExam echo_piston open_contest 8 (mkJoinBody (Some 2) (Some (lit " bravo ")))
    = (Answered 200 view, db')
    /\ jv_joined view = true
    /\ exams db' = exams open_contest
    /\ questions db' = questions open_contest
    /\ submissions db' = submissions open_contest
    /\ forall other level,
         joined db' other level
         = joined open_contest other level || ((other =? 8) && (level =? 2)).
Proof.
  apply (@join_with_the_code_of_the_exam echo_piston open_contest 8
           (mkJoinBody (Some 2) (Some (lit " bravo "))) 2 (lit " bravo ") level2 team8);
    try reflexivity; discriminate.
Defined.

(** The level that team 8 joins there is locked for it. *)
Example team8_joins_a_locked_level :
  isExamUnlocked open_contest 0 8 2 = false.
Proof. reflexivity. Qed.

Lemma joining_twice_is_joining_once_witness :
  @joinExam echo_piston
    (mkDB (exams open_contest) (questions open_contest) (submissions open_contest)
       (connectExam 8 1 (participants open_contest)))
    8 (mkJoinBody (Some 1) (Some (lit "ALPHA")))
  = (Answered 200 (mkJoinView (lit "Already joined this exam") true None),
     mkDB (exams open_contest) (questions open_contest) (submissions open_contest)
       (connectExam 8 1 (participants open_contest))).
Proof.
  apply (@joining_twice_is_joining_once echo_piston open_contest _ 8
           (mkJoinBody (Some 1) (Some (lit "ALPHA")))
           (mkJoinView (lit "Successfully joined exam") true (Some 1))).
  reflexivity.
Defined.

(** Team 8 sends the number 10^21 with the code of level 1: [parseInt]
    reads 1 in ["1e+21"], and the team has joined level 1. *)
Lemma nobody_joins_without_the_code_witness :
  joined open_contest 8 1 = true
  \/ (8 = 8
      /\ option_map (parseInt_number first_digit)
           (jb_examId (mkJoinBody (Some 1000000000000000000000) (Some (lit "alpha"))))
         = Some 1
      /\ exists exam code,
           findExam open_contest 1 = Some exam
           /\ jb_code (mkJoinBody (Some 1000000000000000000000) (Some (lit "alpha")))
              = Some code
           /\ @toLowerCase echo_piston (trim (exam_code exam))
              = @toLowerCase echo_piston (trim code)).
Proof.
  apply (@nobody_joins_without_the_code echo_piston first_digit open_contest
           (mkDB (exams open_contest) (questions open_contest) (submissions open_contest)
              (connectExam 8 1 (participants open_contest)))
           8 (mkJoinBody (Some 1000000000000000000000) (Some (lit "alpha")))
           (Answered 200 (mkJoinView (lit "Successfully joined exam") true (Some 1))) 8 1).
  - reflexivity.
  - reflexivity.
Defined.

(** The same request is refused with any other code, and a guess at the
    code of level 2 joins nothing. *)
Example a_large_examId_joins_the_level_parseInt_reads :
  parseInt_number first_digit 1000000000000000000000 = 1
  /\ parseInt_number first_digit (-2500000000000000000000) = -2
  /\ parseInt_number first_digit 999999999999999999999 = 999999999999999999999
  /\ @postJoinExam first_digit echo_piston open_contest 8
       (mkJoinBody (Some 1000000000000000000000) (Some (lit "bravo")))
     = (refuse 401 "Incorrect exam code", open_contest)
  /\ @postJoinExam first_digit echo_piston open_contest 8
       (mkJoinBody (Some 2) (Some (lit "guess")))
     = (refuse 401 "Incorrect exam code", open_contest).
Proof. vm_compute. repeat split. Qed.

Lemma join_grants_access_to_the_questions_witness :
  @getQuestions echo_piston open_contest 8 (Some 1) (start_at 0)
  = (Normal (fail 403 "Please enter the exam code to access this level."), start_at 0)
  /\ exists view db' listed,
       @joinExam echo_piston open_contest 8 (mkJoinBody (Some 1) (Some (lit "alpha")))
       = (Answered 200 view, db')
       /\ @getQuestions echo_piston db' 8 (Some 1) (start_at 0)
          = (Normal (json (QuestionsBody listed)), start_at 0).
Proof.
  apply (@join_grants_access_to_the_questions echo_piston open_contest 8
           (mkJoinBody (Some 1) (Some (lit "alpha"))) (start_at 0) 1 (lit "alpha")
           level1 team8);
    try reflexivity; discriminate.
Defined.

(** ** Registration *)

Section RegisterProperties.

Context {P : Platform}.

Lemma find_app_none {A} (f : A -> bool) (l l' : list A) :
  find f l = None -> find f (l ++ l') = find f l'.
Proof.
  induction l as [|x l IH]; simpl; [reflexivity|].
  destruct (f x); [discriminate | exact IH].
Qed.

Lemma NoDup_snoc {A} (l : list A) (x : A) : NoDup l -> ~ In x l -> NoDup (l ++ [x]).
Proof.
  induction l as [|y l IH]; simpl; intros Hnd Hnot.
  - constructor; [intros [] | constructor].
  - inversion Hnd as [|? ? Hy Hl]; subst. constructor.
    + intro Hin. apply in_app_or in Hin. destruct Hin as [Hin|[Hin|[]]]; [tauto|].
      subst. tauto.
    + apply IH; [assumption | tauto].
Qed.

Lemma name_not_taken db name :
  findParticipantByName db name = None -> ~ In name (map p_participantId (participants db)).
Proof.
  intros Hnone Hin. apply in_map_iff in Hin. destruct Hin as (p & Hp & Hin).
  pose proof (find_none _ _ Hnone p Hin) as Hno. simpl in Hno.
  rewrite Hp, str_eqb_refl in Hno. discriminate.
Qed.

(** X25.  Registration and login round-trip on the trimmed name.  A team
    name that is not blank and not taken is registered under its trimmed
    form, with status 201, and in the database the registration leaves,
    login under any spelling of the name that trims to the same string
    answers 200 with the id and the name of the participant registered. *)
Theorem register_then_login
    (db : DB) (name name' : jsstring) (collegeName : option jsstring) :
  trim name <> [] ->
  findParticipantByName db (trim name) = None ->
  trim name' = trim name ->
  exists view db' message logged,
    register db (Some name) collegeName = (Answered 201 view, db')
    /\ rv_participantId view = trim name
    /\ login db' (Some name') = json (LoginBody message logged)
    /\ lv_id logged = rv_id view
    /\ lv_participantId logged = trim name.
Proof.
  intros Hne Hfree Hsame. unfold register. cbn [option_map].
  destruct (trim name) as [|c s] eqn:Hname; [congruence|].
  rewrite Hfree. eexists _, _, _, _. split; [reflexivity|]. split; [reflexivity|].
  unfold login. cbn [option_map]. rewrite Hsame.
  unfold findParticipantByName in Hfree. cbn [participants].
  rewrite (find_app_none _ _ _ Hfree). cbn [find p_participantId].
  rewrite str_eqb_refl. repeat split.
Qed.

(** X26.  Registration keeps the team names distinct and touches nothing
    else.  Whatever the request, if the names were distinct before they are
    distinct after, the participants registered before are still there,
    unchanged and in their order, and the exams, questions and submissions are
    as they were; and a name that is taken, up to surrounding blanks, is
    refused with status 400 and changes nothing. *)
Theorem registration_keeps_team_names_distinct
    (db : DB) (participantId collegeName : option jsstring) :
  distinct_team_names db ->
  let answer := register db participantId collegeName in
  distinct_team_names (snd answer)
  /\ (exists added, participants (snd answer) = participants db ++ added)
  /\ exams (snd answer) = exams db
  /\ questions (snd answer) = questions db
  /\ submissions (snd answer) = submissions db
  /\ (forall name existing,
        participantId = Some name ->
        findParticipantByName db (trim name) = Some existing ->
        reply_status (fst answer) = 400 /\ snd answer = db).
Proof.
  intros Hnd answer. subst answer.
  assert (forall r : reply register_view,
            distinct_team_names (snd (r, db))
            /\ (exists added, participants (snd (r, db)) = participants db ++ added)
            /\ exams (snd (r, db)) = exams db
            /\ questions (snd (r, db)) = questions db
            /\ submissions (snd (r, db)) = submissions db) as Hsame.
  { intro r. cbn [snd]. repeat split; try assumption.
    exists []. rewrite app_nil_r. reflexivity. }
  unfold register.
  destruct participantId as [name|]; cbn [option_map].
  - destruct (trim name) as [|c s] eqn:Hname.
    + destruct (Hsame (refuse 400 "Team Name is required")) as (H1 & H2 & H3 & H4 & H5).
      repeat (split; [assumption|]).
      intros n existing Hn Hfind. injection Hn as <-.
      rewrite Hname in Hfind. split; reflexivity.
    + destruct (findParticipantByName db (c :: s)) as [existing|] eqn:Hfind.
      * destruct (Hsame (refuse 400
                    "Team name already registered. Please choose a different name."))
          as (H1 & H2 & H3 & H4 & H5).
        repeat (split; [assumption|]).
        intros n existing' Hn Hfind'. split; reflexivity.
      * cbn [fst snd].
        split; [|split; [|split; [|split; [|split]]]]; try reflexivity.
        -- unfold distinct_team_names. cbn [participants]. rewrite map_app. simpl.
           apply NoDup_snoc; [exact Hnd | apply name_not_taken; exact Hfind].
        -- eexists. reflexivity.
        -- intros n existing Hn Hfind'. injection Hn as <-.
           rewrite Hname, Hfind in Hfind'. discriminate.
  - destruct (Hsame (refuse 400 "Team Name is required")) as (H1 & H2 & H3 & H4 & H5).
    repeat (split; [assumption|]).
    intros n existing Hn. discriminate.
Qed.

End RegisterProperties.

Lemma register_then_login_witness :
  exists view db' message logged,
    @register echo_piston contest (Some (lit "  team9 ")) (Some (lit "Hill College "))
    = (Answered 201 view, db')
    /\ rv_participantId view = trim (lit "  team9 ")
    /\ @login echo_piston db' (Some (lit "team9 ")) = json (LoginBody message logged)
    /\ lv_id logged = rv_id view
    /\ lv_participantId logged = trim (lit "  team9 ").
Proof.
  apply (@register_then_login echo_piston contest (lit "  team9 ") (lit "team9 ")
           (Some (lit "Hill College "))).
  - discriminate.
  - reflexivity.
  - reflexivity.
Defined.

Lemma registration_keeps_team_names_distinct_witness :
  distinct_team_names (snd (@register echo_piston contest (Some (lit " team7 ")) None))
  /\ (exists added,
        participants (snd (@register echo_piston contest (Some (lit " team7 ")) None))
        = participants contest ++ added)
  /\ exams (snd (@register echo_piston contest (Some (lit " team7 ")) None)) = exams contest
  /\ questions (snd (@register echo_piston contest (Some (lit " team7 ")) None))
     = questions contest
  /\ submissions (snd (@register echo_piston contest (Some (lit " team7 ")) None))
     = submissions contest
  /\ (forall name existing,
        Some (lit " team7 ") = Some name ->
        findParticipantByName contest (trim name) = Some existing ->
        reply_status (fst (@register echo_piston contest (Some (lit " team7 ")) None)) = 400
        /\ snd (@register echo_piston contest (Some (lit " team7 ")) None) = contest).
Proof.
  apply (@registration_keeps_team_names_distinct echo_piston contest
           (Some (lit " team7 ")) None).
  unfold distinct_team_names. simpl. constructor; [intros []|constructor].
Defined.

(** ** The routes that only read *)

Lemma insert_by_Permutation {A} (compare : A -> A -> Z) (x : A) (l : list A) :
  Permutation (insert_by compare x l) (x :: l).
Proof.
  induction l as [|y l IH]; simpl; [reflexivity|].
  destruct (compare x y <=? 0); [reflexivity|].
  rewrite IH. apply perm_swap.
Qed.

Lemma sort_by_Permutation {A} (compare : A -> A -> Z) (l : list A) :
  Permutation (sort_by compare l) l.
Proof.
  unfold sort_by. induction l as [|x l IH]; simpl; [reflexivity|].
  rewrite insert_by_Permutation, IH. reflexivity.
Qed.

Section NewestFirst.

Variables (A : Type) (key : A -> Z).

Local Abbreviation newer := (newer_by key).

Lemma insert_by_newer (x : A) (l : list A) :
  Sorted newer l -> Sorted newer (insert_by (fun a b => key b - key a) x l).
Proof.
  induction l as [|y l IH]; simpl; intro Hs.
  - repeat constructor.
  - destruct (Z.leb_spec (key y - key x) 0) as [Hle|Hgt].
    + constructor; [assumption|]. constructor. unfold newer_by. lia.
    + inversion Hs as [|? ? Hl Hhd]; subst. constructor; [apply IH; assumption|].
      destruct l as [|z l]; simpl.
      * constructor. unfold newer_by. lia.
      * destruct (key z - key x <=? 0).
        -- constructor. unfold newer_by. lia.
        -- inversion Hhd; subst. constructor. assumption.
Qed.

Lemma sort_by_newer (l : list A) :
  StronglySorted newer (sort_by (fun a b => key b - key a) l).
Proof.
  apply Sorted_StronglySorted.
  - intros a b c. unfold newer_by. lia.
  - unfold sort_by. induction l as [|x l IH]; simpl; [constructor|].
    apply insert_by_newer. exact IH.
Qed.

End NewestFirst.

Lemma StronglySorted_map {A B} (f : A -> B) (R : B -> B -> Prop) (l : list A) :
  StronglySorted (fun a b => R (f a) (f b)) l -> StronglySorted R (map f l).
Proof.
  induction 1 as [|a l Hs IH Hall]; simpl; constructor; [assumption|].
  rewrite Forall_map. exact Hall.
Qed.

(** X27.  A participant sees all of their own submissions, nobody else's,
    newest first: GET /submissions answers 200 with a rearrangement of the
    participant's submissions in which no submission comes before a more
    recent one. *)
Theorem own_submissions_newest_first (db : DB) (participantId : Z) :
  exists listed,
    getSubmissions db participantId = Answered 200 listed
    /\ Permutation (map sl_submission listed)
         (filter (fun s => s_participantId s =? participantId) (submissions db))
    /\ Forall (fun s => s_participantId s = participantId) (map sl_submission listed)
    /\ StronglySorted (fun a b => s_createdAt a >= s_createdAt b) (map sl_submission listed).
Proof.
  eexists. split; [reflexivity|].
  rewrite map_map. cbn [sl_submission]. rewrite map_id.
  split; [apply sort_by_Permutation|]. split.
  - apply Forall_forall. intros s Hs. apply sort_by_In in Hs.
    apply filter_In in Hs. destruct Hs as [_ Hs]. apply Z.eqb_eq. exact Hs.
  - apply sort_by_newer.
Qed.

Section ReadingRoutes.

Context {P : Platform}.

(** X28.  The shuffle of the questions listing loses and repeats nothing:
    a list of questions the route answers with is a rearrangement of the
    questions of the level, each as the route shows it, and it is not empty,
    whatever the hash and the string comparison of the platform are. *)
Theorem shuffled_questions_are_the_questions_of_the_level
    (db : DB) (participantId : Z) (examId : option Z) (env env' : Env)
    (resp : http_response) (listed : list question_view) :
  getQuestions db participantId examId env = (Normal resp, env') ->
  payload resp = QuestionsBody listed ->
  exists level,
    examId = Some level
    /\ Permutation listed (map (view_question db participantId) (questionsOfExam db level))
    /\ listed <> [].
Proof.
  unfold getQuestions, try_catch.
  destruct examId as [level|]; [|intro H; injection H as <- _; discriminate].
  destruct (level =? 0); [intro H; injection H as <- _; discriminate|].
  unfold checks, bind, Date_now.
  destruct (negb (isExamUnlocked db (clock (world env)) participantId level));
    [intro H; injection H as <- _; discriminate|].
  destruct (findParticipant db participantId) as [p|];
    [|intro H; injection H as <- _; discriminate].
  destruct (negb (hasJoined p level)); [intro H; injection H as <- _; discriminate|].
  destruct (Nat.eqb_spec
              (List.length (map (view_question db participantId) (questionsOfExam db level))) 0)
    as [|Hn]; [intro H; injection H as <- _; discriminate|].
  intro H; injection H as <- _. cbn [payload json]. intro Hl; injection Hl as <-.
  exists level. split; [reflexivity|]. split; [apply sort_by_Permutation|].
  intro Hnil. apply Hn.
  match type of Hnil with
  | sort_by ?c ?l = [] =>
      rewrite <- (Permutation_length (sort_by_Permutation c l)), Hnil
  end.
  reflexivity.
Qed.

(** X29.  A single question is shown only from a level that is unlocked
    and joined, with its visible testcases only, and as the questions listing
    shows it.  GET /questions/:id always answers and changes nothing; when it
    answers with a question the status is 200, the level of the question is
    unlocked for the participant and joined, every testcase shown is a VISIBLE
    testcase of the question, and (the level's id not being 0) the questions
    listing of that level holds the same view; otherwise the status is 403,
    404 or 500. *)
Theorem single_question_is_shown_as_the_listing_shows_it
    (db : DB) (participantId questionId : Z) (env : Env) :
  exists r,
    getQuestion db participantId questionId env = (Normal r, env)
    /\ match r with
       | Answered st (level, shown) =>
           st = 200
           /\ isExamUnlocked db (clock (world env)) participantId level = true
           /\ joined db participantId level = true
           /\ lists_visible_testcases db shown
           /\ (level <> 0 ->
               exists listed,
                 getQuestions db participantId (Some level) env
                 = (Normal (json (QuestionsBody listed)), env)
                 /\ In shown listed)
       | Refused st _ => st = 403 \/ st = 404 \/ st = 500
       end.
Proof.
  unfold getQuestion, try_catch.
  destruct (findQuestion db questionId) as [q|] eqn:Hq;
    [|eexists; split; [reflexivity|]; simpl; tauto].
  unfold checks at 1, bind, Date_now.
  destruct (isExamUnlocked db (clock (world env)) participantId (q_examId q)) eqn:Hun;
    cbn [negb]; [|eexists; split; [reflexivity|]; simpl; tauto].
  destruct (findParticipant db participantId) as [p|] eqn:Hp;
    [|eexists; split; [reflexivity|]; simpl; tauto].
  destruct (hasJoined p (q_examId q)) eqn:Hj;
    cbn [negb]; [|eexists; split; [reflexivity|]; simpl; tauto].
  eexists; split; [reflexivity|]. cbn beta iota.
  destruct (findQuestion_id _ _ _ Hq) as [Hin Hid].
  split; [reflexivity|]. split; [exact Hun|].
  split; [unfold joined; rewrite Hp; exact Hj|].
  split; [apply view_question_visible; exact Hin|].
  intro Hnz.
  assert (In q (questionsOfExam db (q_examId q))) as Hlevel
    by (apply filter_In; split; [exact Hin | apply Z.eqb_refl]).
  eexists. split.
  - unfold getQuestions, try_catch.
    destruct (Z.eqb_spec (q_examId q) 0) as [|_]; [congruence|].
    erewrite checks_pass by eassumption.
    assert (Nat.eqb (List.length (map (view_question db participantId)
                                     (questionsOfExam db (q_examId q)))) 0 = false) as ->
      by (destruct (questionsOfExam db (q_examId q)); [contradiction | reflexivity]).
    reflexivity.
  - apply sort_by_In. apply in_map. exact Hlevel.
Qed.

Lemma existsb_flip (a : Z) (l : list Z) :
  existsb (Z.eqb a) l = existsb (fun id => id =? a) l.
Proof.
  induction l as [|x xs IH]; simpl; [reflexivity|].
  rewrite IH, (Z.eqb_sym a x). reflexivity.
Qed.

(** X30.  The levels listing has one entry per exam, in the order of the
    exams, and its [joined] flag is the very test the question routes make:
    for a participant that exists GET /exams answers 200 and changes nothing,
    and every entry has [joined] true exactly when the participant has joined
    the level, [needsCode] its negation, and [isLive] computed from the
    level's own window at the instant of the request. *)
Theorem levels_listing_has_every_exam_once
    (db : DB) (participantId : Z) (env : Env) (p : participant) :
  findParticipant db participantId = Some p ->
  exists statuses,
    getExams db participantId env = (Normal (json (ExamsBody statuses)), env)
    /\ map es_exam statuses = exams db
    /\ Forall (fun st =>
                 es_joined st = joined db participantId (exam_id (es_exam st))
                 /\ es_needsCode st = negb (es_joined st)
                 /\ es_isLive st = isLive (es_exam st) (clock (world env)))
              statuses.
Proof.
  intro Hp. unfold getExams, try_catch, bind, Date_now, ret. rewrite Hp.
  eexists. split; [reflexivity|]. unfold examStatus.
  generalize (@None exam) true.
  induction (exams db) as [|e l IH]; intros prev previousUnlocked; simpl.
  - split; [reflexivity | constructor].
  - destruct (IH (Some e) (match prev with
                            | Some prevExam =>
                                if previousUnlocked
                                then
                                  if Nat.ltb 0 (List.length (questionsOfExam db (exam_id prevExam)))
                                  then
                                    Nat.eqb
                                      (List.length
                                         (submissionsWhere db statusCompleted participantId
                                            (map q_id (questionsOfExam db (exam_id prevExam)))))
                                      (List.length (questionsOfExam db (exam_id prevExam)))
                                    || timedOut prevExam (clock (world env))
                                  else false
                                else false
                            | None => true
                            end)) as [Hmap Hall].
    split; [rewrite Hmap; reflexivity|].
    constructor; [|exact Hall]. cbn [es_joined es_needsCode es_isLive es_exam].
    split; [|split; reflexivity].
    unfold joined. rewrite Hp. unfold hasJoined. apply existsb_flip.
Qed.

End ReadingRoutes.

Lemma shuffled_questions_are_the_questions_of_the_level_witness :
  exists level,
    Some 1 = Some level
    /\ Permutation [view_question contest 7 squares]
         (map (view_question contest 7) (questionsOfExam contest level))
    /\ [view_question contest 7 squares] <> [].
Proof.
  apply (@shuffled_questions_are_the_questions_of_the_level echo_piston contest 7 (Some 1)
           (start_at 0) (start_at 0) (json (QuestionsBody [view_question contest 7 squares]))).
  - reflexivity.
  - reflexivity.
Defined.

Lemma levels_listing_has_every_exam_once_witness :
  exists statuses,
    @getExams echo_piston contest 7 (start_at 0) = (Normal (json (ExamsBody statuses)), start_at 0)
    /\ map es_exam statuses = exams contest
    /\ Forall (fun st =>
                 es_joined st = joined contest 7 (exam_id (es_exam st))
                 /\ es_needsCode st = negb (es_joined st)
                 /\ es_isLive st = isLive (es_exam st) (@clock echo_piston (world (start_at 0))))
              statuses.
Proof.
  apply (@levels_listing_has_every_exam_once echo_piston contest 7 (start_at 0) team7).
  reflexivity.
Defined.
